(** * ARQV30 social scraping: a shallow embedding of the Python services

    The development follows the Python sources:

    - [scrapers/apify_instagram_scraper.py], [scrapers/apify_facebook_scraper.py]:
      the rotation of API keys ([_get_next_api_key]);
    - [services/apify_viral_extractor.py], [services/apify_instagram_scraper.py]:
      the virality scores;
    - [services/social_media_extractor.py]: the simulated platform data and the
      sentiment summary;
    - [services/social_scraping_orchestrator.py]: the orchestrator.

    Conventions.  Python dictionaries are association lists in insertion order
    ([dict]), Python values are the type [value].  Python integers are [Z] (or
    [nat] for counters and indices that are never negative).  Python floats are
    represented by exact rationals, and [round(x, n)] by rounding to [n]
    decimals, half to even.  Fields that hold [datetime.now()] and log lines
    are left out.

    Coroutines are functions on a [World]: the orchestrator object, a clock in
    whole seconds, the deadline of an enclosing [asyncio.wait_for] and the
    trace of connector calls and sleeps.  An [await] that would pass the
    deadline raises [CancelledError] there, which [except Exception] does not
    catch (Python 3.8 and later).  What a remote job does (how long it runs,
    whether it succeeds, reports failure or raises) is a parameter.  So is
    the outcome of the imports of the orchestrator's module
    ([COMPONENTS_AVAILABLE]): the names they bind are bound when they
    succeeded, and evaluating one of them raises [NameError] when they did
    not.  The clock counts the suspensions of the coroutines; the time that a
    connector spends blocked in a synchronous request is not on it. *)

From Stdlib Require Import String Ascii List ZArith QArith Qround Qminmax Qabs.
From Stdlib Require Import Bool Arith Lia Lqa DecimalString DecimalNat Permutation.
From Equations Require Import Equations.
Import ListNotations.

Set Warnings "-register-all".

Open Scope string_scope.

(** ** Python values and dictionaries *)

Inductive value : Type :=
| VNone
| VBool (b : bool)
| VInt (z : Z)
| VFloat (q : Q)
| VStr (s : string)
| VList (l : list value)
| VDict (d : list (string * value)).

Definition dict := list (string * value).

(** [d.get(k)]: the value stored under [k], if any. *)
Fixpoint dict_get {V : Type} (d : list (string * V)) (k : string) : option V :=
  match d with
  | [] => None
  | (k', v) :: d' => if String.eqb k k' then Some v else dict_get d' k
  end.

(** [d[k] = v]: an existing key keeps its position, a new key goes last. *)
Fixpoint dict_set {V : Type} (d : list (string * V)) (k : string) (v : V)
  : list (string * V) :=
  match d with
  | [] => [(k, v)]
  | (k', v') :: d' =>
      if String.eqb k k' then (k, v) :: d' else (k', v') :: dict_set d' k v
  end.

(** [d.pop(k, None)]. *)
Fixpoint dict_pop {V : Type} (d : list (string * V)) (k : string)
  : list (string * V) :=
  match d with
  | [] => []
  | (k', v') :: d' =>
      if String.eqb k k' then d' else (k', v') :: dict_pop d' k
  end.

(** [d1.update(d2)]. *)
Definition dict_update {V : Type} (d1 d2 : list (string * V))
  : list (string * V) :=
  fold_left (fun d kv => dict_set d (fst kv) (snd kv)) d2 d1.

Definition keys {V : Type} (d : list (string * V)) : list string :=
  map fst d.

(** Truth value of [d.get(k)] in a condition. *)
Definition truthy (v : option value) : bool :=
  match v with
  | None | Some VNone => false
  | Some (VBool b) => b
  | Some (VInt z) => negb (Z.eqb z 0)
  | Some (VFloat q) => negb (Qeq_bool q 0)
  | Some (VStr s) => negb (String.eqb s EmptyString)
  | Some (VList l) => match l with [] => false | _ => true end
  | Some (VDict d) => match d with [] => false | _ => true end
  end.

(** [d.get(k, [])] where the stored value is a list. *)
Definition get_list (d : dict) (k : string) : list value :=
  match dict_get d k with
  | Some (VList l) => l
  | _ => []
  end.

(** [post.get(k)] on a post, which is a dictionary. *)
Definition post_get (post : value) (k : string) : option value :=
  match post with
  | VDict d => dict_get d k
  | _ => None
  end.

Definition is_str (v : option value) (s : string) : bool :=
  match v with
  | Some (VStr s') => String.eqb s' s
  | _ => false
  end.

(** [x in l] for a list of strings. *)
Definition str_in (x : string) (l : list string) : bool :=
  existsb (String.eqb x) l.

(** [str(n)] for integers. *)
Definition str (n : nat) : string := NilEmpty.string_of_uint (Nat.to_uint n).

Definition strZ (z : Z) : string := NilZero.string_of_int (Z.to_int z).

(** [s.lower()], on the ASCII letters. *)
Definition lower_ascii (c : ascii) : ascii :=
  let n := nat_of_ascii c in
  if (65 <=? n)%nat && (n <=? 90)%nat then ascii_of_nat (n + 32) else c.

Fixpoint lower (s : string) : string :=
  match s with
  | EmptyString => EmptyString
  | String c s' => String (lower_ascii c) (lower s')
  end.

(** Rounding of a rational to the nearest integer, ties to even. *)
Definition round_half_even (x : Q) : Z :=
  let f := Qfloor x in
  match Qcompare (x - inject_Z f) (1 # 2) with
  | Lt => f
  | Gt => (f + 1)%Z
  | Eq => if Z.even f then f else (f + 1)%Z
  end.

(** [round(x, ndigits)]. *)
Definition py_round (x : Q) (ndigits : nat) : Q :=
  let p := Pos.pow 10 (Pos.of_nat ndigits) in
  match ndigits with
  | O => inject_Z (round_half_even x)
  | S _ => Qmake (round_half_even (x * inject_Z (Zpos p))) p
  end.

(** ** Rotation of API keys ([scrapers/apify_*_scraper.py])

    [ApifyInstagramScraper] and [ApifyFacebookScraper] hold the same two
    attributes and the same method. *)

Record ApifyScraper := {
  api_keys : list string;
  current_key_index : nat
}.

Inductive index_result (A : Type) :=
| Returned (a : A)
| IndexError.
Arguments Returned {A} a.
Arguments IndexError {A}.

(** [__init__] after [_load_api_keys] has read [loaded] from the environment. *)
Definition scraper_init (loaded : list string) : ApifyScraper :=
  {| api_keys := loaded; current_key_index := 0 |}.

Definition _get_next_api_key (self : ApifyScraper)
  : index_result (option string) * ApifyScraper :=
  match api_keys self with
  | [] => (Returned None, self)
  | _ :: _ =>
      match nth_error (api_keys self) (current_key_index self) with
      | None => (IndexError, self)
      | Some key =>
          (Returned (Some key),
           {| api_keys := api_keys self;
              current_key_index :=
                (current_key_index self + 1) mod length (api_keys self) |})
      end
  end.

(** [n] successive calls; the keys handed out, oldest first. *)
Fixpoint next_calls (n : nat) (self : ApifyScraper)
  : list (index_result (option string)) * ApifyScraper :=
  match n with
  | O => ([], self)
  | S n' =>
      let (r, self') := _get_next_api_key self in
      let (rs, self'') := next_calls n' self' in
      (r :: rs, self'')
  end.

(** ** Virality scores *)

Definition get_int (d : list (string * Z)) (k : string) (default : Z) : Z :=
  match dict_get d k with
  | Some z => z
  | None => default
  end.

(** The weighted sum of the four counters ([base_score]). *)
Definition weighted_engagement
  (engagement_metrics : list (string * Z)) (platform : string) : Q :=
  let likes := inject_Z (get_int engagement_metrics "likes" 0) in
  let comments := inject_Z (get_int engagement_metrics "comments" 0) in
  let shares := inject_Z (get_int engagement_metrics "shares" 0) in
  let views := inject_Z (get_int engagement_metrics "views" 0) in
  if String.eqb (lower platform) "instagram" then
    (likes * 1.0) + (comments * 2.0) + (shares * 3.0) + (views * 0.1)
  else if String.eqb (lower platform) "facebook" then
    (likes * 0.8) + (comments * 1.5) + (shares * 4.0) + (views * 0.05)
  else
    (likes * 1.0) + (comments * 1.5) + (shares * 2.0) + (views * 0.1).

(** [ApifyViralExtractor.calculate_virality_score].  The body sits in a
    [try] whose handler returns [0.0]; on integer counters nothing in it
    raises, short of a float overflow that rationals do not have. *)
Definition calculate_virality_score
  (engagement_metrics : list (string * Z)) (platform : string)
  (author_followers : Z) : Q :=
  let base_score := weighted_engagement engagement_metrics platform in
  let virality_score :=
    if (author_followers >? 0)%Z then
      let engagement_rate := base_score / inject_Z author_followers in
      (base_score * 0.7) + (engagement_rate * 1000 * 0.3)
    else base_score in
  let normalized_score := Qmin 100 (Qmax 0 (virality_score / 100)) in
  py_round normalized_score 2.

(** [ApifyInstagramScraper._calculate_instagram_virality_score]
    ([services/apify_instagram_scraper.py]); [raw_post] holds the counters. *)
Definition _calculate_instagram_virality_score (raw_post : list (string * Z))
  : Q :=
  let likes := inject_Z (get_int raw_post "likesCount" 0) in
  let comments := inject_Z (get_int raw_post "commentsCount" 0) in
  let video_views := inject_Z (get_int raw_post "videoViewCount" 0) in
  let virality := (likes * 1) + (comments * 5) + (video_views * 0.1) in
  Qmin (py_round (virality / 1000) 2) 100.0.

(** ** Simulated platform data ([services/social_media_extractor.py]) *)

Section SocialMediaExtractor.

(** Python's built-in [hash] on strings, fixed for the life of one
    interpreter process. *)
Variable hash : string -> Z.

(** [range(n)] for a Python integer [n]. *)
Definition range (n : Z) : list nat := seq 0 (Z.to_nat n).

(** [sentiments[i % 3]]. *)
Definition sentiments : list string := ["positive"; "negative"; "neutral"].

Definition int_of (n : nat) : value := VInt (Z.of_nat n).

Definition _simulate_facebook_data (query : string) (max_results : Z) : dict :=
  let results :=
    map (fun i : nat =>
      VDict [
        ("title", VStr ("Post sobre " ++ query ++ " - Discussão interessante "
                        ++ str (i + 1)));
        ("text", VStr ("Compartilhando insights sobre " ++ query
           ++ ". O mercado está em constante evolução e precisamos acompanhar as tendências. #"
           ++ query ++ " #negócios #inovação"));
        ("author", VStr ("Especialista " ++ str (i + 1)));
        ("published_at", VStr "2024-08-01T00:00:00Z");
        ("like_count", int_of ((i + 1) * 45));
        ("comment_count", int_of ((i + 1) * 12));
        ("share_count", int_of ((i + 1) * 8));
        ("url", VStr ("https://www.facebook.com/share/p/"
           ++ strZ (hash (query ++ str i) mod 1000000000) ++ "/"));
        ("platform", VStr "facebook");
        ("engagement_rate",
           VFloat (py_round (inject_Z (Z.of_nat ((i + 1) * 65))
                             / inject_Z (Z.of_nat ((i + 1) * 2000)) * 100) 2));
        ("sentiment", VStr (nth (i mod 3) sentiments EmptyString));
        ("relevance_score",
           VFloat (py_round (0.7 + inject_Z (Z.of_nat i) * 0.03) 2));
        ("reactions", VDict [
           ("like", int_of ((i + 1) * 30));
           ("love", int_of ((i + 1) * 10));
           ("wow", int_of ((i + 1) * 3));
           ("haha", int_of ((i + 1) * 2));
           ("sad", VInt 0);
           ("angry", VInt 0)])
      ]) (range (Z.min max_results 8)) in
  [ ("success", VBool true);
    ("platform", VStr "facebook");
    ("results", VList results);
    ("total_found", int_of (length results));
    ("query", VStr query);
    ("data_source", VStr "simulated") ].

Definition _simulate_youtube_data (query : string) (max_results : Z) : dict :=
  let results :=
    map (fun i : nat =>
      VDict [
        ("title", VStr ("Vídeo sobre " ++ query ++ " - Tutorial Completo "
                        ++ str (i + 1)));
        ("description", VStr ("Aprenda tudo sobre " ++ query
           ++ " neste vídeo completo e prático"));
        ("channel", VStr ("Canal Expert " ++ str (i + 1)));
        ("published_at", VStr "2024-08-01T00:00:00Z");
        ("view_count", VStr (str ((i + 1) * 1500)));
        ("like_count", int_of ((i + 1) * 120));
        ("comment_count", int_of ((i + 1) * 45));
        ("url", VStr ("https://youtube.com/watch?v=example" ++ str (i + 1)));
        ("platform", VStr "youtube");
        ("engagement_rate",
           VFloat (py_round (inject_Z (Z.of_nat ((i + 1) * 120))
                             / inject_Z (Z.of_nat ((i + 1) * 1500)) * 100) 2));
        ("sentiment", VStr (if (i mod 3 =? 0)%nat then "positive" else "neutral"));
        ("relevance_score",
           VFloat (py_round (0.8 + inject_Z (Z.of_nat i) * 0.02) 2))
      ]) (range (Z.min max_results 8)) in
  [ ("success", VBool true);
    ("platform", VStr "youtube");
    ("results", VList results);
    ("total_found", int_of (length results));
    ("query", VStr query) ].

Definition _simulate_twitter_data (query : string) (max_results : Z) : dict :=
  let results :=
    map (fun i : nat =>
      VDict [
        ("text", VStr ("Interessante discussão sobre " ++ query
           ++ "! Vejo muito potencial no mercado brasileiro. #" ++ query
           ++ " #negócios #empreendedorismo"));
        ("author", VStr ("@especialista" ++ str (i + 1)));
        ("created_at", VStr "2024-08-01T00:00:00Z");
        ("retweet_count", int_of ((i + 1) * 15));
        ("like_count", int_of ((i + 1) * 35));
        ("reply_count", int_of ((i + 1) * 8));
        ("quote_count", int_of ((i + 1) * 5));
        ("url", VStr ("https://twitter.com/i/status/example" ++ str (i + 1)));
        ("platform", VStr "twitter");
        ("sentiment", VStr (nth (i mod 3) sentiments EmptyString));
        ("influence_score",
           VFloat (py_round (0.6 + inject_Z (Z.of_nat i) * 0.03) 2));
        ("hashtags", VList [VStr ("#" ++ query); VStr "#negócios"; VStr "#brasil"])
      ]) (range (Z.min max_results 12)) in
  [ ("success", VBool true);
    ("platform", VStr "twitter");
    ("results", VList results);
    ("total_found", int_of (length results));
    ("query", VStr query) ].

Definition _simulate_instagram_data (query : string) (max_results : Z) : dict :=
  let results :=
    map (fun i : nat =>
      VDict [
        ("caption", VStr ("Transformando o mercado de " ++ query
           ++ "! 🚀 Veja como esta inovação está mudando tudo! #" ++ query
           ++ " #inovação #brasil"));
        ("media_type", VStr "IMAGE");
        ("like_count", int_of ((i + 1) * 250));
        ("comment_count", int_of ((i + 1) * 18));
        ("timestamp", VStr "2024-08-01T00:00:00Z");
        ("url", VStr ("https://instagram.com/p/example" ++ str (i + 1)));
        ("username", VStr ("influencer" ++ str (i + 1)));
        ("platform", VStr "instagram");
        ("engagement_rate",
           VFloat (py_round (inject_Z (Z.of_nat ((i + 1) * 268))
                             / inject_Z (Z.of_nat ((i + 1) * 5000)) * 100) 2));
        ("hashtags", VList [VStr ("#" ++ query); VStr "#inovação";
                            VStr "#brasil"; VStr "#negócios"]);
        ("follower_count", int_of ((i + 1) * 5000))
      ]) (range (Z.min max_results 10)) in
  [ ("success", VBool true);
    ("platform", VStr "instagram");
    ("results", VList results);
    ("total_found", int_of (length results));
    ("query", VStr query) ].

End SocialMediaExtractor.

(** ** Sentiment summary ([SocialMediaExtractor.analyze_sentiment_trends]) *)

(** The counters of the two nested loops. *)
Record Tally := {
  positive : nat;
  negative : nat;
  neutral : nat
}.

Definition no_tally : Tally := {| positive := 0; negative := 0; neutral := 0 |}.

(** One pass of the inner loop: the post is counted once for its platform and
    once overall. *)
Definition tally_post (acc : Tally * Tally) (post : value) : Tally * Tally :=
  let (plat, total) := acc in
  let sentiment :=
    match post_get post "sentiment" with
    | Some v => Some v
    | None => Some (VStr "neutral")
    end in
  if is_str sentiment "positive" then
    ({| positive := positive plat + 1; negative := negative plat;
        neutral := neutral plat |},
     {| positive := positive total + 1; negative := negative total;
        neutral := neutral total |})
  else if is_str sentiment "negative" then
    ({| positive := positive plat; negative := negative plat + 1;
        neutral := neutral plat |},
     {| positive := positive total; negative := negative total + 1;
        neutral := neutral total |})
  else
    ({| positive := positive plat; negative := negative plat;
        neutral := neutral plat + 1 |},
     {| positive := positive total; negative := negative total;
        neutral := neutral total + 1 |}).

(** [round((count / n) * 100, 1)]. *)
Definition percentage (count n : nat) : Q :=
  py_round (inject_Z (Z.of_nat count) / inject_Z (Z.of_nat n) * 100) 1.

Definition dominant_sentiment (t : Tally) : string :=
  if (negative t <? positive t)%nat && (neutral t <? positive t)%nat
  then "positive"
  else if (positive t <? negative t)%nat then "negative"
  else "neutral".

(** The platforms the outer loop looks at. *)
Definition sentiment_platforms : list string :=
  ["youtube"; "twitter"; "instagram"; "linkedin"].

(** State of the outer loop. *)
Record SentimentAcc := {
  total : Tally;
  total_posts : nat;
  platform_sentiments : dict
}.

Definition sentiment_step (acc : SentimentAcc) (item : string * dict)
  : SentimentAcc :=
  let (platform_name, platform_data) := item in
  if str_in platform_name sentiment_platforms then
    let results := get_list platform_data "results" in
    let (plat, tot) := fold_left tally_post results (no_tally, total acc) in
    {| total := tot;
       total_posts := total_posts acc + length results;
       platform_sentiments :=
         if (0 <? length results)%nat then
           dict_set (platform_sentiments acc) platform_name
             (VDict [
                ("positive_percentage",
                   VFloat (percentage (positive plat) (length results)));
                ("negative_percentage",
                   VFloat (percentage (negative plat) (length results)));
                ("neutral_percentage",
                   VFloat (percentage (neutral plat) (length results)));
                ("total_posts", int_of (length results));
                ("dominant_sentiment", VStr (dominant_sentiment plat)) ])
         else platform_sentiments acc |}
  else acc.

Definition overall_sentiment (t : Tally) : string :=
  if (negative t <? positive t)%nat && (neutral t <? positive t)%nat
  then "positive"
  else if (positive t <? negative t)%nat && (neutral t <? negative t)%nat
  then "negative"
  else "neutral".

(** [abs(p - n)] on the two counters. *)
Definition abs_diff (p n : nat) : nat := Z.to_nat (Z.abs (Z.of_nat p - Z.of_nat n)).

Definition sentiment_loop (platforms_data : list (string * dict))
  : SentimentAcc :=
  fold_left sentiment_step platforms_data
    {| total := no_tally; total_posts := 0; platform_sentiments := [] |}.

Definition analyze_sentiment_trends (platforms_data : list (string * dict))
  : dict :=
  let acc := sentiment_loop platforms_data in
  let t := total acc in
  let n := total_posts acc in
  let pct (c : nat) : value :=
    if (0 <? n)%nat then VFloat (percentage c n) else VInt 0 in
  [ ("overall_sentiment", VStr (overall_sentiment t));
    ("overall_positive_percentage", pct (positive t));
    ("overall_negative_percentage", pct (negative t));
    ("overall_neutral_percentage", pct (neutral t));
    ("total_posts_analyzed", int_of n);
    ("platform_breakdown", VDict (platform_sentiments acc));
    ("confidence_score", pct (abs_diff (positive t) (negative t))) ].

Close Scope Q_scope.

(** ** The orchestrator ([services/social_scraping_orchestrator.py]) *)

Record ScrapingTask := {
  platform : string;
  query : string;
  max_results : Z;
  priority : nat;
  timeout_minutes : nat;
  retry_count : nat;
  max_retries : nat
}.

(** [task.retry_count += 1]. *)
Definition incr_retry_count (task : ScrapingTask) : ScrapingTask :=
  {| platform := platform task; query := query task;
     max_results := max_results task; priority := priority task;
     timeout_minutes := timeout_minutes task;
     retry_count := retry_count task + 1;
     max_retries := max_retries task |}.

Record Stats := {
  stats_total_tasks : nat;
  stats_successful_tasks : nat;
  stats_failed_tasks : nat;
  stats_fallback_used : nat;
  stats_api_rotations : nat
}.

(** The three maps are keyed by [f"{session_id}_{task.platform}"].  An entry
    holds the task as it is when it is stored: [active_tasks] entries are
    removed before the call returns, the other two are stored after the last
    change of [retry_count]. *)
Record SocialScrapingOrchestrator := {
  active_tasks : list (string * ScrapingTask);
  completed_tasks : list (string * ScrapingTask);
  failed_tasks : list (string * ScrapingTask);
  stats : Stats
}.

(** [__init__]. *)
Definition orchestrator_init : SocialScrapingOrchestrator :=
  {| active_tasks := []; completed_tasks := []; failed_tasks := [];
     stats := {| stats_total_tasks := 0; stats_successful_tasks := 0;
                 stats_failed_tasks := 0; stats_fallback_used := 0;
                 stats_api_rotations := 0 |} |}.

(** *** Exceptions, time and the monad of coroutines *)

(** [CancelledError] derives from [BaseException]: [except Exception] lets
    it through.  [asyncio.TimeoutError] is an [Exception]. *)
Inductive exn :=
| PyException (msg : string)
| TimeoutError
| CancelledError.

Definition is_Exception (e : exn) : bool :=
  match e with
  | CancelledError => false
  | _ => true
  end.

(** [str(e)]. *)
Definition str_exn (e : exn) : string :=
  match e with
  | PyException msg => msg
  | _ => EmptyString
  end.

(** What the outside sees of a run: calls of a connector and sleeps. *)
Inductive Event :=
| EvRealScraping (task : ScrapingTask)
| EvSleep (seconds : nat).

(** A coroutine runs on the orchestrator object, at a time [now] in seconds,
    under the [deadline] at which an enclosing [asyncio.wait_for] cancels it
    ([None]: nothing cancels it). *)
Record World := {
  self : SocialScrapingOrchestrator;
  now : nat;
  deadline : option nat;
  trace : list Event
}.

Inductive Outcome (A : Type) :=
| Return (a : A)
| Raise (e : exn).
Arguments Return {A} a.
Arguments Raise {A} e.

Definition M (A : Type) : Type := World -> Outcome A * World.

Definition ret {A : Type} (a : A) : M A := fun w => (Return a, w).

Definition raise {A : Type} (e : exn) : M A := fun w => (Raise e, w).

Definition bind {A B : Type} (m : M A) (k : A -> M B) : M B :=
  fun w =>
    match m w with
    | (Return a, w') => k a w'
    | (Raise e, w') => (Raise e, w')
    end.

Notation "x <- m ;; k" := (bind m (fun x => k))
  (at level 61, m at next level, right associativity).
Notation "m ;; k" := (bind m (fun _ => k))
  (at level 61, right associativity).

(** [try: body  except Exception as e: handler e]. *)
Definition try_except {A : Type} (body : M A) (handler : exn -> M A) : M A :=
  fun w =>
    match body w with
    | (Return a, w') => (Return a, w')
    | (Raise e, w') =>
        if is_Exception e then handler e w' else (Raise e, w')
    end.

(** [try: body  except asyncio.TimeoutError: handler]. *)
Definition try_except_timeout {A : Type} (body : M A) (handler : M A) : M A :=
  fun w =>
    match body w with
    | (Raise TimeoutError, w') => handler w'
    | r => r
    end.

(** [try: body  finally: final]. *)
Definition try_finally {A : Type} (body : M A) (final : M unit) : M A :=
  fun w =>
    match body w with
    | (r, w') =>
        match final w' with
        | (Return _, w'') => (r, w'')
        | (Raise e, w'') => (Raise e, w'')
        end
    end.

Definition get_self : M SocialScrapingOrchestrator :=
  fun w => (Return (self w), w).

Definition set_self (f : SocialScrapingOrchestrator -> SocialScrapingOrchestrator)
  : M unit :=
  fun w =>
    (Return tt,
     {| self := f (self w); now := now w; deadline := deadline w;
        trace := trace w |}).

Definition get_now : M nat := fun w => (Return (now w), w).

Definition get_trace : M (list Event) := fun w => (Return (trace w), w).

Definition log_event (ev : Event) : M unit :=
  fun w =>
    (Return tt,
     {| self := self w; now := now w; deadline := deadline w;
        trace := trace w ++ [ev] |}).

Definition at_time (w : World) (t : nat) : World :=
  {| self := self w; now := t; deadline := deadline w; trace := trace w |}.

(** A suspension of [d] seconds.  When the deadline falls before its end the
    coroutine is cancelled at the deadline. *)
Definition await_seconds (d : nat) : M unit :=
  fun w =>
    match deadline w with
    | Some dl =>
        if (dl <? now w + d)%nat then (Raise CancelledError, at_time w dl)
        else (Return tt, at_time w (now w + d))
    | None => (Return tt, at_time w (now w + d))
    end.

(** [await asyncio.sleep(seconds)]. *)
Definition sleep (seconds : nat) : M unit :=
  log_event (EvSleep seconds) ;; await_seconds seconds.

(** *** The connectors ([services/apify_*_scraper.py])

    A connector drives a remote job.  What the job does is not the
    orchestrator's: it takes [run_seconds] and ends in one of three ways. *)

Record ProcessedData := {
  pd_posts : list value;
  pd_total_comments : Z;
  pd_total_engagement : Z
}.

Inductive ScrapeOutcome :=
| ScrapeOk (processed_data : ProcessedData)
| ScrapeFailed (error : string)
| ScrapeRaises (msg : string).

Record ScrapeRun := {
  run_seconds : nat;
  run_outcome : ScrapeOutcome
}.

Section Orchestrator.

Variable hash : string -> Z.

(** The module flag set by the imports: true when the [try] block of the
    imports ran to its end, false when one of them raised [ImportError]. *)
Variable COMPONENTS_AVAILABLE : bool.

(** The remote side: its answer to a call, given all that happened before. *)
Variable remote : list Event -> ScrapingTask -> ScrapeRun.

(** A call of a connector, as the event loop sees it: one suspension of
    [run_seconds], which a cancellation ends at the deadline.  The connectors
    also block in synchronous HTTP requests, during which no cancellation is
    delivered; the clock of the model does not count them, so that it is a
    clock of the suspensions, not of the wall. *)
Definition connector_run (task : ScrapingTask) : M ScrapeOutcome :=
  tr <- get_trace ;;
  log_event (EvRealScraping task) ;;
  await_seconds (run_seconds (remote tr task)) ;;
  ret (run_outcome (remote tr task)).

(** The dictionary that [scrape_facebook_posts] returns on success, for the
    [config] that [_execute_real_scraping] builds from the task. *)
Definition facebook_success_response (task : ScrapingTask)
  (processed_data : ProcessedData) : dict :=
  [ ("success", VBool true);
    ("platform", VStr "facebook");
    ("query", VStr (query task));
    ("posts", VList (pd_posts processed_data));
    ("total_posts", int_of (length (pd_posts processed_data)));
    ("total_comments", VInt (pd_total_comments processed_data));
    ("total_reactions", VInt (pd_total_engagement processed_data));
    ("scraping_config", VDict [
       ("max_posts", VInt (max_results task));
       ("max_comments_per_post", VInt 10);
       ("include_reactions", VBool true);
       ("include_shares", VBool true)]);
    ("metadata", VDict [
       ("actor_id", VStr "alien_force/facebook-posts-comments-scraper");
       ("execution_time_seconds", VInt 0)]) ].

(** [ApifyFacebookScraper._create_error_response]. *)
Definition facebook_error_response (task : ScrapingTask) (error : string)
  : dict :=
  [ ("success", VBool false);
    ("platform", VStr "facebook");
    ("query", VStr (query task));
    ("error", VStr error);
    ("posts", VList []);
    ("total_posts", VInt 0);
    ("total_comments", VInt 0);
    ("total_reactions", VInt 0) ].

(** [apify_facebook_scraper.scrape_facebook_posts(config)]. *)
Definition scrape_facebook_posts (task : ScrapingTask) : M dict :=
  out <- connector_run task ;;
  match out with
  | ScrapeOk processed_data => ret (facebook_success_response task processed_data)
  | ScrapeFailed error => ret (facebook_error_response task error)
  | ScrapeRaises msg => raise (PyException msg)
  end.

(** [config.search_query or str(config.hashtags) or str(config.usernames)],
    where the task leaves both lists at [None]. *)
Definition instagram_query (task : ScrapingTask) : string :=
  if String.eqb (query task) EmptyString then "None" else query task.

Definition instagram_success_response (task : ScrapingTask)
  (processed_data : ProcessedData) : dict :=
  [ ("success", VBool true);
    ("platform", VStr "instagram");
    ("query", VStr (instagram_query task));
    ("posts", VList (pd_posts processed_data));
    ("total_posts", int_of (length (pd_posts processed_data)));
    ("total_comments", VInt (pd_total_comments processed_data));
    ("total_likes", VInt (pd_total_engagement processed_data));
    ("scraping_config", VDict [
       ("max_posts", VInt (max_results task));
       ("include_comments", VBool true);
       ("max_comments_per_post", VInt 10);
       ("results_type", VStr "posts")]);
    ("metadata", VDict [
       ("actor_id", VStr "apify/instagram-scraper");
       ("execution_time_seconds", VInt 0)]) ].

(** [ApifyInstagramScraper._create_error_response]. *)
Definition instagram_error_response (task : ScrapingTask) (error : string)
  : dict :=
  [ ("success", VBool false);
    ("platform", VStr "instagram");
    ("query", VStr (instagram_query task));
    ("error", VStr error);
    ("posts", VList []);
    ("total_posts", VInt 0);
    ("total_comments", VInt 0);
    ("total_likes", VInt 0) ].

(** [apify_instagram_scraper.scrape_instagram_posts(config)]. *)
Definition scrape_instagram_posts (task : ScrapingTask) : M dict :=
  out <- connector_run task ;;
  match out with
  | ScrapeOk processed_data => ret (instagram_success_response task processed_data)
  | ScrapeFailed error => ret (instagram_error_response task error)
  | ScrapeRaises msg => raise (PyException msg)
  end.

(** *** Results built by the orchestrator *)

Definition _create_fallback_result (task : ScrapingTask) : dict :=
  [ ("success", VBool true);
    ("platform", VStr (platform task));
    ("query", VStr (query task));
    ("results", VList []);
    ("total_found", VInt 0);
    ("data_source", VStr "fallback_empty");
    ("message", VStr ("Fallback ativado para " ++ platform task
                      ++ " devido a timeout ou erro")) ].

Definition _create_error_result (task : ScrapingTask) (error : string) : dict :=
  [ ("success", VBool false);
    ("platform", VStr (platform task));
    ("query", VStr (query task));
    ("error", VStr error);
    ("results", VList []);
    ("total_found", VInt 0);
    ("retry_count", int_of (retry_count task)) ].

Definition _execute_real_scraping (task : ScrapingTask) : M dict :=
  if String.eqb (platform task) "facebook" then scrape_facebook_posts task
  else if String.eqb (platform task) "instagram" then scrape_instagram_posts task
  else ret [ ("success", VBool false);
             ("error", VStr ("Plataforma " ++ platform task
                             ++ " não suportada para scraping real")) ].

(** What the coroutine returns where the names it uses are bound: it has no
    suspension point and touches no state, a function.  The evaluation of
    [social_media_extractor], which can fail, is in [fallback] below. *)
Definition _execute_fallback_scraping (task : ScrapingTask) : dict :=
  if String.eqb (platform task) "facebook" then
    _simulate_facebook_data hash (query task) (max_results task)
  else if String.eqb (platform task) "instagram" then
    _simulate_instagram_data (query task) (max_results task)
  else if String.eqb (platform task) "youtube" then
    _simulate_youtube_data (query task) (max_results task)
  else if String.eqb (platform task) "twitter" then
    _simulate_twitter_data (query task) (max_results task)
  else
    _create_error_result task
      ("Plataforma " ++ platform task ++ " não suportada").

(** *** One task *)

Definition task_key (session_id : string) (task : ScrapingTask) : string :=
  session_id ++ "_" ++ platform task.

Definition set_active (k : string) (task : ScrapingTask) : M unit :=
  set_self (fun o =>
    {| active_tasks := dict_set (active_tasks o) k task;
       completed_tasks := completed_tasks o;
       failed_tasks := failed_tasks o; stats := stats o |}).

Definition pop_active (k : string) : M unit :=
  set_self (fun o =>
    {| active_tasks := dict_pop (active_tasks o) k;
       completed_tasks := completed_tasks o;
       failed_tasks := failed_tasks o; stats := stats o |}).

Definition set_completed (k : string) (task : ScrapingTask) : M unit :=
  set_self (fun o =>
    {| active_tasks := active_tasks o;
       completed_tasks := dict_set (completed_tasks o) k task;
       failed_tasks := failed_tasks o; stats := stats o |}).

Definition set_failed (k : string) (task : ScrapingTask) : M unit :=
  set_self (fun o =>
    {| active_tasks := active_tasks o;
       completed_tasks := completed_tasks o;
       failed_tasks := dict_set (failed_tasks o) k task; stats := stats o |}).

(** [self.stats['fallback_used'] += 1]. *)
Definition incr_fallback_used : M unit :=
  set_self (fun o =>
    {| active_tasks := active_tasks o;
       completed_tasks := completed_tasks o;
       failed_tasks := failed_tasks o;
       stats :=
         {| stats_total_tasks := stats_total_tasks (stats o);
            stats_successful_tasks := stats_successful_tasks (stats o);
            stats_failed_tasks := stats_failed_tasks (stats o);
            stats_fallback_used := stats_fallback_used (stats o) + 1;
            stats_api_rotations := stats_api_rotations (stats o) |} |}).

(** The part of the [try] block after the real scraping: simulated data,
    once [social_media_extractor] is evaluated. *)
Definition fallback_branch (task : ScrapingTask) (session_id : string)
  : M dict :=
  result <- ret (_execute_fallback_scraping task) ;;
  incr_fallback_used ;;
  set_completed (task_key session_id task) task ;;
  ret result.

(** The module's global [social_media_extractor].  The last import of the
    [try] block that ends in [COMPONENTS_AVAILABLE = True] binds it: when the
    flag is false an earlier statement of the block raised, the name is not
    bound, and evaluating it raises [NameError], which is an [Exception]. *)
Definition social_media_extractor : M unit :=
  if COMPONENTS_AVAILABLE then ret tt
  else raise (PyException "name 'social_media_extractor' is not defined").

(** The branches of [_execute_fallback_scraping] that call a generator of
    [social_media_extractor]; the last branch builds its error record
    without it. *)
Definition uses_social_media_extractor (task : ScrapingTask) : bool :=
  str_in (platform task) ["facebook"; "instagram"; "youtube"; "twitter"].

(** The fallback as the [try] block runs it:
    [result = await self._execute_fallback_scraping(task)], whose first step
    in those branches is the evaluation of [social_media_extractor], then the
    bookkeeping. *)
Definition fallback (task : ScrapingTask) (session_id : string) : M dict :=
  (if uses_social_media_extractor task then social_media_extractor
   else ret tt) ;;
  fallback_branch task session_id.

(** The [try] block. *)
Definition attempt (task : ScrapingTask) (session_id : string) : M dict :=
  if str_in (platform task) ["facebook"; "instagram"] && COMPONENTS_AVAILABLE
  then
    result <- _execute_real_scraping task ;;
    if truthy (dict_get result "success") then
      set_completed (task_key session_id task) task ;;
      ret result
    else fallback task session_id
  else fallback task session_id.

Equations? _execute_single_task_with_fallback
  (task : ScrapingTask) (session_id : string) : M dict
  by wf (max_retries task - retry_count task) lt :=
_execute_single_task_with_fallback task session_id :=
  set_active (task_key session_id task) task ;;
  try_finally
    (try_except
       (attempt task session_id)
       (fun e =>
          match lt_dec (retry_count task) (max_retries task) with
          | left _ =>
              sleep 2 ;;
              _execute_single_task_with_fallback (incr_retry_count task)
                session_id
          | right _ =>
              set_failed (task_key session_id task) task ;;
              ret (_create_error_result task (str_exn e))
          end))
    (pop_active (task_key session_id task)).
Proof.
  simpl. lia.
Qed.

(** *** A tier of tasks

    [asyncio.wait_for] around [asyncio.gather] of the coroutines, with
    [return_exceptions=True].
    The coroutines start together at the present time.  They share the
    orchestrator object, on which they act here in the order of the list; each
    has its own clock.  A coroutine that would pass the deadline is cancelled
    there, and the wait then ends in [TimeoutError]. *)

Definition with_deadline (w : World) (dl : option nat) : World :=
  {| self := self w; now := now w; deadline := dl; trace := trace w |}.

Fixpoint run_all {A : Type} (coros : list (M A)) (t0 : nat) (w : World)
  : list (Outcome A * nat) * World :=
  match coros with
  | [] => ([], w)
  | c :: cs =>
      let (r, w1) := c (at_time w t0) in
      let (rs, w2) := run_all cs t0 w1 in
      ((r, now w1) :: rs, w2)
  end.

Definition was_cancelled {A : Type} (r : Outcome A * nat) : bool :=
  match fst r with
  | Raise CancelledError => true
  | _ => false
  end.

(** The earlier of the enclosing deadline and the new one. *)
Definition earliest (outer : option nat) (dl : nat) : nat :=
  match outer with
  | Some d => Nat.min d dl
  | None => dl
  end.

Definition wait_for_gather {A : Type} (coros : list (M A)) (timeout : nat)
  : M (list (Outcome A)) :=
  fun w =>
    let t0 := now w in
    let dl := t0 + timeout in
    let (rs, w1) :=
      run_all coros t0 (with_deadline w (Some (earliest (deadline w) dl))) in
    let w2 := with_deadline w1 (deadline w) in
    if existsb was_cancelled rs then
      if (earliest (deadline w) dl <? dl)%nat
      then (Raise CancelledError, at_time w2 (earliest (deadline w) dl))
      else (Raise TimeoutError, at_time w2 dl)
    else
      (Return (map fst rs), at_time w2 (fold_left Nat.max (map snd rs) t0)).

(** The loop over [enumerate(task_results)]: an exception object in the list
    becomes the empty fallback result. *)
Definition collect_results (tasks : list ScrapingTask)
  (task_results : list (Outcome dict)) : list (string * dict) :=
  fold_left
    (fun results (tr : ScrapingTask * Outcome dict) =>
       match snd tr with
       | Raise _ =>
           dict_set results (platform (fst tr)) (_create_fallback_result (fst tr))
       | Return result => dict_set results (platform (fst tr)) result
       end)
    (combine tasks task_results) [].

(** The loop of the [except asyncio.TimeoutError] branch. *)
Definition all_fallback_results (tasks : list ScrapingTask)
  : list (string * dict) :=
  fold_left
    (fun results task =>
       dict_set results (platform task) (_create_fallback_result task))
    tasks [].

Definition tier_timeout (task0 : ScrapingTask) : nat :=
  if (priority task0 =? 1)%nat then 600 else 300.

Definition _execute_priority_batch (tasks : list ScrapingTask)
  (session_id : string) : M (list (string * dict)) :=
  let async_tasks :=
    map (fun task => _execute_single_task_with_fallback task session_id) tasks in
  try_except_timeout
    (match tasks with
     | [] => raise (PyException "list index out of range")
     | task0 :: _ =>
         task_results <- wait_for_gather async_tasks (tier_timeout task0) ;;
         ret (collect_results tasks task_results)
     end)
    (ret (all_fallback_results tasks)).

(** [if tier: results.update(await self._execute_priority_batch(tier, ...))]. *)
Definition run_tier (tier : list ScrapingTask) (session_id : string)
  (results : list (string * dict)) : M (list (string * dict)) :=
  match tier with
  | [] => ret results
  | _ :: _ =>
      tier_results <- _execute_priority_batch tier session_id ;;
      ret (dict_update results tier_results)
  end.

Definition _execute_tasks_with_fallbacks (tasks : list ScrapingTask)
  (session_id : string) : M (list (string * dict)) :=
  let high_priority := filter (fun t => (priority t =? 1)%nat) tasks in
  let medium_priority := filter (fun t => (priority t =? 2)%nat) tasks in
  let low_priority := filter (fun t => (priority t =? 3)%nat) tasks in
  results <- run_tier high_priority session_id [] ;;
  results <- run_tier medium_priority session_id results ;;
  results <- run_tier low_priority session_id results ;;
  ret results.

(** *** The report *)

(** [len([k for k in d.keys() if k.startswith(session_id)])]. *)
Definition count_session (d : list (string * ScrapingTask))
  (session_id : string) : nat :=
  length (filter (String.prefix session_id) (keys d)).

Definition get_session_stats (o : SocialScrapingOrchestrator)
  (session_id : string) : dict :=
  let active := count_session (active_tasks o) session_id in
  let completed := count_session (completed_tasks o) session_id in
  let failed := count_session (failed_tasks o) session_id in
  [ ("active_tasks", int_of active);
    ("completed_tasks", int_of completed);
    ("failed_tasks", int_of failed);
    ("total_tasks", int_of (active + completed + failed)) ].

(** The counters of the loop of [_compile_final_result]. *)
Record Compiled := {
  c_total_posts : nat;
  successful_platforms : list string;
  failed_platforms : list string
}.

Definition compile_step (acc : Compiled) (item : string * dict) : Compiled :=
  if truthy (dict_get (snd item) "success") then
    {| c_total_posts := c_total_posts acc + length (get_list (snd item) "results");
       successful_platforms := successful_platforms acc ++ [fst item];
       failed_platforms := failed_platforms acc |}
  else
    {| c_total_posts := c_total_posts acc;
       successful_platforms := successful_platforms acc;
       failed_platforms := failed_platforms acc ++ [fst item] |}.

Definition compile_loop (platform_results : list (string * dict)) : Compiled :=
  fold_left compile_step platform_results
    {| c_total_posts := 0; successful_platforms := [];
       failed_platforms := [] |}.

(** The report, where [social_media_extractor] is bound for the sentiment
    analysis; the evaluation of the name is in
    [execute_comprehensive_scraping] below. *)
Definition _compile_final_result (o : SocialScrapingOrchestrator)
  (query : string) (platform_results : list (string * dict))
  (session_id : string) : dict :=
  let c := compile_loop platform_results in
  let sentiment_analysis := analyze_sentiment_trends platform_results in
  [ ("success", VBool (0 <? c_total_posts c)%nat);
    ("query", VStr query);
    ("session_id", VStr session_id);
    ("all_platforms_data",
       VDict (map (fun kv => (fst kv, VDict (snd kv))) platform_results));
    ("sentiment_analysis", VDict sentiment_analysis);
    ("total_posts", int_of (c_total_posts c));
    ("platforms_analyzed", int_of (length platform_results));
    ("successful_platforms", VList (map VStr (successful_platforms c)));
    ("failed_platforms", VList (map VStr (failed_platforms c)));
    ("data_source", VStr "orchestrated_scraping");
    ("stats", VDict (get_session_stats o session_id)) ].

Definition update_stats_step (s : Stats) (item : string * dict) : Stats :=
  if truthy (dict_get (snd item) "success") then
    {| stats_total_tasks := stats_total_tasks s;
       stats_successful_tasks := stats_successful_tasks s + 1;
       stats_failed_tasks := stats_failed_tasks s;
       stats_fallback_used := stats_fallback_used s;
       stats_api_rotations := stats_api_rotations s |}
  else
    {| stats_total_tasks := stats_total_tasks s;
       stats_successful_tasks := stats_successful_tasks s;
       stats_failed_tasks := stats_failed_tasks s + 1;
       stats_fallback_used := stats_fallback_used s;
       stats_api_rotations := stats_api_rotations s |}.

Definition _update_stats (results : list (string * dict)) : M unit :=
  set_self (fun o =>
    {| active_tasks := active_tasks o;
       completed_tasks := completed_tasks o;
       failed_tasks := failed_tasks o;
       stats :=
         fold_left update_stats_step results
           {| stats_total_tasks := stats_total_tasks (stats o) + length results;
              stats_successful_tasks := stats_successful_tasks (stats o);
              stats_failed_tasks := stats_failed_tasks (stats o);
              stats_fallback_used := stats_fallback_used (stats o);
              stats_api_rotations := stats_api_rotations (stats o) |} |}).

(** *** The public operation *)

Definition default_platforms : list string :=
  ["facebook"; "instagram"; "youtube"; "twitter"].

(** [ScrapingTask(platform=..., query=..., max_results=..., priority=...)]. *)
Definition new_task (query : string) (max_results_per_platform : Z)
  (platform : string) : ScrapingTask :=
  {| platform := platform;
     query := query;
     max_results := max_results_per_platform;
     priority := if str_in platform ["facebook"; "instagram"] then 1 else 2;
     timeout_minutes := 10;
     retry_count := 0;
     max_retries := 2 |}.

Definition execute_comprehensive_scraping (query : string)
  (platforms : option (list string)) (max_results_per_platform : Z)
  (session_id : option string) : M dict :=
  let platforms :=
    match platforms with
    | None => default_platforms
    | Some l => l
    end in
  t <- get_now ;;
  let session_id :=
    match session_id with
    | Some s => if String.eqb s EmptyString then "scraping_" ++ str t else s
    | None => "scraping_" ++ str t
    end in
  let tasks := map (new_task query max_results_per_platform) platforms in
  results <- _execute_tasks_with_fallbacks tasks session_id ;;
  o <- get_self ;;
  (* [_compile_final_result] evaluates [social_media_extractor] for the
     sentiment analysis, outside any [try] *)
  social_media_extractor ;;
  let final_result := _compile_final_result o query results session_id in
  _update_stats results ;;
  ret final_result.

End Orchestrator.

(** ** Vocabulary of the statements *)

(** The platforms the fallback generator knows. *)
Definition generator_platforms : list string :=
  ["facebook"; "instagram"; "youtube"; "twitter"].

(** The bound of the [range] of each simulation. *)
Definition platform_cap (platform : string) : Z :=
  if String.eqb platform "twitter" then 12
  else if String.eqb platform "instagram" then 10
  else 8.

(** The engagement counters of a record: likes, comments, shares, views, and
    what twitter calls them. *)
Definition engagement_keys : list string :=
  ["like_count"; "comment_count"; "share_count"; "view_count";
   "retweet_count"; "reply_count"; "quote_count"].

(** A counter read as an integer; the simulated YouTube views are a decimal
    string. *)
Definition count_of (post : value) (key : string) : option Z :=
  match post_get post key with
  | Some (VInt z) => Some z
  | Some (VStr s) =>
      match NilEmpty.uint_of_string s with
      | Some u => Some (Z.of_nat (Nat.of_uint u))
      | None => None
      end
  | _ => None
  end.

(** What one counter grows by from a record to the next, per platform. *)
Definition engagement_step (platform key : string) : option Z :=
  if String.eqb platform "facebook" then
    if String.eqb key "like_count" then Some 45%Z
    else if String.eqb key "comment_count" then Some 12%Z
    else if String.eqb key "share_count" then Some 8%Z
    else None
  else if String.eqb platform "instagram" then
    if String.eqb key "like_count" then Some 250%Z
    else if String.eqb key "comment_count" then Some 18%Z
    else None
  else if String.eqb platform "youtube" then
    if String.eqb key "like_count" then Some 120%Z
    else if String.eqb key "comment_count" then Some 45%Z
    else if String.eqb key "view_count" then Some 1500%Z
    else None
  else if String.eqb platform "twitter" then
    if String.eqb key "like_count" then Some 35%Z
    else if String.eqb key "retweet_count" then Some 15%Z
    else if String.eqb key "reply_count" then Some 8%Z
    else if String.eqb key "quote_count" then Some 5%Z
    else None
  else None.

(** The sentiment under which the summary counts a post. *)
Definition sentiment_of (post : value) : string :=
  if is_str (post_get post "sentiment") "positive" then "positive"
  else if is_str (post_get post "sentiment") "negative" then "negative"
  else "neutral".

Definition count_sentiment (s : string) (posts : list value) : nat :=
  length (filter (fun p => String.eqb (sentiment_of p) s) posts).

(** The numbers of positive, negative and neutral records of a list. *)
Definition tally_of (posts : list value) : Tally :=
  {| positive := count_sentiment "positive" posts;
     negative := count_sentiment "negative" posts;
     neutral := count_sentiment "neutral" posts |}.

(** The records of all the platforms of the input. *)
Definition all_records (platforms_data : list (string * dict)) : list value :=
  flat_map (fun kv => get_list (snd kv) "results") platforms_data.


(** The entry of a platform in [platform_breakdown]. *)
Definition breakdown_entry (records : list value) (dominant : string) : value :=
  VDict [
    ("positive_percentage",
       VFloat (percentage (positive (tally_of records)) (length records)));
    ("negative_percentage",
       VFloat (percentage (negative (tally_of records)) (length records)));
    ("neutral_percentage",
       VFloat (percentage (neutral (tally_of records)) (length records)));
    ("total_posts", int_of (length records));
    ("dominant_sentiment", VStr dominant) ].

Definition tally_add (a b : Tally) : Tally :=
  {| positive := positive a + positive b;
     negative := negative a + negative b;
     neutral := neutral a + neutral b |}.

(** The entries of the input that the loop of the summary looks at. *)
Definition analysed (platforms_data : list (string * dict))
  : list (string * dict) :=
  filter (fun kv => str_in (fst kv) sentiment_platforms) platforms_data.

(** The kinds of result that a platform can end with. *)
Definition live_result (r : dict) : Prop :=
  exists task processed_data,
    r = facebook_success_response task processed_data \/
    r = instagram_success_response task processed_data.

Definition fallback_result (hash : string -> Z) (r : dict) : Prop :=
  exists task,
    In (platform task) generator_platforms /\
    r = _execute_fallback_scraping hash task.

Definition fallback_empty_result (r : dict) : Prop :=
  exists task, r = _create_fallback_result task.

Definition error_result (r : dict) : Prop :=
  exists task msg, r = _create_error_result task msg.

(** What one task can return. *)
Definition task_result (hash : string -> Z) (r : dict) : Prop :=
  live_result r \/ fallback_result hash r \/ error_result r.

(** What the report can hold for a platform. *)
Definition platform_result (hash : string -> Z) (r : dict) : Prop :=
  live_result r \/ fallback_result hash r \/ fallback_empty_result r \/
  error_result r.

(** A coroutine that leaves the deadline alone, returns a value in [P] and
    raises nothing but the cancellation by an enclosing deadline. *)
Definition safe {A : Type} (P : A -> Prop) (m : M A) : Prop :=
  forall w,
    deadline (snd (m w)) = deadline w /\
    match fst (m w) with
    | Return a => P a
    | Raise e => e = CancelledError /\ deadline w <> None
    end.

(** The same, except that it may also raise a Python [Exception]. *)
Definition may_fail {A : Type} (P : A -> Prop) (m : M A) : Prop :=
  forall w,
    deadline (snd (m w)) = deadline w /\
    match fst (m w) with
    | Return a => P a
    | Raise e =>
        (e = CancelledError /\ deadline w <> None) \/
        exists msg, e = PyException msg
    end.

(** Some task of the tier is still running when the timeout of the tier
    elapses: its coroutine, run under the deadline of the tier, is cancelled. *)
Definition tier_times_out (hash : string -> Z) (COMPONENTS_AVAILABLE : bool)
  (remote : list Event -> ScrapingTask -> ScrapeRun)
  (tasks : list ScrapingTask) (session_id : string) (w : World) : bool :=
  match tasks with
  | [] => false
  | task0 :: _ =>
      existsb was_cancelled
        (fst (run_all
                (map (fun task =>
                        _execute_single_task_with_fallback hash
                          COMPONENTS_AVAILABLE remote task session_id) tasks)
                (now w)
                (with_deadline w
                   (Some (earliest (deadline w)
                            (now w + tier_timeout task0))))))
  end.

(** The invariant of the dictionary of results between tiers: a dictionary
    whose values are platform results. *)
Definition results_ok (hash : string -> Z) (results : list (string * dict))
  : Prop :=
  NoDup (keys results) /\
  forall p r, dict_get results p = Some r -> platform_result hash r.


(** The per-platform results as they sit in the report. *)
Definition as_platforms_data (results : list (string * dict)) : value :=
  VDict (map (fun kv => (fst kv, VDict (snd kv))) results).

(** The records of the platform results whose own [success] is true. *)
Definition successful_records (results : list (string * dict)) : nat :=
  list_sum
    (map (fun kv =>
            if truthy (dict_get (snd kv) "success")
            then length (get_list (snd kv) "results")
            else 0)
       results).




(** ** More of the orchestrator *)

Open Scope Q_scope.

(** [SocialScrapingOrchestrator.get_global_stats]: the counters, and two
    rates in percent over [max(total_tasks, 1)]. *)
Definition get_global_stats (o : SocialScrapingOrchestrator) : dict :=
  let s := stats o in
  let rate (n : nat) : value :=
    VFloat (py_round
              (inject_Z (Z.of_nat n)
               / inject_Z (Z.of_nat (Nat.max (stats_total_tasks s) 1)) * 100) 2) in
  [ ("total_tasks", int_of (stats_total_tasks s));
    ("successful_tasks", int_of (stats_successful_tasks s));
    ("failed_tasks", int_of (stats_failed_tasks s));
    ("fallback_used", int_of (stats_fallback_used s));
    ("api_rotations", int_of (stats_api_rotations s));
    ("success_rate", rate (stats_successful_tasks s));
    ("fallback_rate", rate (stats_fallback_used s)) ].

Close Scope Q_scope.

(** A coroutine that leaves a part [f] of the world as it found it. *)
Definition preserves {A X : Type} (f : World -> X) (m : M A) : Prop :=
  forall w, f (snd (m w)) = f w.

(** A coroutine that keeps a property of the world. *)
Definition keeps {A : Type} (I : World -> Prop) (m : M A) : Prop :=
  forall w, I w -> I (snd (m w)).

(** A suspension of [d] seconds ends before the deadline, if any. *)
Definition in_time (w : World) (d : nat) : Prop :=
  match deadline w with
  | Some dl => (now w + d <= dl)%nat
  | None => True
  end.

(** The three counters that [_update_stats] maintains. *)
Definition task_counters (w : World) : nat * nat * nat :=
  (stats_total_tasks (stats (self w)),
   stats_successful_tasks (stats (self w)),
   stats_failed_tasks (stats (self w))).

(** The orchestrator after the bookkeeping of a task that went straight to the
    fallback generator. *)
Definition after_fallback (o : SocialScrapingOrchestrator) (k : string)
  (task : ScrapingTask) : SocialScrapingOrchestrator :=
  {| active_tasks := dict_pop (dict_set (active_tasks o) k task) k;
     completed_tasks := dict_set (completed_tasks o) k task;
     failed_tasks := failed_tasks o;
     stats :=
       {| stats_total_tasks := stats_total_tasks (stats o);
          stats_successful_tasks := stats_successful_tasks (stats o);
          stats_failed_tasks := stats_failed_tasks (stats o);
          stats_fallback_used := stats_fallback_used (stats o) + 1;
          stats_api_rotations := stats_api_rotations (stats o) |} |}.

(** The orchestrator after the bookkeeping of a task whose connector
    succeeded. *)
Definition after_live (o : SocialScrapingOrchestrator) (k : string)
  (task : ScrapingTask) : SocialScrapingOrchestrator :=
  {| active_tasks := dict_pop (dict_set (active_tasks o) k task) k;
     completed_tasks := dict_set (completed_tasks o) k task;
     failed_tasks := failed_tasks o;
     stats := stats o |}.


(** ** Loading the API keys ([scrapers/apify_*_scraper.py])

    [env] is the environment as [os.getenv] sees it. *)

Definition key_names : list string :=
  map (fun i : nat => "APIFY_API_KEY_" ++ str i) (seq 1 10).

(** [key = os.getenv(name); if key: keys.append(key)]. *)
Definition load_step (env : string -> option string) (keys : list string)
  (name : string) : list string :=
  match env name with
  | Some key => if String.eqb key EmptyString then keys else (keys ++ [key])%list
  | None => keys
  end.

Definition _load_api_keys (env : string -> option string) : list string :=
  let keys := fold_left (load_step env) key_names [] in
  match keys with
  | [] => load_step env [] "APIFY_API_KEY"
  | _ :: _ => keys
  end.

(** [os.getenv(name)] is set to a string that is not empty. *)
Definition env_set (env : string -> option string) (name : string) : bool :=
  match env name with
  | Some key => negb (String.eqb key EmptyString)
  | None => false
  end.

(** ** Scores of a Facebook post ([services/apify_facebook_scraper.py])

    [raw_post] holds the counters; on integer counters nothing in the bodies
    raises, so the bare [except] that returns [0.0] is not reached. *)

Open Scope Q_scope.

Definition _calculate_engagement_rate (raw_post : list (string * Z)) : Q :=
  let total_engagement :=
    (get_int raw_post "likesCount" 0 + get_int raw_post "commentsCount" 0
     + get_int raw_post "sharesCount" 0)%Z in
  let estimated_reach := Z.max (total_engagement * 10) 1000 in
  py_round (inject_Z total_engagement / inject_Z estimated_reach * 100) 2.

Definition _calculate_virality_score (raw_post : list (string * Z)) : Q :=
  let shares := get_int raw_post "sharesCount" 0 in
  let comments := get_int raw_post "commentsCount" 0 in
  let reactions := get_int raw_post "reactionsCount" 0 in
  let virality := (shares * 3 + comments * 2 + reactions * 1)%Z in
  Qmin (py_round (inject_Z virality / 100) 2) 100.0.

Close Scope Q_scope.

(** ** Waiting for a run of an actor ([services/apify_*_scraper.py])

    [_wait_for_completion] is the same in both connectors.  The clock counts
    whole seconds; a request is answered at once, time passes in the sleeps.
    What the request of time [t] yields is a parameter. *)








(** ** More simulated data ([services/social_media_extractor.py]) *)

Definition _simulate_linkedin_data (query : string) (max_results : Z) : dict :=
  let results :=
    map (fun i : nat =>
      VDict [
        ("title", VStr ("O Futuro do " ++ query
                        ++ ": Tendências e Oportunidades"));
        ("content", VStr ("Análise profissional sobre o crescimento exponencial no setor de "
           ++ query ++ ". Dados mostram aumento de 200% na demanda."));
        ("author", VStr ("Dr. Especialista " ++ str (i + 1)));
        ("company", VStr ("Consultoria Innovation " ++ str (i + 1)));
        ("published_date", VStr "2024-08-01");
        ("likes", int_of ((i + 1) * 85));
        ("comments", int_of ((i + 1) * 25));
        ("shares", int_of ((i + 1) * 12));
        ("url", VStr ("https://linkedin.com/posts/example" ++ str (i + 1)));
        ("platform", VStr "linkedin");
        ("author_title", VStr ("CEO & Founder - Expert em " ++ query));
        ("company_size", VStr (str ((i + 1) * 500) ++ "-" ++ str ((i + 1) * 1000)
                               ++ " funcionários"));
        ("engagement_quality",
           VStr (if (i mod 2 =? 0)%nat then "high" else "medium"))
      ]) (range (Z.min max_results 8)) in
  [ ("success", VBool true);
    ("platform", VStr "linkedin");
    ("results", VList results);
    ("total_found", int_of (length results));
    ("query", VStr query) ].

Definition search_platforms : list string :=
  ["facebook"; "youtube"; "twitter"; "instagram"; "linkedin"].

(** [platform_data = results.get(platform, {})] followed by
    [if platform_data.get("results"): ... len(platform_data["results"])]. *)
Definition count_results (results : dict) (total : nat) (platform : string)
  : nat :=
  match dict_get results platform with
  | Some (VDict platform_data) =>
      if truthy (dict_get platform_data "results")
      then (total + length (get_list platform_data "results"))%nat
      else total
  | _ => total
  end.

Definition search_all_platforms (hash : string -> Z) (query : string)
  (max_results_per_platform : Z) : dict :=
  let results : dict :=
    [ ("query", VStr query);
      ("platforms", VList (map VStr search_platforms));
      ("total_results", VInt 0);
      ("facebook",
         VDict (_simulate_facebook_data hash query max_results_per_platform));
      ("youtube", VDict (_simulate_youtube_data query max_results_per_platform));
      ("twitter", VDict (_simulate_twitter_data query max_results_per_platform));
      ("instagram",
         VDict (_simulate_instagram_data query max_results_per_platform));
      ("linkedin",
         VDict (_simulate_linkedin_data query max_results_per_platform));
      ("search_quality", VStr "simulated") ] in
  let total_results := fold_left (count_results results) search_platforms 0%nat in
  dict_set (dict_set results "total_results" (int_of total_results))
    "success" (VBool (0 <? total_results)%nat).

(** The entries of a dictionary that are dictionaries themselves: what
    [analyze_sentiment_trends] can look into when it is given the result of
    a search. *)
Definition dict_entries (d : dict) : list (string * dict) :=
  flat_map (fun kv => match snd kv with
                      | VDict x => [(fst kv, x)]
                      | _ => []
                      end) d.

Definition extract_platforms : list string :=
  ["facebook"; "instagram"; "youtube"; "twitter"; "linkedin"].

(** [platform_data = all_platforms_data.get(platform, {})] followed by
    [if platform_data.get("results"): all_posts.extend(...)]. *)
Definition extend_posts (all_platforms_data : dict) (all_posts : list value)
  (platform : string) : list value :=
  match dict_get all_platforms_data platform with
  | Some (VDict platform_data) =>
      if truthy (dict_get platform_data "results")
      then (all_posts ++ get_list platform_data "results")%list
      else all_posts
  | _ => all_posts
  end.

(** [_extract_simulated_data(query, context, session_id)]; [context] is not
    used. *)
Definition _extract_simulated_data (hash : string -> Z) (query : string)
  (session_id : string) : dict :=
  let all_platforms_data := search_all_platforms hash query 15 in
  let sentiment_analysis :=
    analyze_sentiment_trends (dict_entries all_platforms_data) in
  let all_posts :=
    fold_left (extend_posts all_platforms_data) extract_platforms [] in
  [ ("success", VBool true);
    ("query", VStr query);
    ("session_id", VStr session_id);
    ("posts", VList all_posts);
    ("all_platforms_data", VDict all_platforms_data);
    ("sentiment_analysis", VDict sentiment_analysis);
    ("total_posts", int_of (length all_posts));
    ("platforms_analyzed",
       int_of (length (get_list all_platforms_data "platforms")));
    ("data_source", VStr "simulated_fallback") ].

(** * Properties *)

Open Scope nat_scope.

(** ** Dictionaries *)

Section DictFacts.

Context {V : Type}.
Implicit Types (d : list (string * V)) (k : string) (v : V).

Lemma dict_get_set_same d k v : dict_get (dict_set d k v) k = Some v.
Proof.
  induction d as [|[k' v'] d IH]; simpl.
  - rewrite String.eqb_refl. reflexivity.
  - destruct (String.eqb k k') eqn:E; simpl.
    + rewrite String.eqb_refl. reflexivity.
    + rewrite E. exact IH.
Qed.

Lemma dict_get_set_other d k k' v :
  k' <> k -> dict_get (dict_set d k v) k' = dict_get d k'.
Proof.
  intros Hne. induction d as [|[k0 v0] d IH]; simpl.
  - apply String.eqb_neq in Hne. rewrite Hne. reflexivity.
  - destruct (String.eqb k k0) eqn:E; simpl.
    + apply String.eqb_eq in E. subst k0.
      apply String.eqb_neq in Hne. rewrite Hne. reflexivity.
    + destruct (String.eqb k' k0); [reflexivity|exact IH].
Qed.

Lemma dict_get_None d k : dict_get d k = None <-> ~ In k (keys d).
Proof.
  induction d as [|[k' v'] d IH]; simpl.
  - tauto.
  - destruct (String.eqb k k') eqn:E.
    + apply String.eqb_eq in E. subst. split; [discriminate|tauto].
    + apply String.eqb_neq in E. rewrite IH. split.
      * intros H [H'|H']; [congruence|tauto].
      * tauto.
Qed.

Lemma In_dict_get d k v : NoDup (keys d) -> In (k, v) d -> dict_get d k = Some v.
Proof.
  induction d as [|[k' v'] d IH]; simpl; [tauto|].
  intros Hnd [H|H].
  - inversion H. subst. rewrite String.eqb_refl. reflexivity.
  - inversion Hnd as [|? ? Hni Hnd']. subst.
    destruct (String.eqb k k') eqn:E.
    + apply String.eqb_eq in E. subst k'.
      exfalso. apply Hni. change k with (fst (k, v)). apply in_map. exact H.
    + auto.
Qed.

Lemma keys_dict_set d k v :
  keys (dict_set d k v) = if existsb (String.eqb k) (keys d) then keys d
                          else (keys d ++ [k])%list.
Proof.
  induction d as [|[k' v'] d IH]; simpl; [reflexivity|].
  destruct (String.eqb k k') eqn:E; simpl.
  - apply String.eqb_eq in E. subst. reflexivity.
  - rewrite IH. destruct (existsb _ _); reflexivity.
Qed.

Lemma In_keys_dict_set d k v k' :
  In k' (keys (dict_set d k v)) <-> k' = k \/ In k' (keys d).
Proof.
  rewrite keys_dict_set.
  destruct (existsb (String.eqb k) (keys d)) eqn:E.
  - apply existsb_exists in E. destruct E as [x [Hx E]].
    apply String.eqb_eq in E. subst x.
    split; [tauto|]. intros [->|H]; assumption.
  - rewrite in_app_iff. simpl. split; [intros [H|[H|[]]]; auto|].
    intros [H|H]; auto.
Qed.

Lemma NoDup_keys_dict_set d k v :
  NoDup (keys d) -> NoDup (keys (dict_set d k v)).
Proof.
  intros Hnd. rewrite keys_dict_set.
  destruct (existsb (String.eqb k) (keys d)) eqn:E; [exact Hnd|].
  apply NoDup_app; [exact Hnd| repeat constructor; simpl; tauto |].
  intros x Hx [Hk|[]]. subst x.
  assert (Ht : existsb (String.eqb k) (keys d) = true).
  { apply existsb_exists. exists k. split; [exact Hx|apply String.eqb_refl]. }
  congruence.
Qed.

End DictFacts.

Lemma str_in_In (x : string) (l : list string) : str_in x l = true <-> In x l.
Proof.
  unfold str_in. rewrite existsb_exists. split.
  - intros [y [Hy E]]. apply String.eqb_eq in E. subst. exact Hy.
  - intros H. exists x. split; [exact H|apply String.eqb_refl].
Qed.

(** ** Rotation of API keys *)

(** One call on a non-empty pool with the cursor in range hands out the key
    under the cursor and moves the cursor one place on, cyclically. *)
Lemma get_next_api_key_in_range (keys : list string) (i : nat) :
  i < length keys ->
  exists key,
    nth_error keys i = Some key /\
    _get_next_api_key {| api_keys := keys; current_key_index := i |} =
      (Returned (Some key),
       {| api_keys := keys; current_key_index := (i + 1) mod length keys |}).
Proof.
  intros Hi.
  destruct (nth_error keys i) as [key|] eqn:Hk.
  - exists key. split; [reflexivity|].
    unfold _get_next_api_key. simpl.
    destruct keys as [|k0 ks]; [simpl in Hi; lia|].
    rewrite Hk. reflexivity.
  - apply nth_error_None in Hk. lia.
Qed.

(** The [j]-th of [n] successive calls hands out the key at
    [(i + j) mod N]. *)
Lemma next_calls_nth (keys : list string) :
  forall n i j,
    i < length keys -> j < n ->
    nth_error (fst (next_calls n {| api_keys := keys; current_key_index := i |})) j
    = Some (Returned (nth_error keys ((i + j) mod length keys))).
Proof.
  induction n as [|n IH]; intros i j Hi Hj; [lia|].
  destruct (get_next_api_key_in_range keys i Hi) as [key [Hk Hcall]].
  simpl. rewrite Hcall.
  assert (Hi' : (i + 1) mod length keys < length keys)
    by (apply Nat.mod_upper_bound; lia).
  destruct (next_calls n _) as [rs self''] eqn:Hrest.
  destruct j as [|j].
  - simpl. rewrite Nat.add_0_r, Nat.mod_small by exact Hi.
    rewrite Hk. reflexivity.
  - simpl.
    specialize (IH ((i + 1) mod length keys) j Hi' ltac:(lia)).
    rewrite Hrest in IH. simpl in IH. rewrite IH.
    rewrite Nat.Div0.add_mod_idemp_l.
    replace (i + 1 + j) with (i + S j) by lia. reflexivity.
Qed.

(** ** Virality scores *)

Open Scope Q_scope.

Lemma round_half_even_between (x : Q) (a b : Z) :
  inject_Z a <= x -> x <= inject_Z b ->
  (a <= round_half_even x <= b)%Z.
Proof.
  intros Ha Hb.
  assert (Hfa : (a <= Qfloor x)%Z).
  { rewrite <- (Qfloor_Z a). apply Qfloor_resp_le. exact Ha. }
  assert (Hfb : (Qfloor x <= b)%Z).
  { rewrite <- (Qfloor_Z b). apply Qfloor_resp_le. exact Hb. }
  assert (Hup : inject_Z (Qfloor x) < x -> (Qfloor x + 1 <= b)%Z).
  { intros Hlt.
    assert (Hlt' : inject_Z (Qfloor x) < inject_Z b)
      by (eapply Qlt_le_trans; eauto).
    rewrite <- Zlt_Qlt in Hlt'. lia. }
  unfold round_half_even.
  destruct (Qcompare (x - inject_Z (Qfloor x)) (1 # 2)) eqn:Hc.
  - apply Qeq_alt in Hc.
    destruct (Z.even (Qfloor x)); [lia|].
    split; [lia|]. apply Hup. lra.
  - lia.
  - apply Qgt_alt in Hc. split; [lia|]. apply Hup. lra.
Qed.

(** Rounding to two decimals keeps a value of [[0, 100]] there, and the
    result is a whole number of hundredths. *)
Lemma py_round_2_bounds (x : Q) :
  0 <= x -> x <= 100 ->
  0 <= py_round x 2 /\ py_round x 2 <= 100 /\
  exists n : Z, py_round x 2 = Qmake n 100.
Proof.
  intros H0 H100.
  assert (Hr : (0 <= round_half_even (x * inject_Z 100) <= 10000)%Z).
  { apply round_half_even_between.
    - change (inject_Z 0) with 0. change (inject_Z 100) with 100. lra.
    - change (inject_Z 10000) with 10000. change (inject_Z 100) with 100. lra. }
  unfold py_round.
  change (Pos.pow 10 (Pos.of_nat 2)) with 100%positive.
  split; [|split].
  - unfold Qle. simpl. lia.
  - unfold Qle. simpl. lia.
  - eexists. reflexivity.
Qed.

Lemma py_round_2_nonneg (x : Q) :
  0 <= x -> 0 <= py_round x 2 /\ exists n : Z, py_round x 2 = Qmake n 100.
Proof.
  intros H0.
  assert (Hr : (0 <= Qfloor (x * inject_Z 100))%Z).
  { rewrite <- (Qfloor_Z 0). apply Qfloor_resp_le.
    change (inject_Z 0) with 0. change (inject_Z 100) with 100. lra. }
  unfold py_round.
  change (Pos.pow 10 (Pos.of_nat 2)) with 100%positive.
  split; [|eexists; reflexivity].
  unfold Qle. simpl. unfold round_half_even.
  destruct (Qcompare _ _); [destruct (Z.even _)|..]; lia.
Qed.

(** The weighted engagement of [calculate_virality_score] is not negative
    when the four counters are not. *)
Lemma weighted_engagement_nonneg (metrics : list (string * Z)) (platform : string) :
  (forall k, 0 <= get_int metrics k 0)%Z ->
  0 <= weighted_engagement metrics platform.
Proof.
  intros H.
  pose proof (H "likes") as Hl. pose proof (H "comments") as Hc.
  pose proof (H "shares") as Hs. pose proof (H "views") as Hv.
  rewrite Zle_Qle in Hl, Hc, Hs, Hv.
  change (inject_Z 0) with 0 in *.
  unfold weighted_engagement.
  destruct (String.eqb _ _); [|destruct (String.eqb _ _)]; lra.
Qed.

(** C7. For counters and a follower count that are not negative,
    [calculate_virality_score] returns a score between 0 and 100 that is a
    whole number of hundredths; it is the rounded, clamped hundredth of the
    weighted engagement, which for a non-zero follower count is first blended
    at 70% with the engagement per follower (times 1000) at 30%.  The
    Instagram connector's own score lies in the same interval. *)
Theorem virality_score_bounds
  (engagement_metrics raw_post : list (string * Z)) (platform : string)
  (author_followers : Z) :
  (forall k, 0 <= get_int engagement_metrics k 0)%Z ->
  (forall k, 0 <= get_int raw_post k 0)%Z ->
  (0 <= author_followers)%Z ->
  let score :=
    calculate_virality_score engagement_metrics platform author_followers in
  let e := weighted_engagement engagement_metrics platform in
  let blended :=
    if (0 <? author_followers)%Z
    then (e * 0.7) + (e / inject_Z author_followers * 1000 * 0.3)
    else e in
  (0 <= score /\ score <= 100) /\
  (exists n : Z, score = Qmake n 100) /\
  score = py_round (Qmin 100 (Qmax 0 (blended / 100))) 2 /\
  (0 <= _calculate_instagram_virality_score raw_post /\
   _calculate_instagram_virality_score raw_post <= 100) /\
  (exists n : Z, _calculate_instagram_virality_score raw_post == Qmake n 100).
Proof.
  intros Hm Hr Hf score e blended.
  assert (Hscore : score = py_round (Qmin 100 (Qmax 0 (blended / 100))) 2).
  { unfold score, blended, e, calculate_virality_score, weighted_engagement.
    rewrite Z.gtb_ltb. reflexivity. }
  assert (Hclamp : 0 <= Qmin 100 (Qmax 0 (blended / 100)) /\
                   Qmin 100 (Qmax 0 (blended / 100)) <= 100).
  { split.
    - apply Q.min_glb; [lra|apply Q.le_max_l].
    - apply Q.le_min_l. }
  destruct (py_round_2_bounds _ (proj1 Hclamp) (proj2 Hclamp)) as [H0 [H100 Hn]].
  rewrite <- Hscore in H0, H100, Hn.
  split; [split; assumption|]. split; [assumption|]. split; [assumption|].
  pose proof (Hr "likesCount") as Hl. pose proof (Hr "commentsCount") as Hc.
  pose proof (Hr "videoViewCount") as Hv.
  rewrite Zle_Qle in Hl, Hc, Hv. change (inject_Z 0) with 0 in *.
  unfold _calculate_instagram_virality_score.
  set (v := inject_Z (get_int raw_post "likesCount" 0) * 1
            + inject_Z (get_int raw_post "commentsCount" 0) * 5
            + inject_Z (get_int raw_post "videoViewCount" 0) * 0.1).
  assert (Hv0 : 0 <= v / 1000).
  { apply Qle_shift_div_l; [reflexivity|]. unfold v. lra. }
  destruct (py_round_2_nonneg _ Hv0) as [Hp [n Hpn]].
  split; [split|].
  - apply Q.min_glb; [exact Hp|lra].
  - eapply Qle_trans; [apply Q.le_min_r|]. lra.
  - destruct (Q.min_spec (py_round (v / 1000) 2) 100.0) as [[_ He]|[_ He]].
    + exists n. rewrite <- Hpn. exact He.
    + exists 10000%Z. eapply Qeq_trans; [exact He|reflexivity].
Qed.

Lemma virality_score_bounds_witness :
  let score :=
    calculate_virality_score [("likes", 5000%Z); ("comments", 10%Z)]
      "Instagram" 1000 in
  (0 <= score /\ score <= 100) /\ score = 50.20.
Proof.
  pose proof (virality_score_bounds
                [("likes", 5000%Z); ("comments", 10%Z)]
                [("likesCount", 120%Z)] "Instagram" 1000) as H.
  simpl in H.
  assert (Hm : forall k,
             (0 <= get_int [("likes", 5000%Z); ("comments", 10%Z)] k 0)%Z).
  { intros k. unfold get_int. simpl.
    destruct (String.eqb k "likes"); [lia|].
    destruct (String.eqb k "comments"); lia. }
  assert (Hr : forall k, (0 <= get_int [("likesCount", 120%Z)] k 0)%Z).
  { intros k. unfold get_int. simpl.
    destruct (String.eqb k "likesCount"); lia. }
  specialize (H Hm Hr ltac:(lia)).
  split; [exact (proj1 H)|reflexivity].
Defined.

Close Scope Q_scope.

(** C9. On a pool of [N >= 1] keys, starting from the initial cursor, the
    [j]-th call of [_get_next_api_key] hands out the key at [j mod N], whatever
    else happened: the first call returns the first key and so does call
    [N + 1]. *)
Theorem next_api_key_round_robin (keys : list string) :
  1 <= length keys ->
  let calls := fst (next_calls (length keys + 1) (scraper_init keys)) in
  (forall j, j <= length keys ->
     nth_error calls j = Some (Returned (nth_error keys (j mod length keys)))) /\
  nth_error calls 0 = Some (Returned (hd_error keys)) /\
  nth_error calls (length keys) = Some (Returned (hd_error keys)).
Proof.
  intros HN calls.
  assert (Hall : forall j, j <= length keys ->
            nth_error calls j
            = Some (Returned (nth_error keys (j mod length keys)))).
  { intros j Hj. unfold calls, scraper_init.
    rewrite next_calls_nth by lia. reflexivity. }
  split; [exact Hall|]. split.
  - rewrite Hall by lia. rewrite Nat.mod_small by lia.
    destruct keys; reflexivity.
  - rewrite Hall by lia. rewrite Nat.Div0.mod_same.
    destruct keys; reflexivity.
Qed.

Lemma next_api_key_round_robin_witness :
  nth_error (fst (next_calls 4 (scraper_init ["k1"; "k2"; "k3"]))) 3
  = Some (Returned (Some "k1")).
Proof.
  exact (proj2 (proj2 (next_api_key_round_robin ["k1"; "k2"; "k3"]
                         ltac:(simpl; lia)))).
Defined.

(** ** The fallback generator *)

Lemma nth_error_map_range {A : Type} (f : nat -> A) (n : Z) (i : nat) (p : A) :
  nth_error (map f (range n)) i = Some p -> p = f i /\ i < Z.to_nat n.
Proof.
  unfold range. intros H.
  assert (Hi : i < Z.to_nat n).
  { assert (Hs : nth_error (map f (seq 0 (Z.to_nat n))) i <> None) by congruence.
    apply nth_error_Some in Hs. rewrite length_map, length_seq in Hs. exact Hs. }
  split; [|exact Hi].
  rewrite nth_error_map, nth_error_seq in H.
  apply Nat.ltb_lt in Hi. rewrite Hi in H. simpl in H. congruence.
Qed.

Lemma count_of_decimal_string (d : list (string * value)) (key : string) (n : nat) :
  dict_get d key = Some (VStr (str n)) ->
  count_of (VDict d) key = Some (Z.of_nat n).
Proof.
  intros H. unfold count_of, post_get. rewrite H. unfold str.
  rewrite NilEmpty.usu, DecimalNat.Unsigned.of_to. reflexivity.
Qed.

(** The records of a simulation are the images of [0 .. min(max_results, cap) - 1]. *)
Lemma fallback_records_length (hash : string -> Z) (task : ScrapingTask) :
  In (platform task) generator_platforms ->
  length (get_list (_execute_fallback_scraping hash task) "results")
  = Z.to_nat (Z.min (max_results task) (platform_cap (platform task))).
Proof.
  intros Hp. unfold _execute_fallback_scraping.
  simpl in Hp.
  destruct Hp as [Hp|[Hp|[Hp|[Hp|[]]]]]; rewrite <- Hp; simpl;
    unfold get_list; simpl; rewrite length_map; unfold range;
    rewrite length_seq; reflexivity.
Qed.

Lemma fallback_record_counts (hash : string -> Z) (task : ScrapingTask)
  (i : nat) (p : value) (key : string) :
  In (platform task) generator_platforms ->
  In key engagement_keys ->
  nth_error (get_list (_execute_fallback_scraping hash task) "results") i = Some p ->
  count_of p key
  = option_map (fun s => (Z.of_nat (i + 1) * s)%Z)
      (engagement_step (platform task) key).
Proof.
  intros Hp Hk. unfold _execute_fallback_scraping.
  simpl in Hp, Hk.
  destruct Hp as [Hp|[Hp|[Hp|[Hp|[]]]]]; rewrite <- Hp; simpl;
    unfold get_list; simpl; intros Hn;
    apply nth_error_map_range in Hn; destruct Hn as [-> _];
    destruct Hk as [Hk|[Hk|[Hk|[Hk|[Hk|[Hk|[Hk|[]]]]]]]]; rewrite <- Hk;
    try (unfold count_of, int_of; simpl; f_equal; lia).
  rewrite (count_of_decimal_string _ _ ((i + 1) * 1500)) by reflexivity.
  simpl. f_equal. lia.
Qed.

Lemma engagement_step_pos (platform key : string) (s : Z) :
  engagement_step platform key = Some s -> (0 < s)%Z.
Proof.
  unfold engagement_step.
  repeat match goal with
         | |- context [if ?b then _ else _] => destruct b
         end; intros H; inversion H; lia.
Qed.

(** C5 (amended). For each of facebook, instagram, youtube and twitter, every
    query and every [max_results], the fallback generator returns
    [min(max_results, cap)] records (none when that is negative), where [cap]
    is 8 for facebook and youtube, 10 for instagram and 12 for twitter; record
    [i] carries [(i + 1) * step] for each of its engagement counters, so each
    counter of a record is strictly greater than that of the record before. *)
Theorem fallback_records_capped_increasing
  (hash : string -> Z) (task : ScrapingTask) :
  In (platform task) generator_platforms ->
  let records := get_list (_execute_fallback_scraping hash task) "results" in
  length records
  = Z.to_nat (Z.min (max_results task) (platform_cap (platform task))) /\
  (forall i p key,
     In key engagement_keys -> nth_error records i = Some p ->
     count_of p key
     = option_map (fun s => (Z.of_nat (i + 1) * s)%Z)
         (engagement_step (platform task) key)) /\
  (forall i p p' key c,
     In key engagement_keys ->
     nth_error records i = Some p -> nth_error records (S i) = Some p' ->
     count_of p key = Some c ->
     exists c', count_of p' key = Some c' /\ (c < c')%Z).
Proof.
  intros Hp records.
  split; [apply fallback_records_length; exact Hp|].
  split.
  - intros i p key Hk Hn.
    apply (fallback_record_counts hash task); assumption.
  - intros i p p' key c Hk Hn Hn' Hc.
    rewrite (fallback_record_counts hash task i p key Hp Hk Hn) in Hc.
    rewrite (fallback_record_counts hash task (S i) p' key Hp Hk Hn').
    destruct (engagement_step (platform task) key) as [s|] eqn:Hs;
      [|discriminate].
    apply engagement_step_pos in Hs. simpl in Hc. inversion Hc; subst c.
    eexists. split; [reflexivity|]. nia.
Qed.

Lemma fallback_records_capped_increasing_witness :
  length (get_list (_execute_fallback_scraping (fun _ => 0%Z)
                      (new_task "x" 5 "instagram")) "results") = 5.
Proof.
  exact (proj1 (fallback_records_capped_increasing (fun _ => 0%Z)
                  (new_task "x" 5 "instagram")
                  ltac:(simpl; auto))).
Defined.

(** C5 as stated fails: asked for 9 facebook records the generator returns 8,
    and the likes of its second record (90) exceed those of its first (45). *)
Lemma fallback_records_counterexample :
  let task := new_task "x" 9 "facebook" in
  let records :=
    get_list (_execute_fallback_scraping (fun _ => 0%Z) task) "results" in
  In (platform task) generator_platforms /\
  (0 <= max_results task)%Z /\
  length records = 8 /\
  length records <> Z.to_nat (max_results task) /\
  exists p p',
    nth_error records 0 = Some p /\ nth_error records 1 = Some p' /\
    count_of p "like_count" = Some 45%Z /\
    count_of p' "like_count" = Some 90%Z /\
    ~ (90 <= 45)%Z.
Proof.
  simpl. split; [auto|]. split; [lia|]. split; [reflexivity|].
  split; [vm_compute; lia|].
  do 2 eexists. split; [reflexivity|]. split; [reflexivity|].
  split; [reflexivity|]. split; [reflexivity|]. lia.
Qed.



(** ** The sentiment summary *)

Lemma tally_post_counts (post : value) (plat tot : Tally) :
  tally_post (plat, tot) post
  = (tally_add plat (tally_of [post]), tally_add tot (tally_of [post])).
Proof.
  unfold tally_post, tally_of, count_sentiment, sentiment_of, tally_add.
  simpl.
  destruct (post_get post "sentiment") as [[| | | |s| |]|]; simpl;
    try (f_equal; f_equal; lia).
  destruct (String.eqb s "positive"); simpl; [f_equal; f_equal; lia|].
  destruct (String.eqb s "negative"); simpl; f_equal; f_equal; lia.
Qed.

Lemma tally_of_app (l1 l2 : list value) :
  tally_of (l1 ++ l2) = tally_add (tally_of l1) (tally_of l2).
Proof.
  unfold tally_of, tally_add, count_sentiment. simpl.
  rewrite !filter_app, !length_app. reflexivity.
Qed.

Lemma tally_add_assoc (a b c : Tally) :
  tally_add (tally_add a b) c = tally_add a (tally_add b c).
Proof. unfold tally_add. simpl. f_equal; lia. Qed.

Lemma tally_post_fold (results : list value) :
  forall plat tot,
    fold_left tally_post results (plat, tot)
    = (tally_add plat (tally_of results), tally_add tot (tally_of results)).
Proof.
  induction results as [|p rs IH]; intros plat tot; cbn [fold_left].
  - unfold tally_add, tally_of, count_sentiment. simpl.
    destruct plat, tot. simpl. rewrite !Nat.add_0_r. reflexivity.
  - rewrite tally_post_counts, IH, !tally_add_assoc.
    change (p :: rs) with ([p] ++ rs)%list. rewrite tally_of_app. reflexivity.
Qed.

Lemma tally_of_total (records : list value) :
  positive (tally_of records) + negative (tally_of records)
  + neutral (tally_of records) = length records.
Proof.
  induction records as [|p rs IH]; [reflexivity|].
  change (p :: rs) with ([p] ++ rs)%list. rewrite tally_of_app. simpl length.
  unfold tally_add. simpl. rewrite <- IH.
  unfold tally_of, count_sentiment, sentiment_of. simpl.
  destruct (is_str _ "positive"); simpl; [lia|].
  destruct (is_str _ "negative"); simpl; lia.
Qed.

(** What one turn of the outer loop does to an entry it looks at. *)
Lemma sentiment_step_analysed (acc : SentimentAcc) (name : string) (data : dict) :
  str_in name sentiment_platforms = true ->
  let rs := get_list data "results" in
  sentiment_step acc (name, data)
  = {| total := tally_add (total acc) (tally_of rs);
       total_posts := total_posts acc + length rs;
       platform_sentiments :=
         if (0 <? length rs)%nat then
           dict_set (platform_sentiments acc) name
             (breakdown_entry rs (dominant_sentiment (tally_of rs)))
         else platform_sentiments acc |}.
Proof.
  intros Hin rs. unfold sentiment_step. rewrite Hin.
  fold rs. rewrite tally_post_fold.
  assert (Hz : tally_add no_tally (tally_of rs) = tally_of rs) by reflexivity.
  rewrite Hz. reflexivity.
Qed.

Lemma sentiment_step_skipped (acc : SentimentAcc) (name : string) (data : dict) :
  str_in name sentiment_platforms = false ->
  sentiment_step acc (name, data) = acc.
Proof. intros Hin. unfold sentiment_step. rewrite Hin. reflexivity. Qed.

(** The counters after the loop: the records of the analysed entries. *)
Lemma sentiment_loop_totals (platforms_data : list (string * dict)) :
  forall acc,
    total (fold_left sentiment_step platforms_data acc)
    = tally_add (total acc) (tally_of (all_records (analysed platforms_data))) /\
    total_posts (fold_left sentiment_step platforms_data acc)
    = total_posts acc + length (all_records (analysed platforms_data)).
Proof.
  induction platforms_data as [|[name data] pd IH]; intros acc.
  - unfold tally_add, tally_of, count_sentiment. simpl.
    destruct (total acc). simpl. rewrite !Nat.add_0_r. split; [reflexivity|lia].
  - cbn [fold_left].
    destruct (IH (sentiment_step acc (name, data))) as [IH1 IH2].
    rewrite IH1, IH2. unfold analysed. cbn [filter fst]. fold (analysed pd).
    destruct (str_in name sentiment_platforms) eqn:Hin.
    + rewrite (sentiment_step_analysed acc name data Hin).
      unfold all_records. cbn [flat_map snd total total_posts].
      rewrite tally_of_app, length_app, tally_add_assoc.
      split; [reflexivity|lia].
    + rewrite (sentiment_step_skipped acc name data Hin). split; reflexivity.
Qed.








(** ** Coroutines *)

Lemma safe_may_fail {A : Type} (P : A -> Prop) (m : M A) :
  safe P m -> may_fail P m.
Proof.
  intros H w. destruct (H w) as [Hd Ho]. split; [exact Hd|].
  destruct (fst (m w)); [exact Ho|left; exact Ho].
Qed.

Lemma safe_ret {A : Type} (P : A -> Prop) (a : A) : P a -> safe P (ret a).
Proof. intros H w. simpl. auto. Qed.

Lemma safe_bind {A B : Type} (P : A -> Prop) (Q : B -> Prop)
  (m : M A) (k : A -> M B) :
  safe P m -> (forall a, P a -> safe Q (k a)) -> safe Q (bind m k).
Proof.
  intros Hm Hk w. unfold bind.
  destruct (Hm w) as [Hd Ho]. destruct (m w) as [[a|e] w1]; simpl in *.
  - destruct (Hk a Ho w1) as [Hd1 Ho1]. split; [congruence|].
    destruct (fst (k a w1)); [exact Ho1|].
    rewrite <- Hd. exact Ho1.
  - auto.
Qed.

Lemma may_fail_bind {A B : Type} (P : A -> Prop) (Q : B -> Prop)
  (m : M A) (k : A -> M B) :
  may_fail P m -> (forall a, P a -> may_fail Q (k a)) -> may_fail Q (bind m k).
Proof.
  intros Hm Hk w. unfold bind.
  destruct (Hm w) as [Hd Ho]. destruct (m w) as [[a|e] w1]; simpl in *.
  - destruct (Hk a Ho w1) as [Hd1 Ho1]. split; [congruence|].
    destruct (fst (k a w1)); [exact Ho1|].
    rewrite <- Hd. exact Ho1.
  - auto.
Qed.

Lemma may_fail_raise {A : Type} (P : A -> Prop) (msg : string) :
  may_fail P (raise (PyException msg)).
Proof. intros w. simpl. split; [reflexivity|]. right. eauto. Qed.

Lemma safe_set_self (f : SocialScrapingOrchestrator -> SocialScrapingOrchestrator) :
  safe (fun _ => True) (set_self f).
Proof. intros w. simpl. auto. Qed.

Lemma safe_get_trace : safe (fun _ => True) get_trace.
Proof. intros w. simpl. auto. Qed.

Lemma safe_log_event (ev : Event) : safe (fun _ => True) (log_event ev).
Proof. intros w. simpl. auto. Qed.

Lemma safe_await_seconds (d : nat) : safe (fun _ => True) (await_seconds d).
Proof.
  intros w. unfold await_seconds.
  destruct (deadline w) as [dl|] eqn:E; [|simpl; auto].
  destruct (dl <? now w + d); simpl; rewrite E; auto.
  split; [reflexivity|]. split; [reflexivity|discriminate].
Qed.

Lemma safe_sleep (seconds : nat) : safe (fun _ => True) (sleep seconds).
Proof.
  unfold sleep. eapply safe_bind; [apply safe_log_event|].
  intros _ _. apply safe_await_seconds.
Qed.

(** [except Exception] absorbs what the body may raise. *)
Lemma safe_try_except {A : Type} (P : A -> Prop) (body : M A)
  (handler : exn -> M A) :
  may_fail P body -> (forall e, safe P (handler e)) ->
  safe P (try_except body handler).
Proof.
  intros Hb Hh w. unfold try_except.
  destruct (Hb w) as [Hd Ho]. destruct (body w) as [[a|e] w1]; simpl in *.
  - auto.
  - destruct Ho as [[-> Hdl]|[msg ->]]; simpl.
    + auto.
    + destruct (Hh (PyException msg) w1) as [Hd1 Ho1]. split; [congruence|].
      destruct (fst (handler (PyException msg) w1)); [exact Ho1|].
      rewrite <- Hd. exact Ho1.
Qed.

(** A [finally] block that only updates the orchestrator. *)
Lemma safe_try_finally {A : Type} (P : A -> Prop) (body : M A)
  (f : SocialScrapingOrchestrator -> SocialScrapingOrchestrator) :
  safe P body -> safe P (try_finally body (set_self f)).
Proof.
  intros Hb w. unfold try_finally, set_self.
  destruct (Hb w) as [Hd Ho]. destruct (body w) as [o w1]; simpl in *.
  auto.
Qed.

(** ** One task *)

Section OneTask.

Variable hash : string -> Z.
Variable COMPONENTS_AVAILABLE : bool.
Variable remote : list Event -> ScrapingTask -> ScrapeRun.

Lemma safe_connector_run (task : ScrapingTask) :
  safe (fun _ => True) (connector_run remote task).
Proof.
  unfold connector_run.
  eapply safe_bind; [apply safe_get_trace|]. intros tr _.
  eapply safe_bind; [apply safe_log_event|]. intros _ _.
  eapply safe_bind; [apply safe_await_seconds|]. intros _ _.
  apply safe_ret. exact I.
Qed.

(** A connector returns a live result when it reports success; it may
    raise. *)
Lemma may_fail_execute_real_scraping (task : ScrapingTask) :
  may_fail (fun r => truthy (dict_get r "success") = true -> live_result r)
    (_execute_real_scraping remote task).
Proof.
  unfold _execute_real_scraping.
  destruct (String.eqb (platform task) "facebook");
    [|destruct (String.eqb (platform task) "instagram")].
  - unfold scrape_facebook_posts.
    eapply may_fail_bind; [apply safe_may_fail, safe_connector_run|].
    intros [pd|error|msg] _.
    + apply safe_may_fail, safe_ret. intros _. exists task, pd. auto.
    + apply safe_may_fail, safe_ret. simpl. discriminate.
    + apply may_fail_raise.
  - unfold scrape_instagram_posts.
    eapply may_fail_bind; [apply safe_may_fail, safe_connector_run|].
    intros [pd|error|msg] _.
    + apply safe_may_fail, safe_ret. intros _. exists task, pd. auto.
    + apply safe_may_fail, safe_ret. simpl. discriminate.
    + apply may_fail_raise.
  - apply safe_may_fail, safe_ret. simpl. discriminate.
Qed.

(** The generator gives simulated data for its four platforms and an error
    record for any other. *)
Lemma execute_fallback_scraping_kind (task : ScrapingTask) :
  (In (platform task) generator_platforms /\
   fallback_result hash (_execute_fallback_scraping hash task)) \/
  (~ In (platform task) generator_platforms /\
   _execute_fallback_scraping hash task
   = _create_error_result task
       ("Plataforma " ++ platform task ++ " não suportada")).
Proof.
  destruct (str_in (platform task) generator_platforms) eqn:E.
  - left. apply str_in_In in E. split; [exact E|]. exists task. auto.
  - right. split.
    + intros H. apply str_in_In in H. congruence.
    + unfold _execute_fallback_scraping. unfold str_in in E. simpl in E.
      repeat match type of E with
             | (?a || ?b)%bool = false => apply orb_false_elim in E;
                 let E1 := fresh "E" in destruct E as [E1 E]; rewrite E1
             end.
      reflexivity.
Qed.

Lemma safe_fallback_branch (task : ScrapingTask) (session_id : string) :
  safe (task_result hash) (fallback_branch hash task session_id).
Proof.
  unfold fallback_branch.
  eapply safe_bind; [apply (safe_ret (task_result hash))|].
  - destruct (execute_fallback_scraping_kind task) as [[_ H]|[_ H]].
    + right. left. exact H.
    + right. right. rewrite H. eexists _, _. reflexivity.
  - intros r Hr.
    eapply safe_bind; [apply safe_set_self|]. intros _ _.
    eapply safe_bind; [apply safe_set_self|]. intros _ _.
    apply safe_ret. exact Hr.
Qed.

(** The evaluation of [social_media_extractor] raises [NameError] where the
    name is not bound, and does nothing else. *)
Lemma may_fail_social_media_extractor :
  may_fail (fun _ => True) (social_media_extractor COMPONENTS_AVAILABLE).
Proof.
  unfold social_media_extractor. destruct COMPONENTS_AVAILABLE.
  - apply safe_may_fail, safe_ret. exact I.
  - apply may_fail_raise.
Qed.

Lemma may_fail_fallback (task : ScrapingTask) (session_id : string) :
  may_fail (task_result hash)
    (fallback hash COMPONENTS_AVAILABLE task session_id).
Proof.
  unfold fallback.
  eapply may_fail_bind with (P := fun _ => True).
  - destruct (uses_social_media_extractor task).
    + apply may_fail_social_media_extractor.
    + apply safe_may_fail, safe_ret. exact I.
  - intros _ _. apply safe_may_fail, safe_fallback_branch.
Qed.

Lemma may_fail_attempt (task : ScrapingTask) (session_id : string) :
  may_fail (task_result hash)
    (attempt hash COMPONENTS_AVAILABLE remote task session_id).
Proof.
  unfold attempt.
  destruct (str_in (platform task) ["facebook"; "instagram"]
            && COMPONENTS_AVAILABLE)%bool;
    [|apply may_fail_fallback].
  eapply may_fail_bind; [apply may_fail_execute_real_scraping|].
  intros r Hr. simpl in Hr.
  destruct (truthy (dict_get r "success")).
  - apply safe_may_fail.
    eapply safe_bind; [apply safe_set_self|]. intros _ _.
    apply safe_ret. left. auto.
  - apply may_fail_fallback.
Qed.

(** A task never raises a Python exception: it returns a live result,
    simulated data or an error record, unless an enclosing deadline cancels
    it. *)
Lemma safe_execute_single_task (session_id : string) :
  forall (n : nat) (task : ScrapingTask),
    max_retries task - retry_count task = n ->
    safe (task_result hash)
      (_execute_single_task_with_fallback hash COMPONENTS_AVAILABLE remote
         task session_id).
Proof.
  induction n as [n IH] using lt_wf_ind. intros task Hn.
  rewrite _execute_single_task_with_fallback_equation_1.
  eapply safe_bind; [apply safe_set_self|]. intros _ _.
  apply safe_try_finally.
  apply safe_try_except; [apply may_fail_attempt|].
  intros e.
  destruct (lt_dec (retry_count task) (max_retries task)) as [Hlt|Hge].
  - eapply safe_bind; [apply safe_sleep|]. intros _ _.
    apply (IH (max_retries (incr_retry_count task)
               - retry_count (incr_retry_count task))); [simpl; lia|reflexivity].
  - eapply safe_bind; [apply safe_set_self|]. intros _ _.
    apply safe_ret. right. right. eexists _, _. reflexivity.
Qed.

End OneTask.

(** ** Dictionaries built in a loop *)

Lemma fold_dict_set {X V : Type} (key : X -> string) (val : X -> V)
  (l : list X) :
  forall d0 : list (string * V),
    let d := fold_left (fun d x => dict_set d (key x) (val x)) l d0 in
    (forall k, In k (keys d) <-> In k (keys d0) \/ In k (map key l)) /\
    (NoDup (keys d0) -> NoDup (keys d)) /\
    (forall k v, dict_get d k = Some v ->
       dict_get d0 k = Some v \/ exists x, In x l /\ key x = k /\ v = val x).
Proof.
  induction l as [|x l IH]; intros d0; cbn [fold_left map].
  - split; [|split]; simpl; auto. intros k. tauto.
  - destruct (IH (dict_set d0 (key x) (val x))) as [IHk [IHn IHv]].
    split; [|split].
    + intros k. rewrite IHk, In_keys_dict_set. simpl.
      split; [intros [[->|H]|H]|intros [H|[->|H]]]; auto.
    + intros Hnd. apply IHn. apply NoDup_keys_dict_set. exact Hnd.
    + intros k v Hk. destruct (IHv k v Hk) as [H|[y [Hy [Hky Hv]]]].
      * destruct (string_dec k (key x)) as [->|Hne].
        -- rewrite dict_get_set_same in H. inversion H. right.
           exists x. simpl. auto.
        -- rewrite dict_get_set_other in H by exact Hne. auto.
      * right. exists y. simpl. auto.
Qed.

Lemma map_fst_combine {A B : Type} (l : list A) :
  forall l' : list B, length l' = length l -> map fst (combine l l') = l.
Proof.
  induction l as [|a l IH]; intros [|b l'] H; simpl in *;
    try discriminate; [reflexivity|].
  f_equal. apply IH. lia.
Qed.

(** ** A tier of tasks *)

(** The loop of the timeout branch: every platform of the tier gets the
    empty fallback result of a task of that platform. *)
Lemma all_fallback_results_spec (tasks : list ScrapingTask) :
  let results := all_fallback_results tasks in
  (forall p, In p (keys results) <-> In p (map platform tasks)) /\
  NoDup (keys results) /\
  (forall p r, dict_get results p = Some r ->
     exists task, In task tasks /\ platform task = p /\
                  r = _create_fallback_result task).
Proof.
  intros results.
  destruct (fold_dict_set platform _create_fallback_result tasks [])
    as [Hk [Hn Hv]].
  cbv zeta in Hk, Hn, Hv. fold (all_fallback_results tasks) in Hk, Hn, Hv.
  fold results in Hk, Hn, Hv.
  split; [|split].
  - intros p. rewrite Hk. simpl. tauto.
  - apply Hn. constructor.
  - intros p r Hp. destruct (Hv p r Hp) as [H|H]; [discriminate|exact H].
Qed.


Section Tier.

Variable hash : string -> Z.
Variable COMPONENTS_AVAILABLE : bool.
Variable remote : list Event -> ScrapingTask -> ScrapeRun.

Local Abbreviation single :=
  (_execute_single_task_with_fallback hash COMPONENTS_AVAILABLE remote).

(** The coroutines of a tier, run under the deadline [dl]: each either
    returns a task result or is cancelled. *)
Lemma run_all_tasks (session_id : string) (tasks : list ScrapingTask) (t0 : nat) :
  forall w,
    let run := run_all (map (fun task => single task session_id) tasks) t0 w in
    deadline (snd run) = deadline w /\
    length (fst run) = length tasks /\
    Forall (fun r => match fst r with
                     | Return d => task_result hash d
                     | Raise e => e = CancelledError
                     end) (fst run).
Proof.
  induction tasks as [|task tasks IH]; intros w; cbn [map run_all].
  - simpl. auto.
  - pose proof (safe_execute_single_task hash COMPONENTS_AVAILABLE remote
                  session_id _ task eq_refl (at_time w t0)) as [Hd Ho].
    destruct (single task session_id (at_time w t0)) as [o w1]. simpl in Hd, Ho.
    specialize (IH w1). cbv zeta in IH.
    destruct (run_all _ t0 w1) as [rs w2]. simpl in *.
    destruct IH as [IHd [IHl IHf]].
    split; [congruence|]. split; [congruence|].
    constructor; [|exact IHf]. simpl.
    destruct o; [exact Ho|apply Ho].
Qed.

Lemma existsb_was_cancelled_false {A : Type} (rs : list (Outcome A * nat))
  (P : A -> Prop) :
  existsb was_cancelled rs = false ->
  Forall (fun r => match fst r with
                   | Return d => P d
                   | Raise e => e = CancelledError
                   end) rs ->
  Forall (fun o => exists d, o = Return d /\ P d) (map fst rs).
Proof.
  induction rs as [|[o t] rs IH]; intros He Hf; simpl; [constructor|].
  simpl in He. apply orb_false_elim in He. destruct He as [He1 He2].
  inversion Hf as [|? ? Ho Hf']. subst.
  constructor; [|apply IH; assumption].
  simpl in Ho. unfold was_cancelled in He1. simpl in He1.
  destruct o as [d|e]; [eauto|]. subst e. discriminate.
Qed.

(** The loop over the gathered results, when every coroutine returned. *)
Lemma collect_results_returned (tasks : list ScrapingTask)
  (outs : list (Outcome dict)) :
  length outs = length tasks ->
  Forall (fun o => exists d, o = Return d /\ task_result hash d) outs ->
  let results := collect_results tasks outs in
  (forall p, In p (keys results) <-> In p (map platform tasks)) /\
  NoDup (keys results) /\
  (forall p r, dict_get results p = Some r -> task_result hash r).
Proof.
  intros Hlen Hf results.
  set (val := fun tr : ScrapingTask * Outcome dict =>
                match snd tr with
                | Raise _ => _create_fallback_result (fst tr)
                | Return result => result
                end).
  assert (Hr : results
               = fold_left (fun d tr => dict_set d (platform (fst tr)) (val tr))
                   (combine tasks outs) []).
  { unfold results, collect_results, val. generalize (@nil (string * dict)).
    induction (combine tasks outs) as [|tr l IH]; intros d; cbn [fold_left];
      [reflexivity|].
    rewrite <- IH. destruct (snd tr); reflexivity. }
  destruct (fold_dict_set (fun tr => platform (fst tr)) val
              (combine tasks outs) []) as [Hk [Hn Hv]].
  cbv zeta in Hk, Hn, Hv. rewrite <- Hr in Hk, Hn, Hv.
  split; [|split].
  - intros p. rewrite Hk. simpl.
    rewrite <- (map_map fst platform), map_fst_combine by exact Hlen. tauto.
  - apply Hn. constructor.
  - intros p r Hp. destruct (Hv p r Hp) as [H|[[t o] [Hin [_ ->]]]];
      [discriminate|].
    apply in_combine_r in Hin. rewrite Forall_forall in Hf.
    destruct (Hf o Hin) as [d [-> Hd]]. exact Hd.
Qed.

(** A tier that nothing outside cancels always returns: the gathered
    results, or the empty fallback results for all its tasks when one of them
    is still running at the timeout. *)
Lemma batch_returns (session_id : string) (task0 : ScrapingTask)
  (rest : list ScrapingTask) (w : World) :
  deadline w = None ->
  let tasks := task0 :: rest in
  exists results w',
    _execute_priority_batch hash COMPONENTS_AVAILABLE remote tasks session_id w
    = (Return results, w') /\
    deadline w' = None /\
    (tier_times_out hash COMPONENTS_AVAILABLE remote tasks session_id w = true ->
     results = all_fallback_results tasks /\
     now w' = now w + tier_timeout task0) /\
    (forall p, In p (keys results) <-> In p (map platform tasks)) /\
    NoDup (keys results) /\
    (forall p r, dict_get results p = Some r -> platform_result hash r).
Proof.
  intros Hdl tasks.
  unfold _execute_priority_batch, try_except_timeout, tier_times_out.
  change (match tasks with
          | [] => raise (PyException "list index out of range")
          | t :: _ =>
              bind (wait_for_gather
                      (map (fun task => single task session_id) tasks)
                      (tier_timeout t))
                (fun task_results => ret (collect_results tasks task_results))
          end)
    with (bind (wait_for_gather
                  (map (fun task => single task session_id) tasks)
                  (tier_timeout task0))
            (fun task_results => ret (collect_results tasks task_results))).
  change (match tasks with
          | [] => false
          | t :: _ =>
              existsb was_cancelled
                (fst (run_all (map (fun task => single task session_id) tasks)
                        (now w)
                        (with_deadline w
                           (Some (earliest (deadline w) (now w + tier_timeout t))))))
          end)
    with (existsb was_cancelled
            (fst (run_all (map (fun task => single task session_id) tasks)
                    (now w)
                    (with_deadline w
                       (Some (earliest (deadline w)
                                (now w + tier_timeout task0))))))).
  unfold bind, wait_for_gather. rewrite Hdl. cbn [earliest].
  pose proof (run_all_tasks session_id tasks (now w)
                (with_deadline w (Some (now w + tier_timeout task0))))
    as [Hd [Hl Hf]].
  destruct (run_all _ (now w) _) as [rs w1]. cbn [fst snd] in *.
  rewrite Nat.ltb_irrefl.
  destruct (existsb was_cancelled rs) eqn:Ec.
  - eexists _, _. split; [reflexivity|]. split; [reflexivity|].
    split; [intros _; split; reflexivity|].
    destruct (all_fallback_results_spec tasks) as [Hk [Hn Hv]].
    split; [exact Hk|]. split; [exact Hn|].
    intros p r Hp. destruct (Hv p r Hp) as [task [_ [_ ->]]].
    right. right. left. exists task. reflexivity.
  - eexists _, _. split; [reflexivity|]. split; [reflexivity|].
    split; [discriminate|].
    pose proof (existsb_was_cancelled_false rs (task_result hash) Ec Hf) as Hr.
    destruct (collect_results_returned tasks (map fst rs)
                ltac:(rewrite length_map; exact Hl) Hr) as [Hk [Hn Hv]].
    split; [exact Hk|]. split; [exact Hn|].
    intros p r Hp. destruct (Hv p r Hp) as [H|[H|H]]; unfold platform_result; auto.
Qed.

End Tier.

(** ** All tiers and the report *)

Section Report.

Variable hash : string -> Z.
Variable COMPONENTS_AVAILABLE : bool.
Variable remote : list Event -> ScrapingTask -> ScrapeRun.

Lemma run_tier_returns (session_id : string) (tier : list ScrapingTask)
  (results : list (string * dict)) (w : World) :
  deadline w = None -> results_ok hash results ->
  exists results' w',
    run_tier hash COMPONENTS_AVAILABLE remote tier session_id results w
    = (Return results', w') /\
    deadline w' = None /\
    (forall p, In p (keys results') <->
               In p (keys results) \/ In p (map platform tier)) /\
    results_ok hash results'.
Proof.
  intros Hdl [Hnd Hok]. unfold run_tier.
  destruct tier as [|task0 rest].
  - exists results, w. simpl. repeat split; auto; try tauto.
  - destruct (batch_returns hash COMPONENTS_AVAILABLE remote session_id
                task0 rest w Hdl)
      as [tr [w' [Hrun [Hdl' [_ [Hk [Hn Hv]]]]]]].
    unfold bind. rewrite Hrun.
    eexists _, w'. split; [reflexivity|]. split; [exact Hdl'|].
    destruct (fold_dict_set fst snd tr results) as [Fk [Fn Fv]].
    cbv zeta in Fk, Fn, Fv. fold (dict_update results tr) in Fk, Fn, Fv.
    split; [|split].
    + intros p. rewrite Fk. fold (keys tr). rewrite Hk. tauto.
    + apply Fn. exact Hnd.
    + intros p r Hp. destruct (Fv p r Hp) as [H|[[k v] [Hin [Hkp Hr]]]].
      * eapply Hok. exact H.
      * simpl in Hkp, Hr. subst k v. eapply Hv.
        apply In_dict_get; [exact Hn|exact Hin].
Qed.

Lemma execute_tasks_returns (session_id : string) (tasks : list ScrapingTask)
  (w : World) :
  deadline w = None ->
  exists results w',
    _execute_tasks_with_fallbacks hash COMPONENTS_AVAILABLE remote tasks
      session_id w = (Return results, w') /\
    deadline w' = None /\
    (forall p, In p (keys results) <->
       In p (map platform (filter (fun t => priority t =? 1) tasks)) \/
       In p (map platform (filter (fun t => priority t =? 2) tasks)) \/
       In p (map platform (filter (fun t => priority t =? 3) tasks))) /\
    results_ok hash results.
Proof.
  intros Hdl. unfold _execute_tasks_with_fallbacks.
  assert (H0 : results_ok hash []).
  { split; [constructor|]. intros p r H. discriminate. }
  destruct (run_tier_returns session_id
              (filter (fun t => priority t =? 1) tasks) [] w Hdl H0)
    as [r1 [w1 [E1 [D1 [K1 O1]]]]].
  destruct (run_tier_returns session_id
              (filter (fun t => priority t =? 2) tasks) r1 w1 D1 O1)
    as [r2 [w2 [E2 [D2 [K2 O2]]]]].
  destruct (run_tier_returns session_id
              (filter (fun t => priority t =? 3) tasks) r2 w2 D2 O2)
    as [r3 [w3 [E3 [D3 [K3 O3]]]]].
  unfold bind. rewrite E1, E2, E3.
  exists r3, w3. split; [reflexivity|]. split; [exact D3|].
  split; [|exact O3].
  intros p. rewrite K3, K2, K1. simpl. tauto.
Qed.

(** Each new task is in the first or in the second tier. *)
Lemma new_tasks_tiers (query : string) (max_results_per_platform : Z)
  (platforms : list string) (p : string) :
  let tasks := map (new_task query max_results_per_platform) platforms in
  In p (map platform (filter (fun t => priority t =? 1) tasks)) \/
  In p (map platform (filter (fun t => priority t =? 2) tasks)) \/
  In p (map platform (filter (fun t => priority t =? 3) tasks))
  <-> In p platforms.
Proof.
  intros tasks. unfold tasks. clear tasks.
  rewrite !in_map_iff. split.
  - intros [H|[H|H]]; destruct H as [t [Hp Hin]];
      apply filter_In in Hin; destruct Hin as [Hin _];
      apply in_map_iff in Hin; destruct Hin as [x [Hx Hin]];
      subst t p; exact Hin.
  - intros Hin.
    destruct (str_in p ["facebook"; "instagram"]) eqn:E.
    + left. exists (new_task query max_results_per_platform p).
      split; [reflexivity|]. apply filter_In. split.
      * apply in_map. exact Hin.
      * unfold new_task. cbn [priority]. rewrite E. reflexivity.
    + right. left. exists (new_task query max_results_per_platform p).
      split; [reflexivity|]. apply filter_In. split.
      * apply in_map. exact Hin.
      * unfold new_task. cbn [priority]. rewrite E. reflexivity.
Qed.

(** The public operation, where the imports succeeded and when nothing
    outside cancels it, returns the report compiled from one result per
    requested platform. *)
Lemma execute_returns (query : string) (platforms : option (list string))
  (max_results_per_platform : Z) (session_id : option string) (w : World) :
  COMPONENTS_AVAILABLE = true ->
  deadline w = None ->
  let requested :=
    match platforms with
    | None => default_platforms
    | Some l => l
    end in
  exists results o sid w',
    execute_comprehensive_scraping hash COMPONENTS_AVAILABLE remote query
      platforms max_results_per_platform session_id w
    = (Return (_compile_final_result o query results sid), w') /\
    deadline w' = None /\
    (forall p, In p (keys results) <-> In p requested) /\
    results_ok hash results.
Proof.
  intros Hca Hdl requested. unfold execute_comprehensive_scraping.
  fold requested. unfold bind at 1. cbn [get_now].
  set (sid := match session_id with
              | Some s => if String.eqb s EmptyString
                          then "scraping_" ++ str (now w) else s
              | None => "scraping_" ++ str (now w)
              end).
  destruct (execute_tasks_returns sid
              (map (new_task query max_results_per_platform) requested) w Hdl)
    as [results [w1 [E [D [K O]]]]].
  unfold bind. rewrite E. unfold social_media_extractor. rewrite Hca.
  cbn [get_self _update_stats set_self ret].
  eexists results, (self w1), sid, _. split; [reflexivity|].
  split; [exact D|]. split; [|exact O].
  intros p. rewrite K. apply new_tasks_tiers.
Qed.

End Report.

(** ** The report of the public operation *)

Lemma successful_records_cons (kv : string * dict)
  (results : list (string * dict)) :
  successful_records (kv :: results)
  = (if truthy (dict_get (snd kv) "success")
     then length (get_list (snd kv) "results")
     else 0) + successful_records results.
Proof. reflexivity. Qed.

Lemma compile_loop_total (results : list (string * dict)) :
  forall acc,
    c_total_posts (fold_left compile_step results acc)
    = c_total_posts acc + successful_records results.
Proof.
  induction results as [|kv results IH]; intros acc; cbn [fold_left].
  - unfold successful_records. simpl. lia.
  - rewrite IH, successful_records_cons. unfold compile_step.
    destruct (truthy (dict_get (snd kv) "success")); cbn [c_total_posts]; lia.
Qed.

Lemma successful_records_none (results : list (string * dict)) :
  (forall p r, In (p, r) results -> get_list r "results" = []) ->
  successful_records results = 0.
Proof.
  induction results as [|[p r] results IH]; intros H; [reflexivity|].
  rewrite successful_records_cons, IH
    by (intros p' r' Hin; eapply H; right; eauto).
  cbn [snd]. rewrite (H p r) by (left; reflexivity).
  destruct (truthy _); reflexivity.
Qed.

Lemma results_lookup (hash : string -> Z) (results : list (string * dict))
  (p : string) :
  results_ok hash results -> In p (keys results) ->
  exists r, dict_get results p = Some r /\ platform_result hash r.
Proof.
  intros [_ Hok] Hin.
  destruct (dict_get results p) as [r|] eqn:E.
  - exists r. split; [reflexivity|]. eapply Hok. exact E.
  - apply dict_get_None in E. contradiction.
Qed.

(** C1 (amended). For every set of requested platforms, where the imports of
    the module succeeded ([COMPONENTS_AVAILABLE] true) and when nothing
    outside cancels the call, the report returned by
    [execute_comprehensive_scraping] holds exactly one result per requested
    platform, which is a live result, simulated fallback data, the empty
    fallback result or an error record, and [platforms_analyzed] is the number
    of requested platforms. *)
Theorem report_one_result_per_platform
  (hash : string -> Z)
  (remote : list Event -> ScrapingTask -> ScrapeRun)
  (query : string) (platforms : option (list string))
  (max_results_per_platform : Z) (session_id : option string) (w : World) :
  let requested :=
    match platforms with
    | None => default_platforms
    | Some l => l
    end in
  deadline w = None ->
  NoDup requested ->
  exists report results w',
    execute_comprehensive_scraping hash true remote query
      platforms max_results_per_platform session_id w = (Return report, w') /\
    dict_get report "all_platforms_data" = Some (as_platforms_data results) /\
    dict_get report "platforms_analyzed" = Some (int_of (length requested)) /\
    Permutation (keys results) requested /\
    forall p, In p requested ->
      exists r, dict_get results p = Some r /\ platform_result hash r.
Proof.
  intros requested Hdl Hnd.
  destruct (execute_returns hash true remote query platforms
              max_results_per_platform session_id w eq_refl Hdl)
    as [results [o [sid [w' [E [_ [K O]]]]]]].
  fold requested in K.
  assert (Hperm : Permutation (keys results) requested).
  { apply NoDup_Permutation; [exact (proj1 O)|exact Hnd|exact K]. }
  exists (_compile_final_result o query results sid), results, w'.
  split; [exact E|]. split; [reflexivity|]. split; [|split; [exact Hperm|]].
  - cbn [_compile_final_result dict_get String.eqb Ascii.eqb Bool.eqb].
    do 2 f_equal. rewrite <- (Permutation_length Hperm). unfold keys.
    rewrite length_map. reflexivity.
  - intros p Hp. apply results_lookup; [exact O|]. apply K. exact Hp.
Qed.

Lemma report_one_result_per_platform_witness :
  exists report,
    fst (execute_comprehensive_scraping (fun _ => 0%Z) true
           (fun _ _ => {| run_seconds := 1; run_outcome := ScrapeFailed "down" |})
           "x" None 3 (Some "s")
           {| self := orchestrator_init; now := 0; deadline := None;
              trace := [] |}) = Return report /\
    dict_get report "platforms_analyzed" = Some (VInt 4).
Proof.
  destruct (report_one_result_per_platform (fun _ => 0%Z)
              (fun _ _ => {| run_seconds := 1; run_outcome := ScrapeFailed "down" |})
              "x" None 3 (Some "s")
              {| self := orchestrator_init; now := 0; deadline := None;
                 trace := [] |}
              eq_refl
              ltac:(repeat constructor; simpl; intuition discriminate))
    as [report [results [w' [E [_ [Hn _]]]]]].
  exists report. rewrite E. split; [reflexivity|exact Hn].
Defined.

(** C1 as stated fails: asked for linkedin alone, the call returns a report
    whose only result is an error record, with [success] false and an
    [error] text, which is neither live, nor simulated fallback data, nor the
    empty fallback result. *)
Lemma report_error_record_counterexample :
  exists report r w',
    execute_comprehensive_scraping (fun _ => 0%Z) true
      (fun _ _ => {| run_seconds := 1; run_outcome := ScrapeFailed "down" |})
      "x" (Some ["linkedin"]) 3 (Some "s")
      {| self := orchestrator_init; now := 0; deadline := None; trace := [] |}
    = (Return report, w') /\
    dict_get report "all_platforms_data"
    = Some (as_platforms_data [("linkedin", r)]) /\
    truthy (dict_get r "success") = false /\
    dict_get r "error" = Some (VStr "Plataforma linkedin não suportada") /\
    ~ (live_result r \/ fallback_result (fun _ => 0%Z) r \/
       fallback_empty_result r).
Proof.
  eexists _, _, _. split; [vm_compute; reflexivity|].
  split; [reflexivity|]. split; [reflexivity|]. split; [reflexivity|].
  intros [[t [pd [H|H]]]|[[t [Hin H]]|[t H]]].
  - discriminate H.
  - discriminate H.
  - unfold _execute_fallback_scraping in H. simpl in Hin.
    destruct Hin as [Hin|[Hin|[Hin|[Hin|[]]]]]; rewrite <- Hin in H;
      discriminate H.
  - discriminate H.
Qed.







(** ** Timeout of a tier *)

(** C3 (amended). If the timeout of a tier elapses before all its tasks have
    resolved, and nothing outside cancels the tier, then every task of the
    tier, those that had completed included, gets the empty fallback result:
    [data_source] is "fallback_empty", there are zero records, and [success]
    is true.  The tier ends at its timeout. *)
Theorem tier_timeout_replaces_all
  (hash : string -> Z) (COMPONENTS_AVAILABLE : bool)
  (remote : list Event -> ScrapingTask -> ScrapeRun)
  (session_id : string) (task0 : ScrapingTask) (rest : list ScrapingTask)
  (w : World) :
  let tasks := task0 :: rest in
  deadline w = None ->
  tier_times_out hash COMPONENTS_AVAILABLE remote tasks session_id w = true ->
  exists w',
    _execute_priority_batch hash COMPONENTS_AVAILABLE remote tasks session_id w
    = (Return (all_fallback_results tasks), w') /\
    now w' = now w + tier_timeout task0 /\
    forall task, In task tasks ->
      exists r,
        dict_get (all_fallback_results tasks) (platform task) = Some r /\
        dict_get r "platform" = Some (VStr (platform task)) /\
        dict_get r "data_source" = Some (VStr "fallback_empty") /\
        get_list r "results" = [] /\
        truthy (dict_get r "success") = true.
Proof.
  intros tasks Hdl Hto.
  destruct (batch_returns hash COMPONENTS_AVAILABLE remote session_id
              task0 rest w Hdl)
    as [results [w' [E [_ [Ht _]]]]].
  destruct (Ht Hto) as [-> Hnow].
  exists w'. split; [exact E|]. split; [exact Hnow|].
  intros task Hin.
  destruct (all_fallback_results_spec tasks) as [Hk [_ Hv]].
  assert (Hkey : In (platform task) (keys (all_fallback_results tasks))).
  { apply Hk. apply in_map. exact Hin. }
  destruct (dict_get (all_fallback_results tasks) (platform task)) as [r|] eqn:Er.
  - exists r. split; [reflexivity|].
    destruct (Hv _ r Er) as [task' [_ [Hp ->]]].
    unfold _create_fallback_result. rewrite Hp.
    repeat split; reflexivity.
  - apply dict_get_None in Er. contradiction.
Qed.

Lemma tier_timeout_replaces_all_witness :
  let remote := fun (_ : list Event) (t : ScrapingTask) =>
    {| run_seconds := 700; run_outcome := ScrapeFailed "late" |} in
  let task := new_task "x" 1 "instagram" in
  exists w',
    _execute_priority_batch (fun _ => 0%Z) true remote [task] "s"
      {| self := orchestrator_init; now := 0; deadline := None; trace := [] |}
    = (Return (all_fallback_results [task]), w') /\
    now w' = 600.
Proof.
  intros remote task.
  destruct (tier_timeout_replaces_all (fun _ => 0%Z) true remote "s" task []
              {| self := orchestrator_init; now := 0; deadline := None;
                 trace := [] |}
              eq_refl eq_refl)
    as [w' [E [Hn _]]].
  exists w'. split; [exact E|exact Hn].
Defined.

(** C3 as stated fails.  In a tier of facebook and instagram where the
    facebook job ends after 5 seconds with one post and the instagram job takes
    700 seconds, the facebook task on its own returns its live result at 5, well
    before the timeout of 600; yet after the tier the result for facebook is the
    empty fallback result, not that live result. *)
Lemma tier_timeout_counterexample :
  let remote := fun (_ : list Event) (t : ScrapingTask) =>
    if String.eqb (platform t) "facebook"
    then {| run_seconds := 5;
            run_outcome :=
              ScrapeOk {| pd_posts := [VDict [("text", VStr "post")]];
                          pd_total_comments := 0;
                          pd_total_engagement := 0 |} |}
    else {| run_seconds := 700; run_outcome := ScrapeFailed "late" |} in
  let facebook := new_task "x" 1 "facebook" in
  let instagram := new_task "x" 1 "instagram" in
  let w0 :=
    {| self := orchestrator_init; now := 0; deadline := None; trace := [] |} in
  (exists live w1,
     _execute_single_task_with_fallback (fun _ => 0%Z) true remote facebook "s"
       (with_deadline w0 (Some 600)) = (Return live, w1) /\
     now w1 = 5 /\
     truthy (dict_get live "success") = true /\
     dict_get live "posts" = Some (VList [VDict [("text", VStr "post")]]) /\
     exists results w',
       _execute_priority_batch (fun _ => 0%Z) true remote
         [facebook; instagram] "s" w0 = (Return results, w') /\
       dict_get results "facebook" = Some (_create_fallback_result facebook) /\
       dict_get results "facebook" <> Some live) /\
  tier_times_out (fun _ => 0%Z) true remote [facebook; instagram] "s" w0 = true.
Proof.
  intros remote facebook instagram w0. split; [|reflexivity].
  eexists _, _. split; [vm_compute; reflexivity|].
  split; [reflexivity|]. split; [reflexivity|]. split; [reflexivity|].
  eexists _, _. split; [vm_compute; reflexivity|].
  split; [reflexivity|]. discriminate.
Qed.

(** ** The retry budget *)

Section Retry.

Variable hash : string -> Z.
Variable remote : list Event -> ScrapingTask -> ScrapeRun.

Local Abbreviation single :=
  (_execute_single_task_with_fallback hash true remote).



End Retry.




(** * More properties of the orchestrator *)

(** ** Tasks that end at their first attempt *)

Section FirstAttempt.

Variable hash : string -> Z.
Variable COMPONENTS_AVAILABLE : bool.
Variable remote : list Event -> ScrapingTask -> ScrapeRun.

(** Where the name is bound, the fallback is its generator and the
    bookkeeping. *)
Lemma fallback_bound (task : ScrapingTask) (session_id : string) (w : World) :
  fallback hash true task session_id w = fallback_branch hash task session_id w.
Proof.
  unfold fallback, bind, social_media_extractor.
  destruct (uses_social_media_extractor task); reflexivity.
Qed.

(** X1.  Where the imports of the module succeeded ([COMPONENTS_AVAILABLE]
    true), a task on a platform other than facebook and instagram calls no
    connector, takes no time, cannot be cancelled and does not raise, whatever
    its retry budget and the deadline: it returns what
    [_execute_fallback_scraping] gives for it (simulated data for youtube and
    twitter, an error record for any other platform), counts one use of the
    fallback and is stored as completed. *)
Theorem task_without_connector (task : ScrapingTask) (session_id : string)
  (w : World) :
  COMPONENTS_AVAILABLE = true ->
  str_in (platform task) ["facebook"; "instagram"] = false ->
  _execute_single_task_with_fallback hash COMPONENTS_AVAILABLE remote task
    session_id w
  = (Return (_execute_fallback_scraping hash task),
     {| self := after_fallback (self w) (task_key session_id task) task;
        now := now w; deadline := deadline w; trace := trace w |}).
Proof.
  intros Hca Hp. rewrite _execute_single_task_with_fallback_equation_1.
  unfold bind at 1, set_active, set_self, try_finally, try_except, attempt.
  rewrite Hp, Hca. cbn [andb]. rewrite fallback_bound. reflexivity.
Qed.

(** What the call of a connector does to the world when it is not cut by the
    deadline. *)
Lemma connector_run_in_time (task : ScrapingTask) (w : World) :
  in_time w (run_seconds (remote (trace w) task)) ->
  connector_run remote task w
  = (Return (run_outcome (remote (trace w) task)),
     {| self := self w;
        now := now w + run_seconds (remote (trace w) task);
        deadline := deadline w;
        trace := trace w ++ [EvRealScraping task] |}).
Proof.
  unfold in_time, connector_run, bind, get_trace, log_event, await_seconds,
    ret, at_time. cbn [self now deadline trace].
  destruct (deadline w) as [dl|]; [|reflexivity].
  intros H. apply Nat.ltb_ge in H. rewrite H. reflexivity.
Qed.

(** The call of a connector by [_execute_real_scraping], for facebook and
    instagram. *)
Lemma execute_real_scraping_in_time (task : ScrapingTask) (w : World) :
  str_in (platform task) ["facebook"; "instagram"] = true ->
  in_time w (run_seconds (remote (trace w) task)) ->
  let w1 :=
    {| self := self w;
       now := now w + run_seconds (remote (trace w) task);
       deadline := deadline w;
       trace := trace w ++ [EvRealScraping task] |} in
  _execute_real_scraping remote task w
  = match run_outcome (remote (trace w) task) with
    | ScrapeOk pd =>
        (Return (if String.eqb (platform task) "facebook"
                 then facebook_success_response task pd
                 else instagram_success_response task pd), w1)
    | ScrapeFailed error =>
        (Return (if String.eqb (platform task) "facebook"
                 then facebook_error_response task error
                 else instagram_error_response task error), w1)
    | ScrapeRaises msg => (Raise (PyException msg), w1)
    end.
Proof.
  intros Hp Ht w1. unfold _execute_real_scraping.
  unfold str_in in Hp. cbn [existsb] in Hp.
  destruct (String.eqb (platform task) "facebook") eqn:Efb.
  - unfold scrape_facebook_posts, bind.
    rewrite (connector_run_in_time task w Ht). fold w1.
    destruct (run_outcome (remote (trace w) task)); reflexivity.
  - destruct (String.eqb (platform task) "instagram") eqn:Eig;
      [|discriminate Hp].
    unfold scrape_instagram_posts, bind.
    rewrite (connector_run_in_time task w Ht). fold w1.
    destruct (run_outcome (remote (trace w) task)); reflexivity.
Qed.

(** X2.  When the connector of a facebook or instagram task reports failure
    without raising, the task is not retried: after this one call it returns
    what the fallback generator gives, counts one use of the fallback and is
    stored as completed, whatever its retry budget. *)
Theorem reported_failure_falls_back (task : ScrapingTask)
  (session_id error : string) (w : World) :
  COMPONENTS_AVAILABLE = true ->
  str_in (platform task) ["facebook"; "instagram"] = true ->
  in_time w (run_seconds (remote (trace w) task)) ->
  run_outcome (remote (trace w) task) = ScrapeFailed error ->
  _execute_single_task_with_fallback hash COMPONENTS_AVAILABLE remote task
    session_id w
  = (Return (_execute_fallback_scraping hash task),
     {| self := after_fallback (self w) (task_key session_id task) task;
        now := now w + run_seconds (remote (trace w) task);
        deadline := deadline w;
        trace := trace w ++ [EvRealScraping task] |}).
Proof.
  intros Hca Hp Ht Hout.
  rewrite _execute_single_task_with_fallback_equation_1.
  unfold bind at 1, set_active, set_self, try_finally, try_except, attempt.
  rewrite Hp, Hca. cbn [andb]. unfold bind at 1.
  match goal with
  | |- context [_execute_real_scraping remote task ?w0] =>
      rewrite (execute_real_scraping_in_time task w0 Hp Ht)
  end.
  cbn [self now deadline trace]. rewrite Hout.
  destruct (String.eqb (platform task) "facebook");
    cbn [truthy dict_get String.eqb Ascii.eqb Bool.eqb facebook_error_response
         instagram_error_response facebook_success_response
         instagram_success_response];
    rewrite ?fallback_bound; reflexivity.
Qed.

(** X3.  When the connector succeeds, the task returns the connector's own
    dictionary, is stored as completed and does not count as a fallback. *)
Theorem live_success_is_returned (task : ScrapingTask)
  (session_id : string) (pd : ProcessedData) (w : World) :
  COMPONENTS_AVAILABLE = true ->
  str_in (platform task) ["facebook"; "instagram"] = true ->
  in_time w (run_seconds (remote (trace w) task)) ->
  run_outcome (remote (trace w) task) = ScrapeOk pd ->
  _execute_single_task_with_fallback hash COMPONENTS_AVAILABLE remote task
    session_id w
  = (Return (if String.eqb (platform task) "facebook"
             then facebook_success_response task pd
             else instagram_success_response task pd),
     {| self := after_live (self w) (task_key session_id task) task;
        now := now w + run_seconds (remote (trace w) task);
        deadline := deadline w;
        trace := trace w ++ [EvRealScraping task] |}).
Proof.
  intros Hca Hp Ht Hout.
  rewrite _execute_single_task_with_fallback_equation_1.
  unfold bind at 1, set_active, set_self, try_finally, try_except, attempt.
  rewrite Hp, Hca. cbn [andb]. unfold bind at 1.
  match goal with
  | |- context [_execute_real_scraping remote task ?w0] =>
      rewrite (execute_real_scraping_in_time task w0 Hp Ht)
  end.
  cbn [self now deadline trace]. rewrite Hout.
  destruct (String.eqb (platform task) "facebook");
    cbn [truthy dict_get String.eqb Ascii.eqb Bool.eqb facebook_error_response
         instagram_error_response facebook_success_response
         instagram_success_response];
    rewrite ?fallback_bound; reflexivity.
Qed.

End FirstAttempt.

Lemma task_without_connector_witness :
  fst (_execute_single_task_with_fallback (fun _ => 0%Z) true
         (fun _ _ => {| run_seconds := 9; run_outcome := ScrapeRaises "boom" |})
         (new_task "x" 2 "youtube") "s"
         {| self := orchestrator_init; now := 0; deadline := Some 0;
            trace := [] |})
  = Return (_simulate_youtube_data "x" 2).
Proof.
  rewrite (task_without_connector (fun _ => 0%Z) true
             (fun _ _ => {| run_seconds := 9; run_outcome := ScrapeRaises "boom" |})
             (new_task "x" 2 "youtube") "s"
             {| self := orchestrator_init; now := 0; deadline := Some 0;
                trace := [] |} eq_refl eq_refl).
  reflexivity.
Defined.

Lemma reported_failure_falls_back_witness :
  fst (_execute_single_task_with_fallback (fun _ => 0%Z) true
         (fun _ _ => {| run_seconds := 9; run_outcome := ScrapeFailed "down" |})
         (new_task "x" 2 "instagram") "s"
         {| self := orchestrator_init; now := 0; deadline := Some 600;
            trace := [] |})
  = Return (_simulate_instagram_data "x" 2).
Proof.
  rewrite (reported_failure_falls_back (fun _ => 0%Z) true
             (fun _ _ => {| run_seconds := 9; run_outcome := ScrapeFailed "down" |})
             (new_task "x" 2 "instagram") "s" "down"
             {| self := orchestrator_init; now := 0; deadline := Some 600;
                trace := [] |}
             eq_refl eq_refl ltac:(unfold in_time; simpl; lia) eq_refl).
  reflexivity.
Defined.

Lemma live_success_is_returned_witness :
  let pd := {| pd_posts := [VDict [("text", VStr "post")]];
               pd_total_comments := 0; pd_total_engagement := 0 |} in
  let task := new_task "x" 2 "facebook" in
  fst (_execute_single_task_with_fallback (fun _ => 0%Z) true
         (fun _ _ => {| run_seconds := 9; run_outcome := ScrapeOk pd |})
         task "s"
         {| self := orchestrator_init; now := 0; deadline := None;
            trace := [] |})
  = Return (facebook_success_response task pd).
Proof.
  intros pd task.
  rewrite (live_success_is_returned (fun _ => 0%Z) true
             (fun _ _ => {| run_seconds := 9; run_outcome := ScrapeOk pd |})
             task "s" pd
             {| self := orchestrator_init; now := 0; deadline := None;
                trace := [] |}
             eq_refl eq_refl I eq_refl).
  reflexivity.
Defined.

(** ** Removal from a dictionary *)

Section DictPop.

Context {V : Type}.
Implicit Types (d : list (string * V)) (k : string) (v : V).

Lemma dict_pop_set d k v : dict_pop (dict_set d k v) k = dict_pop d k.
Proof.
  induction d as [|[k' v'] d IH]; simpl.
  - rewrite String.eqb_refl. reflexivity.
  - destruct (String.eqb k k') eqn:E; simpl.
    + rewrite String.eqb_refl. reflexivity.
    + rewrite E, IH. reflexivity.
Qed.

Lemma dict_pop_absent d k : ~ In k (keys d) -> dict_pop d k = d.
Proof.
  induction d as [|[k' v'] d IH]; simpl; [reflexivity|].
  intros H. destruct (String.eqb k k') eqn:E.
  - apply String.eqb_eq in E. subst. tauto.
  - rewrite IH by tauto. reflexivity.
Qed.

Lemma In_keys_dict_pop d k k' : In k' (keys (dict_pop d k)) -> In k' (keys d).
Proof.
  induction d as [|[k0 v0] d IH]; simpl; [tauto|].
  destruct (String.eqb k k0); simpl; tauto.
Qed.

Lemma NoDup_keys_dict_pop d k :
  NoDup (keys d) ->
  NoDup (keys (dict_pop d k)) /\ ~ In k (keys (dict_pop d k)).
Proof.
  induction d as [|[k0 v0] d IH]; simpl; intros Hnd.
  - split; [constructor|tauto].
  - inversion Hnd as [|? ? Hni Hnd']. subst.
    destruct (String.eqb k k0) eqn:E.
    + apply String.eqb_eq in E. subst. split; assumption.
    + apply String.eqb_neq in E. destruct (IH Hnd') as [IH1 IH2]. simpl.
      split.
      * constructor; [|exact IH1]. intros H. apply Hni.
        eapply In_keys_dict_pop. exact H.
      * intros [H|H]; [congruence|tauto].
Qed.

Lemma dict_get_pop_other d k k' :
  k' <> k -> dict_get (dict_pop d k) k' = dict_get d k'.
Proof.
  intros Hne. induction d as [|[k0 v0] d IH]; simpl; [reflexivity|].
  destruct (String.eqb k k0) eqn:E; simpl.
  - apply String.eqb_eq in E. subst k0.
    apply String.eqb_neq in Hne. rewrite Hne. reflexivity.
  - rewrite IH. reflexivity.
Qed.

End DictPop.

(** ** Parts of the world that a coroutine leaves alone *)

Section Frames.

Context {X : Type}.
Variable f : World -> X.

Lemma preserves_ret {A : Type} (a : A) : preserves f (ret a).
Proof. intros w. reflexivity. Qed.

Lemma preserves_raise {A : Type} (e : exn) : preserves f (@raise A e).
Proof. intros w. reflexivity. Qed.

Lemma preserves_bind {A B : Type} (m : M A) (k : A -> M B) :
  preserves f m -> (forall a, preserves f (k a)) -> preserves f (bind m k).
Proof.
  intros Hm Hk w. unfold bind. specialize (Hm w).
  destruct (m w) as [[a|e] w1]; simpl in *; [|exact Hm].
  rewrite Hk. exact Hm.
Qed.

Lemma preserves_try_except {A : Type} (body : M A) (handler : exn -> M A) :
  preserves f body -> (forall e, preserves f (handler e)) ->
  preserves f (try_except body handler).
Proof.
  intros Hb Hh w. unfold try_except. specialize (Hb w).
  destruct (body w) as [[a|e] w1]; simpl in *; [exact Hb|].
  destruct (is_Exception e); [|exact Hb]. rewrite Hh. exact Hb.
Qed.

Lemma preserves_try_except_timeout {A : Type} (body handler : M A) :
  preserves f body -> preserves f handler ->
  preserves f (try_except_timeout body handler).
Proof.
  intros Hb Hh w. unfold try_except_timeout. specialize (Hb w).
  destruct (body w) as [[a|[msg| |]] w1]; simpl in *; try exact Hb.
  rewrite Hh. exact Hb.
Qed.

Lemma preserves_try_finally {A : Type} (body : M A) (final : M unit) :
  preserves f body -> preserves f final ->
  preserves f (try_finally body final).
Proof.
  intros Hb Hf w. unfold try_finally. specialize (Hb w).
  destruct (body w) as [o w1]. specialize (Hf w1).
  destruct (final w1) as [[u|e] w2]; simpl in *; congruence.
Qed.

End Frames.

(** The parts that depend on the orchestrator object only. *)
Section ObjectFrames.

Context {X : Type}.
Variable g : SocialScrapingOrchestrator -> X.

Local Abbreviation on_self := (fun w : World => g (self w)).

Lemma preserves_log_event (ev : Event) : preserves on_self (log_event ev).
Proof. intros w. reflexivity. Qed.

Lemma preserves_await_seconds (d : nat) : preserves on_self (await_seconds d).
Proof.
  intros w. unfold await_seconds.
  destruct (deadline w); [destruct (_ <? _)|]; reflexivity.
Qed.

Lemma preserves_sleep (seconds : nat) : preserves on_self (sleep seconds).
Proof.
  unfold sleep. apply preserves_bind; [apply preserves_log_event|].
  intros _. apply preserves_await_seconds.
Qed.

Lemma preserves_get_trace : preserves on_self get_trace.
Proof. intros w. reflexivity. Qed.

Lemma preserves_connector_run
  (remote : list Event -> ScrapingTask -> ScrapeRun) (task : ScrapingTask) :
  preserves on_self (connector_run remote task).
Proof.
  unfold connector_run.
  apply preserves_bind; [apply preserves_get_trace|]. intros tr.
  apply preserves_bind; [apply preserves_log_event|]. intros _.
  apply preserves_bind; [apply preserves_await_seconds|]. intros _.
  apply preserves_ret.
Qed.

Lemma preserves_execute_real_scraping
  (remote : list Event -> ScrapingTask -> ScrapeRun) (task : ScrapingTask) :
  preserves on_self (_execute_real_scraping remote task).
Proof.
  unfold _execute_real_scraping, scrape_facebook_posts, scrape_instagram_posts.
  destruct (String.eqb (platform task) "facebook");
    [|destruct (String.eqb (platform task) "instagram")].
  - apply preserves_bind; [apply preserves_connector_run|].
    intros [pd|error|msg]; [apply preserves_ret..|apply preserves_raise].
  - apply preserves_bind; [apply preserves_connector_run|].
    intros [pd|error|msg]; [apply preserves_ret..|apply preserves_raise].
  - apply preserves_ret.
Qed.

(** An attempt changes [completed_tasks] and the count of fallbacks at
    most. *)
Lemma preserves_attempt (hash : string -> Z) (COMPONENTS_AVAILABLE : bool)
  (remote : list Event -> ScrapingTask -> ScrapeRun)
  (task : ScrapingTask) (session_id : string) :
  (forall k t, preserves on_self (set_completed k t)) ->
  preserves on_self incr_fallback_used ->
  preserves on_self
    (attempt hash COMPONENTS_AVAILABLE remote task session_id).
Proof.
  intros Hc Hf.
  assert (Hfb : preserves on_self
                  (fallback hash COMPONENTS_AVAILABLE task session_id)).
  { unfold fallback, fallback_branch.
    apply preserves_bind.
    - destruct (uses_social_media_extractor task); [|apply preserves_ret].
      unfold social_media_extractor.
      destruct COMPONENTS_AVAILABLE; [apply preserves_ret|apply preserves_raise].
    - intros _.
      apply preserves_bind; [apply preserves_ret|]. intros r.
      apply preserves_bind; [exact Hf|]. intros _.
      apply preserves_bind; [apply Hc|]. intros _. apply preserves_ret. }
  unfold attempt. destruct (_ && _)%bool; [|exact Hfb].
  apply preserves_bind; [apply preserves_execute_real_scraping|]. intros r.
  destruct (truthy _); [|exact Hfb].
  apply preserves_bind; [apply Hc|]. intros _. apply preserves_ret.
Qed.

End ObjectFrames.

(** ** The bookkeeping of one task *)

Section SingleTaskState.

Variable hash : string -> Z.
Variable COMPONENTS_AVAILABLE : bool.
Variable remote : list Event -> ScrapingTask -> ScrapeRun.

Local Abbreviation single :=
  (_execute_single_task_with_fallback hash COMPONENTS_AVAILABLE remote).
Local Abbreviation try_block := (attempt hash COMPONENTS_AVAILABLE remote).

(** The [try] block writes to the orchestrator only on its way out: when it
    raises, the object is as it was; when it returns, the task is in
    [completed_tasks]. *)
Lemma attempt_bookkeeping (task : ScrapingTask) (session_id : string)
  (w : World) :
  match try_block task session_id w with
  | (Return _, w') =>
      completed_tasks (self w')
      = dict_set (completed_tasks (self w)) (task_key session_id task) task
      /\ failed_tasks (self w') = failed_tasks (self w)
      /\ active_tasks (self w') = active_tasks (self w)
      /\ task_counters w' = task_counters w
  | (Raise _, w') => self w' = self w
  end.
Proof.
  assert (Hfb : forall w0 : World,
             match fallback hash COMPONENTS_AVAILABLE task session_id w0 with
             | (Return _, w') =>
                 completed_tasks (self w')
                 = dict_set (completed_tasks (self w0))
                     (task_key session_id task) task
                 /\ failed_tasks (self w') = failed_tasks (self w0)
                 /\ active_tasks (self w') = active_tasks (self w0)
                 /\ task_counters w' = task_counters w0
             | (Raise _, w') => self w' = self w0
             end).
  { intros w0. unfold fallback, social_media_extractor.
    destruct (uses_social_media_extractor task);
      [destruct COMPONENTS_AVAILABLE|];
      cbv [fallback_branch bind ret raise incr_fallback_used set_completed
             set_self]; cbn; auto. }
  unfold attempt. destruct (_ && _)%bool; [|apply Hfb].
  unfold bind.
  pose proof (preserves_execute_real_scraping (fun o => o) remote task w)
    as Hreal. cbn beta in Hreal.
  destruct (_execute_real_scraping remote task w) as [[r|e] w1];
    cbn [snd] in Hreal; [|exact Hreal].
  destruct (truthy (dict_get r "success")).
  - cbv [set_completed set_self ret]. cbn. rewrite Hreal. auto.
  - specialize (Hfb w1).
    destruct (fallback hash COMPONENTS_AVAILABLE task session_id w1)
      as [[r'|e'] w2]; unfold task_counters in *; rewrite <- Hreal;
      exact Hfb.
Qed.

(** The task as it stands at its [j]-th retry. *)
Lemma task_key_retry (session_id : string) (task : ScrapingTask) (j : nat) :
  task_key session_id (Nat.iter j incr_retry_count task)
  = task_key session_id task.
Proof.
  induction j as [|j IH]; [reflexivity|]. simpl. exact IH.
Qed.

Lemma retry_count_iter (task : ScrapingTask) (j : nat) :
  retry_count (Nat.iter j incr_retry_count task) = retry_count task + j
  /\ max_retries (Nat.iter j incr_retry_count task) = max_retries task.
Proof.
  induction j as [|j [IH1 IH2]]; simpl; [lia|]. rewrite IH1, IH2. lia.
Qed.

Lemma sleep_outcome (seconds : nat) (w : World) :
  self (snd (sleep seconds w)) = self w
  /\ (fst (sleep seconds w) = Return tt
      \/ fst (sleep seconds w) = Raise CancelledError).
Proof.
  cbv [sleep bind log_event await_seconds]. cbn [deadline now].
  destruct (deadline w);
    [match goal with |- context [if ?b then _ else _] => destruct b end|];
    cbn; auto.
Qed.

(** What a task leaves in the orchestrator, by the way it ends. *)
Lemma single_state (session_id : string) :
  forall (n : nat) (task : ScrapingTask),
    max_retries task - retry_count task = n ->
    forall w : World,
      let k := task_key session_id task in
      let r := fst (single task session_id w) in
      let o := self w in
      let o' := self (snd (single task session_id w)) in
      (NoDup (keys (active_tasks o)) ->
       active_tasks o' = dict_pop (active_tasks o) k)
      /\ stats_total_tasks (stats o') = stats_total_tasks (stats o)
      /\ stats_successful_tasks (stats o') = stats_successful_tasks (stats o)
      /\ stats_failed_tasks (stats o') = stats_failed_tasks (stats o)
      /\ match r with
         | Return res =>
             exists j : nat,
               j <= n /\
               let t := Nat.iter j incr_retry_count task in
               (completed_tasks o' = dict_set (completed_tasks o) k t
                /\ failed_tasks o' = failed_tasks o)
               \/ (j = n
                   /\ failed_tasks o' = dict_set (failed_tasks o) k t
                   /\ completed_tasks o' = completed_tasks o
                   /\ stats o' = stats o
                   /\ exists msg : string, res = _create_error_result t msg)
         | Raise e =>
             e = CancelledError
             /\ completed_tasks o' = completed_tasks o
             /\ failed_tasks o' = failed_tasks o
             /\ stats o' = stats o
         end.
Proof.
  induction n as [n IH] using lt_wf_ind. intros task Hn w k r o o'.
  subst r o o'.
  set (rw := single task session_id w).
  assert (Hrw : rw = single task session_id w) by reflexivity.
  clearbody rw.
  rewrite _execute_single_task_with_fallback_equation_1 in Hrw.
  unfold bind at 1 in Hrw.
  unfold set_active, set_self, try_finally, try_except in Hrw.
  cbv beta iota in Hrw.
  match type of Hrw with
  | context [try_block task session_id ?w0] => set (w1 := w0) in Hrw
  end.
  pose proof (attempt_bookkeeping task session_id w1) as Ha.
  destruct (try_block task session_id w1) as [[res|e] w2].
  - (* the try block returned *)
    subst rw. cbn in *. destruct Ha as (Hc & Hf & Hact & Hst).
    injection Hst as Ht Hs Hfl.
    split; [|split; [|split; [|split]]]; try assumption.
    + intros _. rewrite Hact. apply dict_pop_set.
    + exists 0. split; [lia|]. left. split; assumption.
  - destruct (is_Exception e) eqn:He.
    + destruct (lt_dec (retry_count task) (max_retries task)) as [Hlt|Hge].
      * (* a retry *)
        unfold bind in Hrw.
        destruct (sleep_outcome 2 w2) as [Hs1 Hs2].
        destruct (sleep 2 w2) as [rs w3]. cbn [fst snd] in Hs1, Hs2.
        destruct Hs2 as [-> | ->].
        -- specialize (IH (n - 1) ltac:(lia) (incr_retry_count task)
                         ltac:(simpl; lia) w3).
           cbv zeta in IH.
           destruct (single (incr_retry_count task) session_id w3)
             as [r4 w4].
           cbn [fst snd] in IH. subst rw. cbn in *.
           rewrite Hs1, Ha in IH. cbn in IH.
           destruct IH as (IHa & IHt & IHs & IHf & IHr).
           split; [|split; [|split; [|split]]]; try assumption.
           ++ intros Hnd. rewrite IHa by (apply NoDup_keys_dict_set; exact Hnd).
              rewrite dict_pop_set. apply dict_pop_absent.
              apply NoDup_keys_dict_pop. exact Hnd.
           ++ destruct r4 as [res|e4]; [|exact IHr].
              destruct IHr
                as (j & Hj & [[Hc Hf]|(Hjn & Hf & Hc & Hst & msg & Hm)]).
              ** exists (S j). split; [lia|]. rewrite Nat.iter_succ_r.
                 left. split; assumption.
              ** exists (S j). split; [lia|]. rewrite Nat.iter_succ_r.
                 right. split; [lia|]. repeat split; try assumption.
                 exists msg. exact Hm.
        -- (* cancelled while waiting to retry *)
           subst rw. cbn in *. rewrite Hs1, Ha. cbn.
           split; [|split; [|split; [|split]]]; auto.
           intros _. apply dict_pop_set.
      * (* the retries are spent *)
        subst rw. cbn in *. rewrite Ha. cbn.
        split; [|split; [|split; [|split]]]; auto.
        -- intros _. apply dict_pop_set.
        -- exists 0. split; [lia|]. right. split; [lia|].
           repeat split. eexists. reflexivity.
    + (* cancelled inside the try block *)
      destruct e; try discriminate He.
      subst rw. cbn in *. rewrite Ha. cbn.
      split; [|split; [|split; [|split]]]; auto.
      intros _. apply dict_pop_set.
Qed.

(** X4.  A task is in [active_tasks] only while it runs: whichever way
    [_execute_single_task_with_fallback] ends (result, error record or
    cancellation, after any number of retries), its key is gone from
    [active_tasks], and the other entries are as they were. *)
Theorem task_leaves_active_tasks (task : ScrapingTask) (session_id : string)
  (w : World) :
  NoDup (keys (active_tasks (self w))) ->
  let o' := self (snd (single task session_id w)) in
  active_tasks o'
  = dict_pop (active_tasks (self w)) (task_key session_id task)
  /\ NoDup (keys (active_tasks o'))
  /\ ~ In (task_key session_id task) (keys (active_tasks o')).
Proof.
  intros Hnd o'.
  destruct (single_state session_id _ task eq_refl w) as [Ha _].
  fold o' in Ha. rewrite (Ha Hnd).
  split; [reflexivity|]. apply NoDup_keys_dict_pop. exact Hnd.
Qed.

(** X5.  How [_execute_single_task_with_fallback] ends decides where the task
    is recorded.  When it returns, the task (with the retry count it reached)
    was put either in [completed_tasks], or in [failed_tasks] after the last
    retry, in which case the result is the error record of
    [_create_error_result] and the statistics are untouched; when it is
    cancelled, neither dictionary nor the statistics changed.  It never ends
    with another exception. *)
Theorem task_recorded_by_outcome (task : ScrapingTask) (session_id : string)
  (w : World) :
  let k := task_key session_id task in
  let o := self w in
  let o' := self (snd (single task session_id w)) in
  match fst (single task session_id w) with
  | Return res =>
      exists j : nat,
        j <= max_retries task - retry_count task /\
        let t := Nat.iter j incr_retry_count task in
        (completed_tasks o' = dict_set (completed_tasks o) k t
         /\ failed_tasks o' = failed_tasks o)
        \/ (j = max_retries task - retry_count task
            /\ failed_tasks o' = dict_set (failed_tasks o) k t
            /\ completed_tasks o' = completed_tasks o
            /\ stats o' = stats o
            /\ exists msg : string, res = _create_error_result t msg)
  | Raise e =>
      e = CancelledError
      /\ completed_tasks o' = completed_tasks o
      /\ failed_tasks o' = failed_tasks o
      /\ stats o' = stats o
  end.
Proof.
  intros k o o'.
  destruct (single_state session_id _ task eq_refl w) as (_ & _ & _ & _ & H).
  exact H.
Qed.

(** A task leaves the counters of [_update_stats] alone. *)
Lemma single_task_counters (task : ScrapingTask) (session_id : string) :
  preserves task_counters (single task session_id).
Proof.
  intros w.
  destruct (single_state session_id _ task eq_refl w)
    as (_ & Ht & Hs & Hf & _).
  unfold task_counters. cbv zeta in Ht, Hs, Hf. rewrite Ht, Hs, Hf.
  reflexivity.
Qed.

End SingleTaskState.

(** ** What a whole call keeps *)

Section Keeps.

Variable I : SocialScrapingOrchestrator -> Prop.

Local Abbreviation kept := (keeps (fun w : World => I (self w))).

Lemma keeps_ret {A : Type} (a : A) : kept (ret a).
Proof. intros w H. exact H. Qed.

Lemma keeps_raise {A : Type} (e : exn) : kept (@raise A e).
Proof. intros w H. exact H. Qed.

Lemma keeps_bind {A B : Type} (m : M A) (k : A -> M B) :
  kept m -> (forall a, kept (k a)) -> kept (bind m k).
Proof.
  intros Hm Hk w H. unfold bind. specialize (Hm w H).
  destruct (m w) as [[a|e] w1]; simpl in *; [|exact Hm].
  apply Hk. exact Hm.
Qed.

Lemma keeps_try_except_timeout {A : Type} (body handler : M A) :
  kept body -> kept handler -> kept (try_except_timeout body handler).
Proof.
  intros Hb Hh w H. unfold try_except_timeout. specialize (Hb w H).
  destruct (body w) as [[a|[msg| |]] w1]; simpl in *; try exact Hb.
  apply Hh. exact Hb.
Qed.

Lemma keeps_run_all {A : Type} (coros : list (M A)) (t0 : nat) :
  Forall kept coros ->
  forall w, I (self w) -> I (self (snd (run_all coros t0 w))).
Proof.
  induction 1 as [|c cs Hc _ IH]; intros w H; cbn [run_all]; [exact H|].
  specialize (Hc (at_time w t0) H).
  destruct (c (at_time w t0)) as [r w1]. cbn [snd] in Hc.
  specialize (IH w1 Hc). destruct (run_all cs t0 w1) as [rs w2].
  exact IH.
Qed.

Lemma keeps_wait_for_gather {A : Type} (coros : list (M A)) (timeout : nat) :
  Forall kept coros -> kept (wait_for_gather coros timeout).
Proof.
  intros Hc w H. unfold wait_for_gather.
  pose proof (keeps_run_all coros (now w) Hc
                (with_deadline w
                   (Some (earliest (deadline w) (now w + timeout)))) H) as Hr.
  destruct (run_all coros (now w) _) as [rs w1]. cbn [snd] in Hr.
  destruct (existsb was_cancelled rs); [destruct (_ <? _)%nat|]; exact Hr.
Qed.

Section Tasks.

Variable hash : string -> Z.
Variable COMPONENTS_AVAILABLE : bool.
Variable remote : list Event -> ScrapingTask -> ScrapeRun.
Variable session_id : string.

Hypothesis kept_by_task :
  forall task : ScrapingTask,
    kept (_execute_single_task_with_fallback hash COMPONENTS_AVAILABLE remote
            task session_id).

Lemma keeps_priority_batch (tasks : list ScrapingTask) :
  kept (_execute_priority_batch hash COMPONENTS_AVAILABLE remote tasks
          session_id).
Proof.
  unfold _execute_priority_batch.
  apply keeps_try_except_timeout; [|apply keeps_ret].
  destruct tasks as [|task0 rest]; [apply keeps_raise|].
  apply keeps_bind; [|intros; apply keeps_ret].
  apply keeps_wait_for_gather. apply Forall_forall.
  intros c Hin. apply in_map_iff in Hin. destruct Hin as [t [<- _]].
  apply kept_by_task.
Qed.

Lemma keeps_run_tier (tier : list ScrapingTask) (results : list (string * dict)) :
  kept (run_tier hash COMPONENTS_AVAILABLE remote tier session_id results).
Proof.
  unfold run_tier. destruct tier; [apply keeps_ret|].
  apply keeps_bind; [apply keeps_priority_batch|]. intros. apply keeps_ret.
Qed.

Lemma keeps_execute_tasks (tasks : list ScrapingTask) :
  kept (_execute_tasks_with_fallbacks hash COMPONENTS_AVAILABLE remote tasks
          session_id).
Proof.
  unfold _execute_tasks_with_fallbacks.
  apply keeps_bind; [apply keeps_run_tier|]. intros r1.
  apply keeps_bind; [apply keeps_run_tier|]. intros r2.
  apply keeps_bind; [apply keeps_run_tier|]. intros r3.
  apply keeps_ret.
Qed.

End Tasks.

End Keeps.

(** The two loops over the results, side by side: [_update_stats] counts a
    result as successful exactly when [_compile_final_result] lists its
    platform as successful. *)
Lemma update_stats_compile_loop (results : list (string * dict)) :
  forall (s : Stats) (c : Compiled),
    let s' := fold_left update_stats_step results s in
    let c' := fold_left compile_step results c in
    stats_total_tasks s' = stats_total_tasks s
    /\ stats_fallback_used s' = stats_fallback_used s
    /\ stats_api_rotations s' = stats_api_rotations s
    /\ stats_successful_tasks s' + length (successful_platforms c)
       = stats_successful_tasks s + length (successful_platforms c')
    /\ stats_failed_tasks s' + length (failed_platforms c)
       = stats_failed_tasks s + length (failed_platforms c')
    /\ length (successful_platforms c') + length (failed_platforms c')
       = length (successful_platforms c) + length (failed_platforms c)
         + length results.
Proof.
  induction results as [|item results IH]; intros s c; cbn [fold_left].
  - cbn. lia.
  - specialize (IH (update_stats_step s item) (compile_step c item)).
    cbv zeta in IH. destruct IH as (H1 & H2 & H3 & H4 & H5 & H6).
    unfold update_stats_step, compile_step in *.
    destruct (truthy (dict_get (snd item) "success"));
      cbn [stats_total_tasks stats_fallback_used stats_api_rotations
           stats_successful_tasks stats_failed_tasks successful_platforms
           failed_platforms length] in *;
      rewrite ?length_app in *; cbn [length] in *; lia.
Qed.

Section WholeCall.

Variable hash : string -> Z.
Variable COMPONENTS_AVAILABLE : bool.
Variable remote : list Event -> ScrapingTask -> ScrapeRun.

Local Abbreviation execute :=
  (execute_comprehensive_scraping hash COMPONENTS_AVAILABLE remote).

(** The session identifier of a call that starts at time [t]. *)
Local Abbreviation session_of session_id t :=
  (match session_id with
   | Some s => if String.eqb s EmptyString then "scraping_" ++ str t else s
   | None => "scraping_" ++ str t
   end).

Local Abbreviation tasks_of query max_results_per_platform platforms :=
  (map (new_task query max_results_per_platform)
     match platforms with
     | None => default_platforms
     | Some l => l
     end).

Lemma execute_unfold (query : string) (platforms : option (list string))
  (max_results_per_platform : Z) (session_id : option string) (w : World) :
  execute query platforms max_results_per_platform session_id w
  = match
      _execute_tasks_with_fallbacks hash COMPONENTS_AVAILABLE remote
        (tasks_of query max_results_per_platform platforms)
        (session_of session_id (now w)) w
    with
    | (Return results, w1) =>
        if COMPONENTS_AVAILABLE then
          (Return (_compile_final_result (self w1) query results
                     (session_of session_id (now w))),
           snd (_update_stats results w1))
        else
          (Raise (PyException "name 'social_media_extractor' is not defined"),
           w1)
    | (Raise e, w1) => (Raise e, w1)
    end.
Proof.
  unfold execute_comprehensive_scraping, social_media_extractor, bind.
  cbn [get_now].
  destruct (_execute_tasks_with_fallbacks _ _ _ _ _ w) as [[results|e] w1];
    [destruct COMPONENTS_AVAILABLE|]; reflexivity.
Qed.

(** X6.  Between calls no task is active: a call of
    [execute_comprehensive_scraping] that starts with [active_tasks] empty
    ends with it empty, whether it returns or is cancelled, and the report it
    returns counts no active task. *)
Theorem execute_leaves_no_active_task (query : string)
  (platforms : option (list string)) (max_results_per_platform : Z)
  (session_id : option string) (w : World) :
  active_tasks (self w) = [] ->
  let run := execute query platforms max_results_per_platform session_id w in
  active_tasks (self (snd run)) = []
  /\ forall report : dict,
       fst run = Return report ->
       exists session_stats : dict,
         dict_get report "stats" = Some (VDict session_stats)
         /\ dict_get session_stats "active_tasks" = Some (VInt 0).
Proof.
  intros Hw run. subst run. rewrite execute_unfold.
  set (tasks := tasks_of query max_results_per_platform platforms).
  set (sid := session_of session_id (now w)).
  pose proof (keeps_execute_tasks (fun o => active_tasks o = [])
                hash COMPONENTS_AVAILABLE remote sid) as Hk.
  specialize (Hk ltac:(
    intros task w0 H0;
    destruct (single_state hash COMPONENTS_AVAILABLE remote sid _ task
                eq_refl w0) as [E _];
    cbv zeta in E; rewrite E, H0 by (rewrite H0; constructor);
    reflexivity) tasks w Hw).
  destruct (_execute_tasks_with_fallbacks hash COMPONENTS_AVAILABLE remote
              tasks sid w) as [[results|e] w1]; cbn [snd] in Hk;
    [destruct COMPONENTS_AVAILABLE|].
  - cbn [_update_stats set_self fst snd self active_tasks].
    split; [exact Hk|]. intros report Hr. inversion Hr as [Hrep].
    eexists. split; [reflexivity|].
    unfold get_session_stats, count_session. rewrite Hk. reflexivity.
  - cbn [fst snd]. split; [exact Hk|]. intros report Hr. discriminate Hr.
  - cbn [fst snd]. split; [exact Hk|]. intros report Hr. discriminate Hr.
Qed.

(** X7.  The global counters follow the report.  A call that returns adds
    the number of platforms in its report to [total_tasks], the number it
    lists as successful to [successful_tasks] and the number it lists as failed
    to [failed_tasks]; a call that is cancelled leaves the three counters as
    they were. *)
Theorem execute_counters_follow_report (query : string)
  (platforms : option (list string)) (max_results_per_platform : Z)
  (session_id : option string) (w : World) :
  let run := execute query platforms max_results_per_platform session_id w in
  let s := stats (self w) in
  let s' := stats (self (snd run)) in
  match fst run with
  | Return report =>
      exists sp fp : list string,
        dict_get report "successful_platforms" = Some (VList (map VStr sp))
        /\ dict_get report "failed_platforms" = Some (VList (map VStr fp))
        /\ dict_get report "platforms_analyzed"
           = Some (int_of (length sp + length fp))
        /\ stats_total_tasks s' = stats_total_tasks s + (length sp + length fp)
        /\ stats_successful_tasks s' = stats_successful_tasks s + length sp
        /\ stats_failed_tasks s' = stats_failed_tasks s + length fp
  | Raise _ =>
      stats_total_tasks s' = stats_total_tasks s
      /\ stats_successful_tasks s' = stats_successful_tasks s
      /\ stats_failed_tasks s' = stats_failed_tasks s
  end.
Proof.
  intros run s s'. subst run s s'. rewrite execute_unfold.
  set (tasks := tasks_of query max_results_per_platform platforms).
  set (sid := session_of session_id (now w)).
  pose proof (keeps_execute_tasks
                (fun o => (stats_total_tasks (stats o),
                           stats_successful_tasks (stats o),
                           stats_failed_tasks (stats o))
                          = task_counters w)
                hash COMPONENTS_AVAILABLE remote sid) as Hk.
  specialize (Hk ltac:(
    intros task w0 H0;
    rewrite <- H0;
    apply (single_task_counters hash COMPONENTS_AVAILABLE remote task sid w0))
    tasks w eq_refl).
  destruct (_execute_tasks_with_fallbacks hash COMPONENTS_AVAILABLE remote
              tasks sid w) as [[results|e] w1]; cbn [snd] in Hk;
    unfold task_counters in Hk; injection Hk as Ht Hs Hf;
    [destruct COMPONENTS_AVAILABLE|].
  - cbn [_update_stats set_self fst snd self stats].
    exists (successful_platforms (compile_loop results)),
           (failed_platforms (compile_loop results)).
    destruct (update_stats_compile_loop results
                {| stats_total_tasks :=
                     stats_total_tasks (stats (self w1)) + length results;
                   stats_successful_tasks :=
                     stats_successful_tasks (stats (self w1));
                   stats_failed_tasks := stats_failed_tasks (stats (self w1));
                   stats_fallback_used := stats_fallback_used (stats (self w1));
                   stats_api_rotations := stats_api_rotations (stats (self w1)) |}
                {| c_total_posts := 0; successful_platforms := [];
                   failed_platforms := [] |})
      as (H1 & _ & _ & H4 & H5 & H6).
    fold (compile_loop results) in H4, H5, H6.
    cbn [stats_total_tasks stats_successful_tasks stats_failed_tasks
         successful_platforms failed_platforms length] in H1, H4, H5, H6.
    split; [reflexivity|]. split; [reflexivity|].
    split; [cbn; rewrite H6; reflexivity|].
    rewrite H1. lia.
  - cbn [fst snd]. auto.
  - cbn [fst snd]. auto.
Qed.

End WholeCall.

(** ** The global statistics *)

(** X8.  [get_global_stats] reports a success rate between 0 and 100 and a
    fallback rate that is not negative, whenever no more tasks are counted as
    successful than were counted in all (which X7 maintains); the division is
    by [max(total_tasks, 1)], never by zero. *)
Theorem global_success_rate_bounds (o : SocialScrapingOrchestrator) :
  stats_successful_tasks (stats o) <= stats_total_tasks (stats o) ->
  exists success_rate fallback_rate : Q,
    dict_get (get_global_stats o) "success_rate" = Some (VFloat success_rate)
    /\ dict_get (get_global_stats o) "fallback_rate"
       = Some (VFloat fallback_rate)
    /\ (0 <= success_rate)%Q /\ (success_rate <= 100)%Q
    /\ (0 <= fallback_rate)%Q.
Proof.
  intros Hle. eexists _, _. split; [reflexivity|]. split; [reflexivity|].
  set (m := Nat.max (stats_total_tasks (stats o)) 1).
  assert (Hm : (0 < inject_Z (Z.of_nat m))%Q).
  { change 0%Q with (inject_Z 0). rewrite <- Zlt_Qlt. lia. }
  assert (Hrate : forall n : nat,
             (0 <= inject_Z (Z.of_nat n) / inject_Z (Z.of_nat m) * 100)%Q).
  { intros n. apply Qmult_le_0_compat; [|discriminate].
    apply Qle_shift_div_l; [exact Hm|]. rewrite Qmult_0_l.
    change 0%Q with (inject_Z 0). rewrite <- Zle_Qle. lia. }
  assert (Hs : (inject_Z (Z.of_nat (stats_successful_tasks (stats o)))
                / inject_Z (Z.of_nat m) * 100 <= 100)%Q).
  { setoid_replace 100%Q with (1 * 100)%Q at 2 by reflexivity.
    apply Qmult_le_compat_r; [|discriminate].
    apply Qle_shift_div_r; [exact Hm|]. rewrite Qmult_1_l.
    rewrite <- Zle_Qle. lia. }
  destruct (py_round_2_bounds _ (Hrate (stats_successful_tasks (stats o))) Hs)
    as (H1 & H2 & _).
  destruct (py_round_2_nonneg _ (Hrate (stats_fallback_used (stats o))))
    as (H3 & _).
  split; [exact H1|]. split; [exact H2|exact H3].
Qed.

(** ** More on the report *)

Lemma no_records_unless_simulated (r : dict) :
  live_result r \/ fallback_empty_result r \/ error_result r ->
  get_list r "results" = [].
Proof.
  intros [(task & pd & [-> | ->])|[(task & ->)|(task & msg & ->)]];
    reflexivity.
Qed.

(** X11.  Only simulated data counts as posts.  A live result of a connector
    keeps its posts under [posts], and [_compile_final_result] adds up
    [results]: a report compiled from live results, empty fallback results and
    error records has [total_posts] 0 and [success] false, however many posts
    the connectors returned. *)
Theorem live_results_count_no_posts (o : SocialScrapingOrchestrator)
  (query : string) (results : list (string * dict)) (session_id : string) :
  (forall p r, In (p, r) results ->
     live_result r \/ fallback_empty_result r \/ error_result r) ->
  let report := _compile_final_result o query results session_id in
  dict_get report "total_posts" = Some (VInt 0)
  /\ dict_get report "success" = Some (VBool false).
Proof.
  intros H report.
  assert (Ht : c_total_posts (compile_loop results) = 0).
  { unfold compile_loop. rewrite compile_loop_total.
    apply successful_records_none. intros p r Hin.
    apply no_records_unless_simulated. eapply H. exact Hin. }
  subst report.
  cbn [_compile_final_result dict_get String.eqb Ascii.eqb Bool.eqb].
  rewrite Ht. split; reflexivity.
Qed.

Lemma live_results_count_no_posts_witness :
  let task :=
    {| platform := "facebook"; query := "q"; max_results := 5; priority := 1;
       timeout_minutes := 10; retry_count := 0; max_retries := 2 |} in
  let pd :=
    {| pd_posts := [VDict [("id", VStr "1")]; VDict [("id", VStr "2")]];
       pd_total_comments := 3; pd_total_engagement := 7 |} in
  let report :=
    _compile_final_result orchestrator_init "q"
      [("facebook", facebook_success_response task pd)] "s" in
  dict_get report "total_posts" = Some (VInt 0)
  /\ dict_get report "success" = Some (VBool false).
Proof.
  intros task pd.
  apply (live_results_count_no_posts orchestrator_init "q"
           [("facebook", facebook_success_response task pd)] "s").
  intros p r [H|[]]. inversion H. left. exists task, pd. left. reflexivity.
Defined.

Lemma compile_loop_platforms (results : list (string * dict)) :
  forall acc : Compiled,
    let c := fold_left compile_step results acc in
    successful_platforms c
    = (successful_platforms acc
       ++ keys (filter (fun kv => truthy (dict_get (snd kv) "success"))
                  results))%list
    /\ failed_platforms c
       = (failed_platforms acc
          ++ keys (filter (fun kv => negb (truthy (dict_get (snd kv) "success")))
                     results))%list.
Proof.
  induction results as [|kv results IH]; intros acc; cbn [fold_left filter].
  - cbn. rewrite !app_nil_r. auto.
  - destruct (IH (compile_step acc kv)) as [IH1 IH2]. cbv zeta.
    rewrite IH1, IH2. unfold compile_step.
    change (list (string * value)) with dict.
    destruct (truthy (dict_get (snd kv) "success"));
      cbn [negb successful_platforms failed_platforms keys map app];
      rewrite <- ?app_assoc; cbn [app]; auto.
Qed.

Lemma partition_permutation {X : Type} (f : X -> bool) (l : list X) :
  Permutation (filter f l ++ filter (fun x => negb (f x)) l) l.
Proof.
  induction l as [|x l IH]; cbn [filter]; [constructor|].
  destruct (f x); cbn [negb app].
  - constructor. exact IH.
  - apply Permutation_sym. apply Permutation_cons_app.
    apply Permutation_sym. exact IH.
Qed.

(** X12.  The report sorts every platform into exactly one of its two lists:
    [successful_platforms] holds, in the order of the results, the platforms
    whose result has a true [success], [failed_platforms] the others, and
    together they are the platforms of the results, [platforms_analyzed] in
    number. *)
Theorem report_sorts_platforms (o : SocialScrapingOrchestrator)
  (query : string) (results : list (string * dict)) (session_id : string) :
  let report := _compile_final_result o query results session_id in
  let succeeded := fun kv : string * dict =>
                     truthy (dict_get (snd kv) "success") in
  let sp := keys (filter succeeded results) in
  let fp := keys (filter (fun kv => negb (succeeded kv)) results) in
  dict_get report "successful_platforms" = Some (VList (map VStr sp))
  /\ dict_get report "failed_platforms" = Some (VList (map VStr fp))
  /\ dict_get report "platforms_analyzed"
     = Some (int_of (length sp + length fp))
  /\ Permutation (sp ++ fp) (keys results).
Proof.
  intros report succeeded sp fp.
  destruct (compile_loop_platforms results
              {| c_total_posts := 0; successful_platforms := [];
                 failed_platforms := [] |}) as [H1 H2].
  fold (compile_loop results) in H1, H2. cbn [app successful_platforms
    failed_platforms] in H1, H2.
  assert (Hp : Permutation (sp ++ fp) (keys results)).
  { unfold sp, fp, keys. rewrite <- map_app. apply Permutation_map.
    apply partition_permutation. }
  subst report.
  cbn [_compile_final_result dict_get String.eqb Ascii.eqb Bool.eqb].
  rewrite H1, H2. repeat split; try exact Hp.
  apply Permutation_length in Hp. rewrite length_app in Hp.
  rewrite Hp. unfold keys. rewrite length_map. reflexivity.
Qed.


(** ** Instances *)

Lemma task_leaves_active_tasks_witness :
  active_tasks
    (self (snd (_execute_single_task_with_fallback (fun _ => 0%Z) true
                  (fun _ _ => {| run_seconds := 9;
                                 run_outcome := ScrapeRaises "boom" |})
                  (new_task "x" 2 "facebook") "s"
                  {| self := orchestrator_init; now := 0; deadline := None;
                     trace := [] |})))
  = dict_pop [] "s_facebook".
Proof.
  exact (proj1 (task_leaves_active_tasks (fun _ => 0%Z) true
                  (fun _ _ => {| run_seconds := 9;
                                 run_outcome := ScrapeRaises "boom" |})
                  (new_task "x" 2 "facebook") "s"
                  {| self := orchestrator_init; now := 0; deadline := None;
                     trace := [] |}
                  (NoDup_nil string))).
Defined.


Lemma execute_leaves_no_active_task_witness :
  active_tasks
    (self (snd (execute_comprehensive_scraping (fun _ => 0%Z) true
                  (fun _ _ => {| run_seconds := 700;
                                 run_outcome := ScrapeFailed "down" |})
                  "x" None 3 (Some "s")
                  {| self := orchestrator_init; now := 0; deadline := None;
                     trace := [] |})))
  = [].
Proof.
  exact (proj1 (execute_leaves_no_active_task (fun _ => 0%Z) true
                  (fun _ _ => {| run_seconds := 700;
                                 run_outcome := ScrapeFailed "down" |})
                  "x" None 3 (Some "s")
                  {| self := orchestrator_init; now := 0; deadline := None;
                     trace := [] |}
                  eq_refl)).
Defined.


Lemma global_success_rate_bounds_witness :
  let o :=
    {| active_tasks := []; completed_tasks := []; failed_tasks := [];
       stats := {| stats_total_tasks := 3; stats_successful_tasks := 2;
                   stats_failed_tasks := 1; stats_fallback_used := 2;
                   stats_api_rotations := 0 |} |} in
  exists success_rate fallback_rate : Q,
    dict_get (get_global_stats o) "success_rate" = Some (VFloat success_rate)
    /\ dict_get (get_global_stats o) "fallback_rate"
       = Some (VFloat fallback_rate)
    /\ (0 <= success_rate)%Q /\ (success_rate <= 100)%Q
    /\ (0 <= fallback_rate)%Q.
Proof.
  intros o. apply (global_success_rate_bounds o). simpl. lia.
Defined.

(** ** The pool of API keys, for any number of calls *)

Lemma next_calls_state (keys : list string) :
  forall (n i : nat),
    i < length keys ->
    let run := next_calls n {| api_keys := keys; current_key_index := i |} in
    snd run
    = {| api_keys := keys; current_key_index := (i + n) mod length keys |}
    /\ length (fst run) = n
    /\ Forall (fun r => exists key, r = Returned (Some key) /\ In key keys)
         (fst run).
Proof.
  induction n as [|n IH]; intros i Hi; cbn [next_calls].
  - cbn. rewrite Nat.add_0_r, Nat.mod_small by exact Hi. auto.
  - destruct (get_next_api_key_in_range keys i Hi) as [key [Hk Hcall]].
    rewrite Hcall.
    assert (Hi' : (i + 1) mod length keys < length keys)
      by (apply Nat.mod_upper_bound; lia).
    specialize (IH _ Hi'). cbv zeta in IH.
    destruct (next_calls n _) as [rs s']. cbn [fst snd] in *.
    destruct IH as (IH1 & IH2 & IH3).
    split; [|split].
    + rewrite IH1. f_equal. rewrite Nat.Div0.add_mod_idemp_l. f_equal. lia.
    + cbn. rewrite IH2. reflexivity.
    + constructor; [|exact IH3]. exists key. split; [reflexivity|].
      eapply nth_error_In. exact Hk.
Qed.

Lemma next_calls_empty (n : nat) :
  next_calls n (scraper_init [])
  = (repeat (Returned None) n, scraper_init []).
Proof.
  induction n as [|n IH]; [reflexivity|].
  cbn [next_calls]. unfold scraper_init in *.
  cbn [_get_next_api_key api_keys]. rewrite IH. reflexivity.
Qed.

(** X13.  From its initial state the pool serves any number of calls:
    [_get_next_api_key] never indexes out of range and never changes the list
    of keys; on a pool with keys every call hands out a key of the pool and
    after [n] calls the cursor is at [n mod N]; on an empty pool every call
    returns [None]. *)
Theorem pool_serves_any_number_of_calls (keys : list string) (n : nat) :
  let run := next_calls n (scraper_init keys) in
  api_keys (snd run) = keys
  /\ length (fst run) = n
  /\ Forall (fun r => match r with
                      | Returned (Some key) => In key keys
                      | Returned None => keys = []
                      | IndexError => False
                      end) (fst run)
  /\ (keys <> [] -> current_key_index (snd run) = n mod length keys).
Proof.
  intros run. subst run. destruct keys as [|k0 ks].
  - rewrite next_calls_empty. cbn [fst snd]. split; [reflexivity|].
    split; [apply repeat_length|]. split; [|congruence].
    apply Forall_forall. intros r Hr. apply repeat_spec in Hr. subst r.
    reflexivity.
  - destruct (next_calls_state (k0 :: ks) n 0 ltac:(simpl; lia))
      as (H1 & H2 & H3).
    unfold scraper_init. rewrite H1. cbn [api_keys current_key_index].
    split; [reflexivity|]. split; [exact H2|]. split; [|reflexivity].
    eapply Forall_impl; [|exact H3]. intros r [key [-> Hin]]. exact Hin.
Qed.

(** ** Loading the keys *)

Lemma load_step_fold (env : string -> option string) (names : list string) :
  forall keys : list string,
    fold_left (load_step env) names keys
    = (keys ++ flat_map (fun name => load_step env [] name) names)%list.
Proof.
  induction names as [|name names IH]; intros keys; cbn [fold_left flat_map].
  - rewrite app_nil_r. reflexivity.
  - rewrite IH.
    assert (H : load_step env keys name
                = (keys ++ load_step env [] name)%list).
    { unfold load_step.
      destruct (env name) as [key|]; [destruct (String.eqb key EmptyString)|];
        cbn [app]; rewrite ?app_nil_r; reflexivity. }
    rewrite H, <- app_assoc. reflexivity.
Qed.

Lemma load_step_one (env : string -> option string) (name : string) :
  Forall (fun key => key <> EmptyString /\ env name = Some key)
    (load_step env [] name)
  /\ length (load_step env [] name) <= 1
  /\ (load_step env [] name = [] <-> env_set env name = false).
Proof.
  unfold load_step, env_set.
  destruct (env name) as [key|]; [destruct (String.eqb key EmptyString) eqn:E|];
    cbn; repeat split; auto; try discriminate.
  constructor; [|constructor]. split; [|reflexivity].
  apply String.eqb_neq. exact E.
Qed.

Lemma numbered_keys (env : string -> option string) (names : list string) :
  let keys := flat_map (fun name => load_step env [] name) names in
  Forall (fun key => key <> EmptyString
                     /\ exists name, In name names /\ env name = Some key) keys
  /\ length keys <= length names
  /\ (keys = [] <-> forall name, In name names -> env_set env name = false).
Proof.
  induction names as [|name names IH]; cbn [flat_map].
  - cbn. repeat split; auto. intros _ name [].
  - cbv zeta in IH. destruct IH as (IH1 & IH2 & IH3).
    destruct (load_step_one env name) as (H1 & H2 & H3).
    split; [|split].
    + apply Forall_app. split.
      * eapply Forall_impl; [|exact H1]. intros key [Hk He].
        split; [exact Hk|]. exists name. split; [left; reflexivity|exact He].
      * eapply Forall_impl; [|exact IH1]. intros key [Hk [nm [Hin He]]].
        split; [exact Hk|]. exists nm. split; [right; exact Hin|exact He].
    + rewrite length_app. cbn [length]. lia.
    + split.
      * intros Happ. apply app_eq_nil in Happ. destruct Happ as [Ha Hb].
        intros nm [<-|Hin]; [apply H3; exact Ha|].
        apply IH3; assumption.
      * intros Hall.
        rewrite (proj2 H3) by (apply Hall; left; reflexivity).
        apply IH3. intros nm Hin. apply Hall. right. exact Hin.
Qed.

(** X14.  [_load_api_keys] reads at most ten keys, none of them empty, each
    the value of one of the variables it names.  It returns no key exactly
    when none of [APIFY_API_KEY_1] to [APIFY_API_KEY_10] and [APIFY_API_KEY]
    is set to a string that is not empty, and [APIFY_API_KEY] counts only
    when no numbered variable is set; the first call of [_get_next_api_key]
    on the scraper built from it returns [None] in that case and the first
    key loaded otherwise. *)
Theorem load_api_keys_from_environment (env : string -> option string) :
  let keys := _load_api_keys env in
  length keys <= 10
  /\ Forall (fun key =>
               key <> EmptyString
               /\ exists name, In name ("APIFY_API_KEY" :: key_names)
                               /\ env name = Some key) keys
  /\ (keys = [] <->
      forall name, In name ("APIFY_API_KEY" :: key_names) ->
                   env_set env name = false)
  /\ ((exists name, In name key_names /\ env_set env name = true) ->
      keys = flat_map (fun name => load_step env [] name) key_names)
  /\ fst (_get_next_api_key (scraper_init keys)) = Returned (hd_error keys).
Proof.
  intros keys. subst keys. unfold _load_api_keys.
  rewrite load_step_fold. cbn [app].
  destruct (numbered_keys env key_names) as (N1 & N2 & N3). cbv zeta in N1, N2, N3.
  destruct (load_step_one env "APIFY_API_KEY") as (M1 & M2 & M3).
  change (length key_names) with 10 in N2.
  destruct (flat_map (fun name => load_step env [] name) key_names)
    as [|k ks] eqn:E.
  - split; [lia|]. split; [|split; [|split]].
    + eapply Forall_impl; [|exact M1]. intros key [Hk He].
      split; [exact Hk|]. exists "APIFY_API_KEY". split; [left; reflexivity|].
      exact He.
    + rewrite M3. split.
      * intros Hm name [<-|Hin]; [exact Hm|]. apply N3; [reflexivity|exact Hin].
      * intros Hall. apply Hall. left. reflexivity.
    + intros [name [Hin Hs]]. rewrite (proj1 N3 eq_refl name Hin) in Hs.
      discriminate Hs.
    + destruct (load_step env [] "APIFY_API_KEY") as [|k [|k' ks']];
        [reflexivity|reflexivity|cbn in M2; lia].
  - split; [exact N2|]. split; [|split; [|split]].
    + eapply Forall_impl; [|exact N1]. intros key [Hk [nm [Hin He]]].
      split; [exact Hk|]. exists nm. split; [right; exact Hin|exact He].
    + split; [discriminate|]. intros Hall.
      apply N3. intros name Hin. apply Hall. right. exact Hin.
    + reflexivity.
    + reflexivity.
Qed.

(** ** Scores of a Facebook post *)

Open Scope Q_scope.

Lemma py_round_2_between (x : Q) (a b : Z) :
  inject_Z a <= x * 100 -> x * 100 <= inject_Z b ->
  exists n : Z, py_round x 2 = Qmake n 100 /\ (a <= n <= b)%Z.
Proof.
  intros Ha Hb. exists (round_half_even (x * inject_Z 100)).
  split; [reflexivity|].
  apply round_half_even_between; assumption.
Qed.

(** X15.  For counters that are not negative, [_calculate_engagement_rate] of
    the Facebook connector lies between 0 and 10: the reach is estimated at
    ten times the engagement, and at 1000 at least, so that a post with 100
    interactions or more always gets exactly 10.0, and a post with fewer gets
    a tenth of their number. *)
Theorem facebook_engagement_rate_capped (raw_post : list (string * Z)) :
  (forall k, 0 <= get_int raw_post k 0)%Z ->
  let total :=
    (get_int raw_post "likesCount" 0 + get_int raw_post "commentsCount" 0
     + get_int raw_post "sharesCount" 0)%Z in
  let rate := _calculate_engagement_rate raw_post in
  0 <= rate /\ rate <= 10
  /\ ((100 <= total)%Z -> rate = Qmake 1000 100)
  /\ ((total < 100)%Z -> rate = Qmake (total * 10) 100).
Proof.
  intros Hk total rate.
  assert (Ht : (0 <= total)%Z).
  { unfold total.
    pose proof (Hk "likesCount"). pose proof (Hk "commentsCount").
    pose proof (Hk "sharesCount"). lia. }
  assert (Hhi : (100 <= total)%Z -> rate = Qmake 1000 100).
  { intros H100. unfold rate, _calculate_engagement_rate. fold total.
    rewrite Z.max_l by lia.
    assert (Hnz : ~ inject_Z total == 0).
    { intros E. unfold Qeq in E. cbn in E. lia. }
    assert (E : inject_Z total / inject_Z (total * 10) * 100 * 100
                == inject_Z 1000).
    { rewrite inject_Z_mult. change (inject_Z 1000) with 1000.
      change (inject_Z 10) with 10. field. exact Hnz. }
    destruct (py_round_2_between
                (inject_Z total / inject_Z (total * 10) * 100) 1000 1000)
      as [n [Hn Hb]].
    - rewrite E. apply Qle_refl.
    - rewrite E. apply Qle_refl.
    - rewrite Hn. f_equal. lia. }
  assert (Hlo : (total < 100)%Z -> rate = Qmake (total * 10) 100).
  { intros H100. unfold rate, _calculate_engagement_rate. fold total.
    rewrite Z.max_r by lia.
    assert (E : inject_Z total / inject_Z 1000 * 100 * 100
                == inject_Z (total * 10)).
    { rewrite inject_Z_mult. change (inject_Z 1000) with 1000.
      change (inject_Z 10) with 10. field. }
    destruct (py_round_2_between
                (inject_Z total / inject_Z 1000 * 100) (total * 10) (total * 10))
      as [n [Hn Hb]].
    - rewrite E. apply Qle_refl.
    - rewrite E. apply Qle_refl.
    - rewrite Hn. f_equal. lia. }
  split; [|split; [|split; [exact Hhi|exact Hlo]]].
  - destruct (Z_lt_le_dec total 100) as [H|H].
    + rewrite (Hlo H). unfold Qle. simpl. lia.
    + rewrite (Hhi H). discriminate.
  - destruct (Z_lt_le_dec total 100) as [H|H].
    + rewrite (Hlo H). unfold Qle. simpl. lia.
    + rewrite (Hhi H). discriminate.
Qed.

(** X16.  For counters that are not negative, [_calculate_virality_score] of
    the Facebook connector is the weighted sum
    [3 * shares + 2 * comments + reactions] in hundredths, capped at 100: it
    lies between 0 and 100 and reaches 100 exactly from a weighted sum of
    10000 on. *)
Theorem facebook_virality_score_bounds (raw_post : list (string * Z)) :
  (forall k, 0 <= get_int raw_post k 0)%Z ->
  let virality :=
    (get_int raw_post "sharesCount" 0 * 3
     + get_int raw_post "commentsCount" 0 * 2
     + get_int raw_post "reactionsCount" 0 * 1)%Z in
  let score := _calculate_virality_score raw_post in
  0 <= score /\ score <= 100
  /\ ((virality <= 10000)%Z -> score == Qmake virality 100)
  /\ ((10000 <= virality)%Z -> score == 100).
Proof.
  intros Hk virality score.
  assert (Hv : (0 <= virality)%Z).
  { unfold virality.
    pose proof (Hk "sharesCount"). pose proof (Hk "commentsCount").
    pose proof (Hk "reactionsCount"). lia. }
  assert (E : inject_Z virality / 100 * 100 == inject_Z virality) by field.
  destruct (py_round_2_between (inject_Z virality / 100) virality virality)
    as [n [Hn Hb]]; [rewrite E; apply Qle_refl..|].
  assert (Hs : score = Qmin (Qmake virality 100) 100.0).
  { unfold score, _calculate_virality_score. fold virality.
    rewrite Hn. do 2 f_equal. lia. }
  assert (Hlo : (virality <= 10000)%Z -> score == Qmake virality 100).
  { intros H. rewrite Hs. apply Q.min_l. unfold Qle. simpl. lia. }
  assert (Hhi : (10000 <= virality)%Z -> score == 100).
  { intros H. rewrite Hs. rewrite Q.min_r; [reflexivity|].
    unfold Qle. simpl. lia. }
  split; [|split; [|split; [exact Hlo|exact Hhi]]].
  - destruct (Z_le_gt_dec virality 10000) as [H|H].
    + rewrite (Hlo H). unfold Qle. simpl. lia.
    + rewrite Hhi by lia. discriminate.
  - destruct (Z_le_gt_dec virality 10000) as [H|H].
    + rewrite (Hlo H). unfold Qle. simpl. lia.
    + rewrite Hhi by lia. apply Qle_refl.
Qed.

Lemma facebook_engagement_rate_capped_witness :
  _calculate_engagement_rate
    [("likesCount", 250%Z); ("commentsCount", 40%Z); ("sharesCount", 10%Z)]
  = Qmake 1000 100.
Proof.
  apply (facebook_engagement_rate_capped
           [("likesCount", 250%Z); ("commentsCount", 40%Z);
            ("sharesCount", 10%Z)]).
  - intros k. unfold get_int. simpl.
    repeat match goal with
           | |- context [if ?b then _ else _] => destruct b
           end; lia.
  - simpl. lia.
Defined.

Lemma facebook_virality_score_bounds_witness :
  _calculate_virality_score
    [("sharesCount", 5000%Z); ("commentsCount", 10%Z); ("reactionsCount", 7%Z)]
  == 100.
Proof.
  apply (facebook_virality_score_bounds
           [("sharesCount", 5000%Z); ("commentsCount", 10%Z);
            ("reactionsCount", 7%Z)]).
  - intros k. unfold get_int. simpl.
    repeat match goal with
           | |- context [if ?b then _ else _] => destruct b
           end; lia.
  - simpl. lia.
Defined.

Close Scope Q_scope.

(** ** Waiting for a run *)







(** ** More on the sentiment summary *)

Lemma sentiment_loop_analysed (platforms_data : list (string * dict)) :
  forall acc,
    fold_left sentiment_step platforms_data acc
    = fold_left sentiment_step (analysed platforms_data) acc.
Proof.
  induction platforms_data as [|[name data] pd IH]; intros acc;
    [reflexivity|].
  unfold analysed. cbn [filter fst fold_left].
  destruct (str_in name sentiment_platforms) eqn:E.
  - cbn [fold_left]. apply IH.
  - rewrite (sentiment_step_skipped acc name data E). apply IH.
Qed.

(** X19.  [analyze_sentiment_trends] looks at the entries of youtube,
    twitter, instagram and linkedin only: whatever else the input holds, the
    Facebook data of the orchestrator included, the summary is the one of
    those entries alone. *)
Theorem sentiment_ignores_other_platforms
  (platforms_data : list (string * dict)) :
  analyze_sentiment_trends platforms_data
  = analyze_sentiment_trends
      (filter (fun kv => str_in (fst kv)
                           ["youtube"; "twitter"; "instagram"; "linkedin"])
         platforms_data).
Proof.
  unfold analyze_sentiment_trends, sentiment_loop.
  rewrite (sentiment_loop_analysed platforms_data).
  rewrite (sentiment_loop_analysed (filter _ platforms_data)).
  unfold analysed, sentiment_platforms.
  replace (filter
             (fun kv : string * dict =>
                str_in (fst kv) ["youtube"; "twitter"; "instagram"; "linkedin"])
             (filter
                (fun kv : string * dict =>
                   str_in (fst kv)
                     ["youtube"; "twitter"; "instagram"; "linkedin"])
                platforms_data))
    with (filter
            (fun kv : string * dict =>
               str_in (fst kv) ["youtube"; "twitter"; "instagram"; "linkedin"])
            platforms_data); [reflexivity|].
  induction platforms_data as [|kv pd IH]; [reflexivity|].
  cbn [filter].
  destruct (str_in (fst kv) ["youtube"; "twitter"; "instagram"; "linkedin"])
    eqn:E; [|exact IH].
  cbn [filter]. rewrite E. f_equal. exact IH.
Qed.

Open Scope Q_scope.

Lemma percentage_bounds (count n : nat) :
  (count <= n)%nat -> (0 < n)%nat ->
  0 <= percentage count n /\ percentage count n <= 100.
Proof.
  intros Hc Hn. unfold percentage, py_round.
  change (Pos.pow 10 (Pos.of_nat 1)) with 10%positive.
  set (x := inject_Z (Z.of_nat count) / inject_Z (Z.of_nat n) * 100).
  assert (Hpos : 0 < inject_Z (Z.of_nat n)).
  { change 0 with (inject_Z 0). rewrite <- Zlt_Qlt. lia. }
  assert (H0 : 0 <= inject_Z (Z.of_nat count) / inject_Z (Z.of_nat n)).
  { apply Qle_shift_div_l; [exact Hpos|]. rewrite Qmult_0_l.
    change 0 with (inject_Z 0). rewrite <- Zle_Qle. lia. }
  assert (H1 : inject_Z (Z.of_nat count) / inject_Z (Z.of_nat n) <= 1).
  { apply Qle_shift_div_r; [exact Hpos|]. rewrite Qmult_1_l.
    rewrite <- Zle_Qle. lia. }
  assert (Hr : (0 <= round_half_even (x * inject_Z 10) <= 1000)%Z).
  { apply round_half_even_between; unfold x.
    - change (inject_Z 0) with 0. change (inject_Z 10) with 10. nra.
    - change (inject_Z 1000) with 1000. change (inject_Z 10) with 10. nra. }
  split; unfold Qle; simpl; lia.
Qed.

Close Scope Q_scope.

(** X20.  Whatever the input, the three overall percentages and the
    confidence score of the sentiment summary are the integer 0 when no
    record was analysed, and numbers between 0 and 100 otherwise. *)
Theorem sentiment_percentages_in_range
  (platforms_data : list (string * dict)) (k : string) :
  In k ["overall_positive_percentage"; "overall_negative_percentage";
        "overall_neutral_percentage"; "confidence_score"] ->
  let summary := analyze_sentiment_trends platforms_data in
  (dict_get summary "total_posts_analyzed" = Some (VInt 0)
   /\ dict_get summary k = Some (VInt 0))
  \/ exists q : Q,
       dict_get summary k = Some (VFloat q) /\ (0 <= q)%Q /\ (q <= 100)%Q.
Proof.
  intros Hk summary. subst summary. unfold analyze_sentiment_trends.
  destruct (sentiment_loop_totals platforms_data
              {| total := no_tally; total_posts := 0;
                 platform_sentiments := [] |}) as [Ht Hn].
  fold (sentiment_loop platforms_data) in Ht, Hn.
  set (records := all_records (analysed platforms_data)) in *.
  pose proof (tally_of_total records) as Hsum.
  cbn [total total_posts] in Ht, Hn. rewrite Ht, Hn. clear Ht Hn.
  unfold tally_add, no_tally.
  cbn [positive negative neutral Nat.add].
  set (t := tally_of records) in *.
  destruct (length records) as [|n] eqn:El.
  - left. cbn [Nat.ltb Nat.leb].
    destruct Hk as [<-|[<-|[<-|[<-|[]]]]]; split; reflexivity.
  - right. cbn [Nat.ltb Nat.leb].
    destruct Hk as [<-|[<-|[<-|[<-|[]]]]]; eexists;
      (split; [reflexivity|]); apply percentage_bounds;
      unfold abs_diff; lia.
Qed.

Lemma sentiment_percentages_in_range_witness :
  let summary :=
    analyze_sentiment_trends [("twitter", _simulate_twitter_data "q" 4)] in
  (dict_get summary "total_posts_analyzed" = Some (VInt 0)
   /\ dict_get summary "confidence_score" = Some (VInt 0))
  \/ exists q : Q,
       dict_get summary "confidence_score" = Some (VFloat q)
       /\ (0 <= q)%Q /\ (q <= 100)%Q.
Proof.
  apply (sentiment_percentages_in_range
           [("twitter", _simulate_twitter_data "q" 4)] "confidence_score").
  simpl. tauto.
Defined.

(** ** The simulated search over all platforms *)

Lemma tally_of_neutral (posts : list value) :
  Forall (fun p => sentiment_of p = "neutral") posts ->
  tally_of posts
  = {| positive := 0; negative := 0; neutral := length posts |}.
Proof.
  induction 1 as [|p posts Hp _ IH]; [reflexivity|].
  unfold tally_of, count_sentiment in *. cbn [filter]. rewrite Hp.
  cbn [String.eqb Ascii.eqb Bool.eqb length].
  injection IH as H1 H2 H3. rewrite H1, H2, H3. reflexivity.
Qed.

(** X21.  [_simulate_linkedin_data] gives [min(max_results, 8)] records (none
    for a bound below 1); record [i] has [85 (i + 1)] likes, [25 (i + 1)]
    comments and [12 (i + 1)] shares, and no [sentiment]: the sentiment
    summary counts every LinkedIn record as neutral. *)
Theorem linkedin_records_are_neutral (query : string) (max_results : Z) :
  let data := _simulate_linkedin_data query max_results in
  let records := get_list data "results" in
  length records = Z.to_nat (Z.min max_results 8)
  /\ dict_get data "total_found" = Some (int_of (length records))
  /\ (forall i p,
        nth_error records i = Some p ->
        post_get p "likes" = Some (int_of ((i + 1) * 85))
        /\ post_get p "comments" = Some (int_of ((i + 1) * 25))
        /\ post_get p "shares" = Some (int_of ((i + 1) * 12))
        /\ post_get p "sentiment" = None)
  /\ tally_of records
     = {| positive := 0; negative := 0; neutral := length records |}.
Proof.
  intros data records.
  assert (Hnth : forall i p,
             nth_error records i = Some p ->
             post_get p "likes" = Some (int_of ((i + 1) * 85))
             /\ post_get p "comments" = Some (int_of ((i + 1) * 25))
             /\ post_get p "shares" = Some (int_of ((i + 1) * 12))
             /\ post_get p "sentiment" = None).
  { intros i p Hn. unfold records, data, _simulate_linkedin_data, get_list in Hn.
    cbn [dict_get String.eqb Ascii.eqb Bool.eqb] in Hn.
    apply nth_error_map_range in Hn. destruct Hn as [-> _].
    repeat split; reflexivity. }
  split; [|split; [|split]].
  - unfold records, data, _simulate_linkedin_data, get_list.
    cbn [dict_get String.eqb Ascii.eqb Bool.eqb].
    rewrite length_map. unfold range. apply length_seq.
  - reflexivity.
  - exact Hnth.
  - apply tally_of_neutral. apply Forall_forall. intros p Hin.
    apply In_nth_error in Hin. destruct Hin as [i Hi].
    destruct (Hnth i p Hi) as (_ & _ & _ & Hs).
    unfold sentiment_of. rewrite Hs. reflexivity.
Qed.

Lemma count_results_dict (results : dict) (total : nat) (platform : string)
  (platform_data : dict) :
  dict_get results platform = Some (VDict platform_data) ->
  count_results results total platform
  = total + length (get_list platform_data "results").
Proof.
  intros H. unfold count_results. rewrite H. unfold get_list, truthy.
  destruct (dict_get platform_data "results") as [[|b|z|q|s|l|d]|];
    cbn [length]; try lia.
  - destruct b; lia.
  - destruct (negb _); lia.
  - destruct (negb _); lia.
  - destruct (negb _); lia.
  - destruct l; cbn [length]; lia.
  - destruct d; lia.
Qed.

(** The loop that counts the results of the five generators. *)
Lemma search_count (hash : string -> Z) (query : string) (n : Z) :
  fold_left
    (count_results
       [ ("query", VStr query);
         ("platforms", VList (map VStr search_platforms));
         ("total_results", VInt 0);
         ("facebook", VDict (_simulate_facebook_data hash query n));
         ("youtube", VDict (_simulate_youtube_data query n));
         ("twitter", VDict (_simulate_twitter_data query n));
         ("instagram", VDict (_simulate_instagram_data query n));
         ("linkedin", VDict (_simulate_linkedin_data query n));
         ("search_quality", VStr "simulated") ])
    search_platforms 0
  = Z.to_nat (Z.min n 8) + Z.to_nat (Z.min n 8) + Z.to_nat (Z.min n 12)
    + Z.to_nat (Z.min n 10) + Z.to_nat (Z.min n 8).
Proof.
  unfold search_platforms. cbn [fold_left].
  rewrite (count_results_dict _ _ "linkedin"
             (_simulate_linkedin_data query n)) by reflexivity.
  rewrite (count_results_dict _ _ "instagram"
             (_simulate_instagram_data query n)) by reflexivity.
  rewrite (count_results_dict _ _ "twitter"
             (_simulate_twitter_data query n)) by reflexivity.
  rewrite (count_results_dict _ _ "youtube"
             (_simulate_youtube_data query n)) by reflexivity.
  rewrite (count_results_dict _ _ "facebook"
             (_simulate_facebook_data hash query n)) by reflexivity.
  unfold get_list, _simulate_facebook_data, _simulate_youtube_data,
    _simulate_twitter_data, _simulate_instagram_data,
    _simulate_linkedin_data.
  cbn [dict_get String.eqb Ascii.eqb Bool.eqb].
  rewrite !length_map. unfold range. rewrite !length_seq. reflexivity.
Qed.

(** X22.  [search_all_platforms] counts what its five generators gave:
    [total_results] is [3 min(n, 8) + min(n, 12) + min(n, 10)] for a bound
    [n] per platform (0 for a bound below 1), each platform's entry is the
    result of its generator, and [success] is true exactly when the bound is
    1 or more. *)
Theorem search_all_platforms_total (hash : string -> Z) (query : string)
  (max_results_per_platform : Z) :
  let found := search_all_platforms hash query max_results_per_platform in
  let upto (cap : Z) := Z.to_nat (Z.min max_results_per_platform cap) in
  dict_get found "total_results"
  = Some (int_of (upto 8%Z + upto 8%Z + upto 12%Z + upto 10%Z + upto 8%Z))
  /\ dict_get found "success"
     = Some (VBool (0 <? max_results_per_platform)%Z)
  /\ dict_get found "facebook"
     = Some (VDict (_simulate_facebook_data hash query max_results_per_platform))
  /\ dict_get found "linkedin"
     = Some (VDict (_simulate_linkedin_data query max_results_per_platform))
  /\ dict_get found "platforms" = Some (VList (map VStr search_platforms)).
Proof.
  intros found upto.
  set (n := max_results_per_platform) in *.
  pose proof (search_count hash query n) as Ht.
  unfold found, search_all_platforms. fold n. rewrite Ht.
  fold (upto 8%Z) (upto 12%Z) (upto 10%Z).
  split; [|split; [|split; [|split]]]; try reflexivity.
  cbn [dict_set dict_get String.eqb Ascii.eqb Bool.eqb]. do 2 f_equal.
  unfold upto. destruct (Z.ltb_spec 0 n) as [H|H].
  - apply Nat.ltb_lt. lia.
  - apply Nat.ltb_ge. lia.
Qed.

(** ** A tier that ends in time *)

Lemma fold_dict_set_other {X V : Type} (key : X -> string) (val : X -> V)
  (l : list X) (k : string) :
  forall d0 : list (string * V),
    ~ In k (map key l) ->
    dict_get (fold_left (fun d x => dict_set d (key x) (val x)) l d0) k
    = dict_get d0 k.
Proof.
  induction l as [|x l IH]; intros d0 Hni; cbn [fold_left]; [reflexivity|].
  cbn [map] in Hni. rewrite IH by (intros H; apply Hni; right; exact H).
  apply dict_get_set_other. intros E. apply Hni. left. symmetry. exact E.
Qed.

Lemma fold_dict_set_unique {X V : Type} (key : X -> string) (val : X -> V)
  (l : list X) (x : X) :
  forall d0 : list (string * V),
    NoDup (map key l) -> In x l ->
    dict_get (fold_left (fun d x => dict_set d (key x) (val x)) l d0) (key x)
    = Some (val x).
Proof.
  induction l as [|y l IH]; intros d0 Hnd Hin; [destruct Hin|].
  cbn [map] in Hnd. inversion Hnd as [|? ? Hni Hnd']. subst.
  cbn [fold_left]. destruct Hin as [->|Hin].
  - rewrite fold_dict_set_other by exact Hni. apply dict_get_set_same.
  - apply IH; assumption.
Qed.

Lemma nth_error_combine_In {A B : Type} (l1 : list A) (l2 : list B) :
  forall (i : nat) (a : A) (b : B),
    nth_error l1 i = Some a -> nth_error l2 i = Some b ->
    In (a, b) (combine l1 l2).
Proof.
  revert l2. induction l1 as [|a1 l1 IH]; intros l2 i a b H1 H2.
  - destruct i; discriminate H1.
  - destruct l2 as [|b2 l2]; [destruct i; discriminate H2|].
    destruct i as [|i]; cbn in H1, H2.
    + inversion H1. inversion H2. left. reflexivity.
    + right. eapply IH; eassumption.
Qed.

(** The loop over the gathered results keeps, for each task, what the task
    returned, when no two tasks share a platform. *)
Lemma collect_results_nth (tasks : list ScrapingTask)
  (outs : list (Outcome dict)) (i : nat) (task : ScrapingTask) (r : dict) :
  length outs = length tasks ->
  NoDup (map platform tasks) ->
  nth_error tasks i = Some task ->
  nth_error outs i = Some (Return r) ->
  dict_get (collect_results tasks outs) (platform task) = Some r.
Proof.
  intros Hlen Hnd Ht Ho.
  set (val := fun tr : ScrapingTask * Outcome dict =>
                match snd tr with
                | Raise _ => _create_fallback_result (fst tr)
                | Return result => result
                end).
  assert (Hr : collect_results tasks outs
               = fold_left (fun d tr => dict_set d (platform (fst tr)) (val tr))
                   (combine tasks outs) []).
  { unfold collect_results, val. generalize (@nil (string * dict)).
    induction (combine tasks outs) as [|tr l IH]; intros d; cbn [fold_left];
      [reflexivity|].
    rewrite <- IH. destruct (snd tr); reflexivity. }
  rewrite Hr.
  apply (fold_dict_set_unique (fun tr => platform (fst tr)) val
           (combine tasks outs) (task, Return r)).
  - rewrite <- (map_map fst platform), map_fst_combine by exact Hlen.
    exact Hnd.
  - eapply nth_error_combine_In; eassumption.
Qed.

Section TierInTime.

Variable hash : string -> Z.
Variable COMPONENTS_AVAILABLE : bool.
Variable remote : list Event -> ScrapingTask -> ScrapeRun.

Local Abbreviation single :=
  (_execute_single_task_with_fallback hash COMPONENTS_AVAILABLE remote).

(** X23.  A tier whose tasks all end before its timeout gives each platform
    the result of its own task: when no task is cut off, no two tasks share a
    platform and nothing outside cancels the tier,
    [_execute_priority_batch] returns, for every task, exactly what
    [_execute_single_task_with_fallback] returned for it; every task did
    return, so the branch that turns an exception of a task into the empty
    fallback result is not taken. *)
Theorem tier_in_time_keeps_task_results (session_id : string)
  (task0 : ScrapingTask) (rest : list ScrapingTask) (w : World) :
  let tasks := task0 :: rest in
  let gathered :=
    fst (run_all (map (fun task => single task session_id) tasks) (now w)
           (with_deadline w (Some (now w + tier_timeout task0)))) in
  deadline w = None ->
  NoDup (map platform tasks) ->
  tier_times_out hash COMPONENTS_AVAILABLE remote tasks session_id w = false ->
  exists results w',
    _execute_priority_batch hash COMPONENTS_AVAILABLE remote tasks session_id w
    = (Return results, w')
    /\ keys results = map platform tasks
    /\ forall i task,
         nth_error tasks i = Some task ->
         exists r t,
           nth_error gathered i = Some (Return r, t)
           /\ dict_get results (platform task) = Some r.
Proof.
  intros tasks gathered Hdl Hnd Hto. subst gathered.
  unfold _execute_priority_batch, try_except_timeout.
  unfold tier_times_out in Hto.
  change (match tasks with
          | [] => raise (PyException "list index out of range")
          | t :: _ =>
              bind (wait_for_gather
                      (map (fun task => single task session_id) tasks)
                      (tier_timeout t))
                (fun task_results => ret (collect_results tasks task_results))
          end)
    with (bind (wait_for_gather
                  (map (fun task => single task session_id) tasks)
                  (tier_timeout task0))
            (fun task_results => ret (collect_results tasks task_results))).
  change (match tasks with
          | [] => false
          | t :: _ =>
              existsb was_cancelled
                (fst (run_all (map (fun task => single task session_id) tasks)
                        (now w)
                        (with_deadline w
                           (Some (earliest (deadline w) (now w + tier_timeout t))))))
          end)
    with (existsb was_cancelled
            (fst (run_all (map (fun task => single task session_id) tasks)
                    (now w)
                    (with_deadline w
                       (Some (earliest (deadline w)
                                (now w + tier_timeout task0))))))) in Hto.
  unfold bind, wait_for_gather. rewrite Hdl in *. cbn [earliest] in *.
  pose proof (run_all_tasks hash COMPONENTS_AVAILABLE remote session_id tasks
                (now w) (with_deadline w (Some (now w + tier_timeout task0))))
    as [Hd [Hl Hf]].
  destruct (run_all _ (now w) _) as [rs w1]. cbn [fst snd] in *.
  rewrite Hto.
  pose proof (existsb_was_cancelled_false rs (task_result hash) Hto Hf) as Hr.
  assert (Hlen : length (map fst rs) = length tasks)
    by (rewrite length_map; exact Hl).
  eexists _, _. split; [reflexivity|]. split.
  - (* the keys, in the order of the tasks *)
    clear Hr Hf Hto Hd.
    assert (Hgen : forall (ts : list ScrapingTask) (os : list (Outcome dict))
                     (d0 : list (string * dict)),
               length os = length ts ->
               NoDup (keys d0 ++ map platform ts) ->
               keys (fold_left
                       (fun results (tr : ScrapingTask * Outcome dict) =>
                          match snd tr with
                          | Raise _ =>
                              dict_set results (platform (fst tr))
                                (_create_fallback_result (fst tr))
                          | Return result =>
                              dict_set results (platform (fst tr)) result
                          end) (combine ts os) d0)
               = (keys d0 ++ map platform ts)%list).
    { induction ts as [|t ts IH]; intros os d0 Hlo Hn; cbn [combine fold_left map].
      - rewrite app_nil_r. reflexivity.
      - destruct os as [|o os]; [discriminate Hlo|]. cbn [combine fold_left].
        assert (Hni : ~ In (platform t) (keys d0)).
        { intros Hin. cbn [map] in Hn. apply NoDup_remove_2 in Hn.
          apply Hn. apply in_or_app. left. exact Hin. }
        assert (Hk : forall v : dict,
                   keys (dict_set d0 (platform t) v)
                   = (keys d0 ++ [platform t])%list).
        { intros v. clear -Hni. induction d0 as [|[k0 v0] d0 IHd]; [reflexivity|].
          cbn [dict_set]. destruct (String.eqb (platform t) k0) eqn:E.
          - apply String.eqb_eq in E. exfalso. apply Hni. left.
            symmetry. exact E.
          - cbn. f_equal. apply IHd. intros H. apply Hni. right. exact H. }
        cbn [snd fst].
        destruct o as [r|e]; rewrite IH;
          try (cbn in Hlo; lia); rewrite Hk;
          try (rewrite <- app_assoc; reflexivity);
          rewrite <- app_assoc; exact Hn. }
    unfold collect_results. rewrite Hgen; [reflexivity|exact Hlen|exact Hnd].
  - intros i task Hi.
    destruct (nth_error rs i) as [[o t]|] eqn:Ers.
    + assert (Ho : nth_error (map fst rs) i = Some o)
        by (rewrite nth_error_map, Ers; reflexivity).
      rewrite Forall_forall in Hr.
      destruct (Hr o (nth_error_In _ _ Ho)) as [r [-> _]].
      exists r, t. split; [reflexivity|].
      apply (collect_results_nth tasks (map fst rs) i task r Hlen Hnd Hi Ho).
    + apply nth_error_None in Ers.
      assert (i < length tasks) by (apply nth_error_Some; congruence). lia.
Qed.

End TierInTime.

Lemma tier_in_time_keeps_task_results_witness :
  let remote := fun (_ : list Event) (t : ScrapingTask) =>
    {| run_seconds := 9; run_outcome := ScrapeFailed "down" |} in
  let tasks := [new_task "x" 2 "facebook"; new_task "x" 2 "instagram"] in
  exists results w',
    _execute_priority_batch (fun _ => 0%Z) true remote tasks "s"
      {| self := orchestrator_init; now := 0; deadline := None; trace := [] |}
    = (Return results, w')
    /\ keys results = ["facebook"; "instagram"].
Proof.
  intros remote tasks.
  destruct (tier_in_time_keeps_task_results (fun _ => 0%Z) true remote "s"
              (new_task "x" 2 "facebook") [new_task "x" 2 "instagram"]
              {| self := orchestrator_init; now := 0; deadline := None;
                 trace := [] |}
              eq_refl
              ltac:(repeat constructor; simpl; intuition discriminate)
              ltac:(vm_compute; reflexivity))
    as [results [w' [E [K _]]]].
  exists results, w'. split; [exact E|exact K].
Defined.

(** ** The simulated extraction *)

Lemma extend_posts_dict (all_platforms_data : dict) (all_posts : list value)
  (platform : string) (platform_data : dict) :
  dict_get all_platforms_data platform = Some (VDict platform_data) ->
  extend_posts all_platforms_data all_posts platform
  = (all_posts ++ get_list platform_data "results")%list.
Proof.
  intros H. unfold extend_posts. rewrite H. unfold get_list, truthy.
  destruct (dict_get platform_data "results") as [[|b|z|q|s|l|d]|];
    rewrite ?app_nil_r; try reflexivity.
  - destruct b; reflexivity.
  - destruct (negb _); reflexivity.
  - destruct (negb _); reflexivity.
  - destruct (negb _); reflexivity.
  - destruct l; rewrite ?app_nil_r; reflexivity.
  - destruct d; reflexivity.
Qed.

Lemma simulated_results_length (hash : string -> Z) (query : string) (n : Z) :
  length (get_list (_simulate_facebook_data hash query n) "results")
  = Z.to_nat (Z.min n 8)
  /\ length (get_list (_simulate_instagram_data query n) "results")
     = Z.to_nat (Z.min n 10)
  /\ length (get_list (_simulate_youtube_data query n) "results")
     = Z.to_nat (Z.min n 8)
  /\ length (get_list (_simulate_twitter_data query n) "results")
     = Z.to_nat (Z.min n 12)
  /\ length (get_list (_simulate_linkedin_data query n) "results")
     = Z.to_nat (Z.min n 8).
Proof.
  unfold get_list, _simulate_facebook_data, _simulate_youtube_data,
    _simulate_twitter_data, _simulate_instagram_data,
    _simulate_linkedin_data.
  cbn [dict_get String.eqb Ascii.eqb Bool.eqb].
  rewrite !length_map. unfold range. rewrite !length_seq.
  repeat split; reflexivity.
Qed.

Lemma simulated_posts (hash : string -> Z) (query : string) :
  fold_left (extend_posts (search_all_platforms hash query 15))
    extract_platforms []
  = (get_list (_simulate_facebook_data hash query 15) "results"
     ++ get_list (_simulate_instagram_data query 15) "results"
     ++ get_list (_simulate_youtube_data query 15) "results"
     ++ get_list (_simulate_twitter_data query 15) "results"
     ++ get_list (_simulate_linkedin_data query 15) "results")%list.
Proof.
  unfold extract_platforms. cbn [fold_left].
  rewrite (extend_posts_dict _ _ "linkedin"
             (_simulate_linkedin_data query 15)) by reflexivity.
  rewrite (extend_posts_dict _ _ "twitter"
             (_simulate_twitter_data query 15)) by reflexivity.
  rewrite (extend_posts_dict _ _ "youtube"
             (_simulate_youtube_data query 15)) by reflexivity.
  rewrite (extend_posts_dict _ _ "instagram"
             (_simulate_instagram_data query 15)) by reflexivity.
  rewrite (extend_posts_dict _ _ "facebook"
             (_simulate_facebook_data hash query 15)) by reflexivity.
  cbn [app]. rewrite <- !app_assoc. reflexivity.
Qed.

Lemma simulated_entries_analysed (hash : string -> Z) (query : string) :
  analysed (dict_entries (search_all_platforms hash query 15))
  = [ ("youtube", _simulate_youtube_data query 15);
      ("twitter", _simulate_twitter_data query 15);
      ("instagram", _simulate_instagram_data query 15);
      ("linkedin", _simulate_linkedin_data query 15) ].
Proof.
  unfold search_all_platforms.
  cbn [dict_set String.eqb Ascii.eqb Bool.eqb].
  reflexivity.
Qed.

(** X24.  [_extract_simulated_data] always reports 46 posts over 5 platforms:
    the records of the five generators for a bound of 15, in the order
    facebook, instagram, youtube, twitter, linkedin, as many as the search
    counted; its sentiment analysis covers 38 of them, those of Facebook being
    left out. *)
Theorem extract_simulated_data_counts (hash : string -> Z)
  (query session_id : string) :
  let data := _extract_simulated_data hash query session_id in
  let found := search_all_platforms hash query 15 in
  let records (platform_data : dict) := get_list platform_data "results" in
  dict_get data "posts"
  = Some (VList (records (_simulate_facebook_data hash query 15)
                 ++ records (_simulate_instagram_data query 15)
                 ++ records (_simulate_youtube_data query 15)
                 ++ records (_simulate_twitter_data query 15)
                 ++ records (_simulate_linkedin_data query 15)))
  /\ dict_get data "total_posts" = Some (VInt 46)
  /\ dict_get found "total_results" = Some (VInt 46)
  /\ dict_get data "platforms_analyzed" = Some (VInt 5)
  /\ dict_get data "success" = Some (VBool true)
  /\ exists sentiment_analysis : dict,
       dict_get data "sentiment_analysis" = Some (VDict sentiment_analysis)
       /\ dict_get sentiment_analysis "total_posts_analyzed" = Some (VInt 38).
Proof.
  intros data found records. subst data found records.
  destruct (simulated_results_length hash query 15)
    as (Lf & Li & Ly & Lt & Ll).
  unfold _extract_simulated_data.
  cbn [dict_get String.eqb Ascii.eqb Bool.eqb].
  rewrite simulated_posts.
  split; [reflexivity|]. split; [|split; [|split; [|split]]].
  - rewrite !length_app, Lf, Li, Ly, Lt, Ll. reflexivity.
  - unfold search_all_platforms. rewrite search_count. reflexivity.
  - reflexivity.
  - reflexivity.
  - eexists. split; [reflexivity|].
    unfold analyze_sentiment_trends.
    cbn [dict_get String.eqb Ascii.eqb Bool.eqb].
    destruct (sentiment_loop_totals
                (dict_entries (search_all_platforms hash query 15))
                {| total := no_tally; total_posts := 0;
                   platform_sentiments := [] |}) as [_ Hn].
    fold (sentiment_loop (dict_entries (search_all_platforms hash query 15)))
      in Hn.
    rewrite Hn, simulated_entries_analysed.
    unfold all_records. cbn [flat_map snd total_posts].
    rewrite !length_app, Li, Ly, Lt, Ll. reflexivity.
Qed.

(** ** A process in which the imports failed *)

Section Offline.

Variable hash : string -> Z.
Variable remote : list Event -> ScrapingTask -> ScrapeRun.

(** The orchestrator where [COMPONENTS_AVAILABLE] is false. *)
Local Abbreviation single :=
  (_execute_single_task_with_fallback hash false remote).

Local Abbreviation name_error :=
  "name 'social_media_extractor' is not defined".

(** The [try] block goes straight to the fallback, which raises at the
    evaluation of the name. *)
Lemma attempt_unbound (task : ScrapingTask) (session_id : string) (w : World) :
  uses_social_media_extractor task = true ->
  attempt hash false remote task session_id w
  = (Raise (PyException name_error), w).
Proof.
  intros Hu. unfold attempt. rewrite andb_false_r.
  unfold fallback, bind. rewrite Hu. reflexivity.
Qed.

Lemma single_unbound (session_id : string) :
  forall (n : nat) (task : ScrapingTask) (w : World),
    uses_social_media_extractor task = true ->
    deadline w = None ->
    max_retries task - retry_count task = n ->
    exists w',
      single task session_id w
      = (Return (_create_error_result (Nat.iter n incr_retry_count task)
                   name_error), w') /\
      deadline w' = None /\
      trace w' = (trace w ++ repeat (EvSleep 2) n)%list /\
      now w' = now w + 2 * n /\
      failed_tasks (self w')
      = dict_set (failed_tasks (self w)) (task_key session_id task)
          (Nat.iter n incr_retry_count task) /\
      completed_tasks (self w') = completed_tasks (self w) /\
      stats (self w') = stats (self w).
Proof.
  induction n as [|n IH]; intros task w Hu Hdl Hn.
  - rewrite _execute_single_task_with_fallback_equation_1.
    unfold bind at 1, set_active, set_self, try_finally, try_except.
    rewrite (attempt_unbound task session_id _ Hu).
    cbn [is_Exception].
    destruct (lt_dec (retry_count task) (max_retries task)) as [Hlt|_];
      [lia|].
    eexists. split; [reflexivity|].
    cbn. rewrite app_nil_r. repeat split; try reflexivity; try assumption. lia.
  - rewrite _execute_single_task_with_fallback_equation_1.
    unfold bind at 1, set_active, set_self, try_finally, try_except.
    rewrite (attempt_unbound task session_id _ Hu).
    cbn [is_Exception].
    destruct (lt_dec (retry_count task) (max_retries task)) as [_|Hge];
      [|lia].
    unfold bind at 1, sleep, bind, log_event, await_seconds, at_time.
    cbn [self now deadline trace]. rewrite Hdl.
    match goal with
    | |- context [single (incr_retry_count task) session_id ?w2] =>
        destruct (IH (incr_retry_count task) w2 Hu eq_refl
                    ltac:(simpl; lia))
          as [w' [E [Hd [Ht [Hnow [Hf [Hc Hs]]]]]]];
        rewrite E
    end.
    cbn [self now deadline trace] in Ht, Hnow, Hf, Hc, Hs.
    cbn [active_tasks completed_tasks failed_tasks stats] in Hf, Hc, Hs.
    eexists. split.
    + unfold pop_active, set_self. cbn [Nat.iter].
      rewrite <- Nat.iter_succ_r. reflexivity.
    + cbn [self now deadline trace active_tasks completed_tasks failed_tasks
           stats].
      split; [exact Hd|]. split.
      { rewrite Ht, <- app_assoc. reflexivity. }
      split; [lia|]. split; [|split; [exact Hc|exact Hs]].
      rewrite Hf. cbn [Nat.iter]. rewrite <- Nat.iter_succ_r. reflexivity.
Qed.

(** X26.  Where the imports of the module failed ([COMPONENTS_AVAILABLE]
    false), a task for facebook, instagram, youtube or twitter gets no data:
    no connector is called, every attempt ends in the [NameError] of
    [social_media_extractor], the task sleeps two seconds before each of the
    retries it has left, and then ends as a failed task: an error record that
    quotes the [NameError] and the retry count reached, stored in
    [failed_tasks], with [completed_tasks] and the statistics untouched. *)
Theorem offline_task_ends_as_error_record (task : ScrapingTask)
  (session_id : string) (w : World) :
  In (platform task) ["facebook"; "instagram"; "youtube"; "twitter"] ->
  deadline w = None ->
  let n := max_retries task - retry_count task in
  let last := Nat.iter n incr_retry_count task in
  exists w',
    _execute_single_task_with_fallback hash false remote task session_id w
    = (Return (_create_error_result last name_error), w')
    /\ retry_count last = retry_count task + n
    /\ trace w' = (trace w ++ repeat (EvSleep 2) n)%list
    /\ now w' = now w + 2 * n
    /\ failed_tasks (self w')
       = dict_set (failed_tasks (self w)) (task_key session_id task) last
    /\ completed_tasks (self w') = completed_tasks (self w)
    /\ stats (self w') = stats (self w).
Proof.
  intros Hp Hdl n last.
  assert (Hu : uses_social_media_extractor task = true).
  { unfold uses_social_media_extractor. apply str_in_In. exact Hp. }
  destruct (single_unbound session_id n task w Hu Hdl eq_refl)
    as (w' & E & _ & Ht & Hn & Hf & Hc & Hs).
  exists w'. split; [exact E|].
  split; [apply retry_count_iter|]. repeat split; assumption.
Qed.

(** X25.  Where the imports of the module failed ([COMPONENTS_AVAILABLE]
    false), [execute_comprehensive_scraping] returns no report: the tasks
    end, each with its result, and [_compile_final_result] then raises the
    [NameError] of [social_media_extractor], which nothing catches; the call
    ends in that exception unless something outside cancelled it before. *)
Theorem offline_call_raises (query : string)
  (platforms : option (list string)) (max_results_per_platform : Z)
  (session_id : option string) (w : World) :
  let run :=
    execute_comprehensive_scraping hash false remote query platforms
      max_results_per_platform session_id w in
  (forall report : dict, fst run <> Return report)
  /\ (deadline w = None -> fst run = Raise (PyException name_error)).
Proof.
  intros run. subst run. rewrite (execute_unfold hash false remote).
  match goal with
  | |- context [_execute_tasks_with_fallbacks _ _ _ ?ts ?s] =>
      set (tasks := ts); set (sid := s)
  end.
  split.
  - intros report.
    destruct (_execute_tasks_with_fallbacks hash false remote tasks sid w)
      as [[results|e] w1]; discriminate.
  - intros Hdl.
    destruct (execute_tasks_returns hash false remote sid tasks w Hdl)
      as (results & w1 & E & _).
    rewrite E. reflexivity.
Qed.

End Offline.

Lemma offline_task_ends_as_error_record_witness :
  let task := new_task "x" 3 "youtube" in
  exists w',
    _execute_single_task_with_fallback (fun _ => 0%Z) false
      (fun _ _ => {| run_seconds := 9; run_outcome := ScrapeOk
                       {| pd_posts := []; pd_total_comments := 0;
                          pd_total_engagement := 0 |} |})
      task "s"
      {| self := orchestrator_init; now := 10; deadline := None; trace := [] |}
    = (Return (_create_error_result
                 (incr_retry_count (incr_retry_count task))
                 "name 'social_media_extractor' is not defined"), w')
    /\ trace w' = [EvSleep 2; EvSleep 2]
    /\ now w' = 14.
Proof.
  intros task.
  destruct (offline_task_ends_as_error_record (fun _ => 0%Z)
              (fun _ _ => {| run_seconds := 9; run_outcome := ScrapeOk
                               {| pd_posts := []; pd_total_comments := 0;
                                  pd_total_engagement := 0 |} |})
              task "s"
              {| self := orchestrator_init; now := 10; deadline := None;
                 trace := [] |}
              ltac:(simpl; auto) eq_refl)
    as (w' & E & _ & Ht & Hn & _).
  exists w'. split; [exact E|]. split; [exact Ht|exact Hn].
Defined.

Lemma offline_call_raises_witness :
  fst (execute_comprehensive_scraping (fun _ => 0%Z) false
         (fun _ _ => {| run_seconds := 9; run_outcome := ScrapeRaises "boom" |})
         "x" None 3 (Some "s")
         {| self := orchestrator_init; now := 4; deadline := None;
            trace := [] |})
  = Raise (PyException "name 'social_media_extractor' is not defined").
Proof.
  apply (proj2 (offline_call_raises (fun _ => 0%Z)
                  (fun _ _ => {| run_seconds := 9;
                                 run_outcome := ScrapeRaises "boom" |})
                  "x" None 3 (Some "s")
                  {| self := orchestrator_init; now := 4; deadline := None;
                     trace := [] |})).
  reflexivity.
Defined.

(** ** Platforms without a connector *)

Lemma in_combine_map {A B : Type} (f : A -> B) (l : list A) (a : A) (b : B) :
  In (a, b) (combine l (map f l)) -> In a l /\ b = f a.
Proof.
  induction l as [|x l IH]; cbn [map combine]; [intros []|].
  intros [H|H].
  - inversion H. subst. split; [left; reflexivity|reflexivity].
  - destruct (IH H) as [H1 H2]. split; [right; exact H1|exact H2].
Qed.

Lemma fold_max_const (l : list nat) (t0 : nat) :
  Forall (fun t => t = t0) l -> fold_left Nat.max l t0 = t0.
Proof.
  induction 1 as [|t l Ht _ IH]; cbn [fold_left]; [reflexivity|].
  subst t. rewrite Nat.max_id. exact IH.
Qed.

Section NoConnector.

Variable hash : string -> Z.
Variable remote : list Event -> ScrapingTask -> ScrapeRun.

(** The orchestrator where the imports succeeded. *)
Local Abbreviation single :=
  (_execute_single_task_with_fallback hash true remote).

(** A task on a platform other than facebook and instagram. *)
Local Abbreviation no_connector :=
  (fun task : ScrapingTask =>
     str_in (platform task) ["facebook"; "instagram"] = false).

Local Abbreviation simulated :=
  (fun task : ScrapingTask => _execute_fallback_scraping hash task).

(** The results that come from the fallback generator, for tasks of
    [tasks]. *)
Local Abbreviation all_simulated tasks results :=
  (forall (p : string) (r : dict),
     dict_get results p = Some r ->
     exists task : ScrapingTask,
       In task tasks /\ platform task = p /\ r = simulated task).

Lemma single_no_connector (task : ScrapingTask) (session_id : string)
  (w : World) :
  no_connector task ->
  let run := single task session_id w in
  fst run = Return (simulated task)
  /\ now (snd run) = now w
  /\ trace (snd run) = trace w
  /\ deadline (snd run) = deadline w.
Proof.
  intros Hp. cbv zeta.
  assert (E : single task session_id w
              = (Return (simulated task),
                 {| self := after_fallback (self w) (task_key session_id task)
                              task;
                    now := now w; deadline := deadline w;
                    trace := trace w |})).
  { rewrite _execute_single_task_with_fallback_equation_1.
    unfold bind at 1, set_active, set_self, try_finally, try_except, attempt.
    rewrite Hp. cbn [andb]. rewrite fallback_bound. reflexivity. }
  rewrite E. cbn. auto.
Qed.

Lemma run_all_no_connector (session_id : string) (tasks : list ScrapingTask)
  (t0 : nat) :
  Forall no_connector tasks ->
  forall w,
    let run := run_all (map (fun task => single task session_id) tasks) t0 w in
    fst run = map (fun task => (Return (simulated task), t0)) tasks
    /\ trace (snd run) = trace w
    /\ deadline (snd run) = deadline w.
Proof.
  induction 1 as [|task tasks Hp _ IH]; intros w; cbn [map run_all].
  - cbn. auto.
  - destruct (single_no_connector task session_id (at_time w t0) Hp)
      as (H1 & H2 & H3 & H4).
    destruct (single task session_id (at_time w t0)) as [o w1].
    cbn [fst snd at_time now trace deadline] in H1, H2, H3, H4.
    specialize (IH w1). cbv zeta in IH.
    destruct (run_all _ t0 w1) as [rs w2]. cbn [fst snd] in *.
    destruct IH as (I1 & I2 & I3).
    rewrite H1, H2, I1. repeat split; congruence.
Qed.

Lemma collect_results_simulated (tasks : list ScrapingTask) :
  all_simulated tasks
    (collect_results tasks (map (fun task => Return (simulated task)) tasks)).
Proof.
  intros p r Hp.
  set (outs := map (fun task => Return (simulated task)) tasks) in *.
  set (val := fun tr : ScrapingTask * Outcome dict =>
                match snd tr with
                | Raise _ => _create_fallback_result (fst tr)
                | Return result => result
                end).
  assert (Hr : collect_results tasks outs
               = fold_left (fun d tr => dict_set d (platform (fst tr)) (val tr))
                   (combine tasks outs) []).
  { unfold collect_results, val. generalize (@nil (string * dict)).
    induction (combine tasks outs) as [|tr l IH]; intros d; cbn [fold_left];
      [reflexivity|].
    rewrite <- IH. destruct (snd tr); reflexivity. }
  rewrite Hr in Hp.
  destruct (fold_dict_set (fun tr => platform (fst tr)) val
              (combine tasks outs) []) as (_ & _ & Hv).
  destruct (Hv p r Hp) as [H|[[t o] [Hin [Hk ->]]]]; [discriminate|].
  apply in_combine_map in Hin. destruct Hin as [Hin ->].
  exists t. repeat split; assumption.
Qed.

Lemma batch_no_connector (session_id : string) (task0 : ScrapingTask)
  (rest : list ScrapingTask) (w : World) :
  deadline w = None ->
  Forall no_connector (task0 :: rest) ->
  exists results w',
    _execute_priority_batch hash true remote (task0 :: rest) session_id w
    = (Return results, w')
    /\ now w' = now w /\ trace w' = trace w /\ deadline w' = None
    /\ all_simulated (task0 :: rest) results.
Proof.
  intros Hdl Hall. set (tasks := task0 :: rest) in *.
  unfold _execute_priority_batch, try_except_timeout.
  change (match tasks with
          | [] => raise (PyException "list index out of range")
          | t :: _ =>
              bind (wait_for_gather
                      (map (fun task => single task session_id) tasks)
                      (tier_timeout t))
                (fun task_results => ret (collect_results tasks task_results))
          end)
    with (bind (wait_for_gather
                  (map (fun task => single task session_id) tasks)
                  (tier_timeout task0))
            (fun task_results => ret (collect_results tasks task_results))).
  unfold bind, wait_for_gather. rewrite Hdl. cbn [earliest].
  destruct (run_all_no_connector session_id tasks (now w) Hall
              (with_deadline w (Some (now w + tier_timeout task0))))
    as (Hrs & Htr & Hd).
  destruct (run_all _ (now w) _) as [rs w1]. cbn [fst snd] in *.
  assert (Hc : existsb was_cancelled rs = false).
  { rewrite Hrs. clear. induction tasks as [|t ts IH]; [reflexivity|].
    cbn [map existsb]. rewrite IH. reflexivity. }
  assert (Hm : fold_left Nat.max (map snd rs) (now w) = now w).
  { apply fold_max_const. rewrite Hrs, map_map. cbn [snd].
    apply Forall_forall. intros t Hin. apply in_map_iff in Hin.
    destruct Hin as [x [<- _]]. reflexivity. }
  rewrite Hc, Hm. cbn [ret].
  eexists _, _. split; [reflexivity|].
  cbn [at_time with_deadline now trace deadline].
  split; [reflexivity|]. split; [exact Htr|]. split; [reflexivity|].
  rewrite Hrs, map_map. cbn [fst]. apply collect_results_simulated.
Qed.

Lemma dict_update_simulated (tasks : list ScrapingTask)
  (results tier_results : list (string * dict)) :
  NoDup (keys tier_results) ->
  all_simulated tasks results -> all_simulated tasks tier_results ->
  all_simulated tasks (dict_update results tier_results).
Proof.
  intros Hnd H1 H2 p r Hp. unfold dict_update in Hp.
  destruct (fold_dict_set fst snd tier_results results) as (_ & _ & Hv).
  destruct (Hv p r Hp) as [H|[[k v] [Hin [Hk ->]]]]; [apply H1; exact H|].
  cbn [fst snd] in *. subst k.
  apply H2. apply In_dict_get; assumption.
Qed.

Lemma run_tier_no_connector (session_id : string)
  (tasks tier : list ScrapingTask) (results : list (string * dict))
  (w : World) :
  deadline w = None -> Forall no_connector tasks -> incl tier tasks ->
  all_simulated tasks results ->
  exists results' w',
    run_tier hash true remote tier session_id results w
    = (Return results', w')
    /\ now w' = now w /\ trace w' = trace w /\ deadline w' = None
    /\ all_simulated tasks results'.
Proof.
  intros Hdl Hall Hincl Hres. unfold run_tier. destruct tier as [|task0 rest].
  - exists results, w. cbn. auto.
  - assert (Htier : Forall no_connector (task0 :: rest)).
    { apply Forall_forall. intros t Hin. rewrite Forall_forall in Hall.
      apply Hall, Hincl, Hin. }
    destruct (batch_no_connector session_id task0 rest w Hdl Htier)
      as (tr & w' & E & Hn & Ht & Hd & Hs).
    destruct (batch_returns hash true remote session_id task0 rest w Hdl)
      as (tr' & w'' & E' & _ & _ & _ & Hnd & _).
    rewrite E in E'. inversion E'. subst tr' w''.
    unfold bind. rewrite E. cbn [ret].
    eexists _, _. split; [reflexivity|]. repeat split; try assumption.
    apply dict_update_simulated; [exact Hnd|exact Hres|].
    intros p r Hp. destruct (Hs p r Hp) as (task & Hin & Hk & Hr).
    exists task. split; [apply Hincl; exact Hin|]. split; assumption.
Qed.

Lemma execute_tasks_no_connector (session_id : string)
  (tasks : list ScrapingTask) (w : World) :
  deadline w = None -> Forall no_connector tasks ->
  exists results w',
    _execute_tasks_with_fallbacks hash true remote tasks session_id w
    = (Return results, w')
    /\ now w' = now w /\ trace w' = trace w /\ deadline w' = None
    /\ all_simulated tasks results.
Proof.
  intros Hdl Hall. unfold _execute_tasks_with_fallbacks.
  assert (Hf : forall p, incl (filter (fun t => priority t =? p) tasks) tasks).
  { intros p t Hin. apply filter_In in Hin. tauto. }
  destruct (run_tier_no_connector session_id tasks _ [] w Hdl Hall (Hf 1))
    as (r1 & w1 & E1 & N1 & T1 & D1 & S1); [intros p r H; discriminate H|].
  destruct (run_tier_no_connector session_id tasks _ r1 w1 D1 Hall (Hf 2) S1)
    as (r2 & w2 & E2 & N2 & T2 & D2 & S2).
  destruct (run_tier_no_connector session_id tasks _ r2 w2 D2 Hall (Hf 3) S2)
    as (r3 & w3 & E3 & N3 & T3 & D3 & S3).
  unfold bind. rewrite E1, E2, E3. cbn [ret].
  exists r3, w3. split; [reflexivity|].
  repeat split; try assumption; congruence.
Qed.

(** X27.  Where the imports of the module succeeded, a call of
    [execute_comprehensive_scraping] for platforms other than facebook and
    instagram is a pure simulation: when nothing outside cancels it, it
    returns its report without calling a connector or sleeping, at the time
    it started, and the result of every requested platform is what
    [_execute_fallback_scraping] gives for the task of that platform:
    simulated data for youtube and twitter, an error record for any other
    platform. *)
Theorem call_without_connector_is_simulated (query : string)
  (platforms : option (list string)) (max_results_per_platform : Z)
  (session_id : option string) (w : World) :
  let requested :=
    match platforms with
    | None => default_platforms
    | Some l => l
    end in
  deadline w = None ->
  (forall p, In p requested -> str_in p ["facebook"; "instagram"] = false) ->
  exists report results w',
    execute_comprehensive_scraping hash true remote query platforms
      max_results_per_platform session_id w = (Return report, w')
    /\ now w' = now w
    /\ trace w' = trace w
    /\ dict_get report "all_platforms_data" = Some (as_platforms_data results)
    /\ forall p,
         In p requested ->
         dict_get results p
         = Some (simulated (new_task query max_results_per_platform p)).
Proof.
  intros requested Hdl Hreq.
  rewrite (execute_unfold hash true remote).
  match goal with
  | |- context [_execute_tasks_with_fallbacks _ _ _ ?ts ?s] =>
      set (tasks := ts); set (sid := s)
  end.
  assert (Hall : Forall no_connector tasks).
  { apply Forall_forall. intros t Hin. unfold tasks in Hin.
    apply in_map_iff in Hin. destruct Hin as (p & <- & Hp).
    cbn [new_task platform]. apply Hreq. exact Hp. }
  destruct (execute_tasks_no_connector sid tasks w Hdl Hall)
    as (results & w1 & E1 & N1 & T1 & _ & S1).
  destruct (execute_tasks_returns hash true remote sid tasks w Hdl)
    as (results' & w1' & E1' & _ & Hk & Hok).
  rewrite E1 in E1'. inversion E1'. subst results' w1'. clear E1'.
  rewrite E1.
  eexists _, results, _. split; [reflexivity|].
  cbn [_update_stats set_self snd now trace].
  split; [exact N1|]. split; [exact T1|]. split; [reflexivity|].
  intros p Hp.
  assert (Hin : In p (keys results)).
  { apply Hk. unfold tasks. apply new_tasks_tiers. exact Hp. }
  destruct (results_lookup hash results p Hok Hin) as (r & Hr & _).
  rewrite Hr. destruct (S1 p r Hr) as (task & Hint & Hpl & ->).
  unfold tasks in Hint. apply in_map_iff in Hint.
  destruct Hint as (p' & <- & _).
  cbn [new_task platform] in Hpl. subst p'. reflexivity.
Qed.

End NoConnector.

Lemma call_without_connector_is_simulated_witness :
  let remote := fun (_ : list Event) (_ : ScrapingTask) =>
    {| run_seconds := 9; run_outcome := ScrapeRaises "boom" |} in
  exists report results w',
    execute_comprehensive_scraping (fun _ => 0%Z) true remote "x"
      (Some ["youtube"; "tiktok"]) 3 (Some "s")
      {| self := orchestrator_init; now := 4; deadline := None; trace := [] |}
    = (Return report, w')
    /\ now w' = 4
    /\ trace w' = []
    /\ dict_get results "youtube" = Some (_simulate_youtube_data "x" 3).
Proof.
  intros remote.
  destruct (call_without_connector_is_simulated (fun _ => 0%Z) remote "x"
              (Some ["youtube"; "tiktok"]) 3 (Some "s")
              {| self := orchestrator_init; now := 4; deadline := None;
                 trace := [] |} eq_refl
              ltac:(simpl; intros p [<-|[<-|[]]]; reflexivity))
    as (report & results & w' & E & N & T & _ & H).
  exists report, results, w'.
  split; [exact E|]. split; [exact N|]. split; [exact T|].
  apply (H "youtube"). simpl. auto.
Defined.
